(** * SRIG layout script (srig_layout_v1.py): a shallow embedding

    The KiCad plugin reads a table of vias (CSV or JSON), places them on a
    grid, and re-spaces selected footprints.  This file embeds the functions
    of [srig_layout_v1.py] and proves or refutes the properties that the
    specification states about them.

    Conventions of the embedding.
    - A Python [int] is a [Z].  A Python [float] is embedded twice.  In the
      first part of the file it is an exact rational [Q], with equalities
      between computed lengths stated with [==]: that is enough for what
      does not depend on rounding, such as which objects are added and in
      which order, what the loader raises, and what is left alone.  In the
      module [B64] it is an IEEE 754 binary64 float, with nan and the
      infinities; what depends on the value of a coordinate, or on a float
      that is not a number, is stated there.
    - A Python [str] is a [string] of code points below 128.
    - A Python exception is a value of [exn]; a call that may raise returns
      a [result].
    - A [dict] keeps insertion order, so it is an association list.
    - The host application (pcbnew) is a record of the objects added to the
      board and of the footprints it holds; an object reference is an index
      into the footprint list.  Its conversions between millimetres, mils
      and host units (nanometres) are those of pcbnew's Python helpers.
    - A function that opens a file takes what the file holds.
      [reportDialog] is left out: it reads and writes nothing of the board.
      The file dialog is the file the user chose, and the settings dialog
      the clicks on OK that the user made. *)

From Stdlib Require Import ZArith QArith Qround List String Ascii Bool Lia.
From Stdlib Require Import Permutation Sorted Morphisms SpecFloat.
From Stdlib Require Import DecimalString DecimalZ DecimalPos.
Import ListNotations.

Open Scope Z_scope.

(** ** Exceptions and results *)

Inductive exn : Type :=
| KeyError
| ValueError
| TypeError
| ZeroDivisionError
| OverflowError
| IndexError.

Inductive result (A : Type) : Type :=
| Ok (a : A)
| Raise (e : exn).

Arguments Ok {A} a.
Arguments Raise {A} e.

Definition rbind {A B : Type} (r : result A) (k : A -> result B) : result B :=
  match r with
  | Ok a => k a
  | Raise e => Raise e
  end.

Notation "x <- r ;; k" := (rbind r (fun x => k))
  (at level 61, r at next level, right associativity).

Fixpoint rmap {A B : Type} (f : A -> result B) (l : list A) : result (list B) :=
  match l with
  | [] => Ok []
  | a :: l' =>
      b <- f a ;;
      bs <- rmap f l' ;;
      Ok (b :: bs)
  end.

(** ** Python built-ins on text *)

Module Py.

Open Scope char_scope.

Definition is_digit (c : ascii) : bool :=
  let n := nat_of_ascii c in (48 <=? n)%nat && (n <=? 57)%nat.

Definition digit_val (c : ascii) : Z := Z.of_nat (nat_of_ascii c) - 48.

(** Whitespace for [str.strip()]: tab to carriage return, the four
    separators 28..31, and the space. *)
Definition is_space (c : ascii) : bool :=
  let n := nat_of_ascii c in
  ((9 <=? n)%nat && (n <=? 13)%nat) || ((28 <=? n)%nat && (n <=? 32)%nat).

(** Whitespace that [int()] skips around a literal: tab to carriage return
    and the space; the separators 28..31 make it raise. *)
Definition is_int_space (c : ascii) : bool :=
  let n := nat_of_ascii c in
  ((9 <=? n)%nat && (n <=? 13)%nat) || (n =? 32)%nat.

Fixpoint lstrip (s : string) : string :=
  match s with
  | EmptyString => EmptyString
  | String c s' => if is_space c then lstrip s' else s
  end.

Fixpoint str_rev_acc (s acc : string) : string :=
  match s with
  | EmptyString => acc
  | String c s' => str_rev_acc s' (String c acc)
  end.

Definition str_rev (s : string) : string := str_rev_acc s EmptyString.

Definition strip (s : string) : string :=
  str_rev (lstrip (str_rev (lstrip s))).

Fixpoint lstrip_int (s : string) : string :=
  match s with
  | EmptyString => EmptyString
  | String c s' => if is_int_space c then lstrip_int s' else s
  end.

Definition strip_int (s : string) : string :=
  str_rev (lstrip_int (str_rev (lstrip_int s))).

(** [str.isdigit()]: non-empty and made of digits. *)
Fixpoint all_digits (s : string) : bool :=
  match s with
  | EmptyString => true
  | String c s' => is_digit c && all_digits s'
  end.

Definition isdigit (s : string) : bool :=
  match s with
  | EmptyString => false
  | _ => all_digits s
  end.

Definition lower_char (c : ascii) : ascii :=
  let n := nat_of_ascii c in
  if (65 <=? n)%nat && (n <=? 90)%nat then ascii_of_nat (n + 32) else c.

Fixpoint lower (s : string) : string :=
  match s with
  | EmptyString => EmptyString
  | String c s' => String (lower_char c) (lower s')
  end.

(** The digits of an integer literal: a digit, then digits each optionally
    preceded by one underscore.  [us] says that the previous character was
    an underscore, so that a digit has to follow. *)
Fixpoint digitpart (s : string) (acc : Z) (us : bool) : option Z :=
  match s with
  | EmptyString => if us then None else Some acc
  | String c s' =>
      if is_digit c then digitpart s' (10 * acc + digit_val c) false
      else if Ascii.eqb c "_" && negb us then digitpart s' acc true
      else None
  end.

Definition unsigned_literal (s : string) : option Z :=
  match s with
  | EmptyString => None
  | String c s' => if is_digit c then digitpart s' (digit_val c) false else None
  end.

(** [int(s)] for a string [s], base 10. *)
Definition int (s : string) : result Z :=
  let body :=
    match strip_int s with
    | String "-" s' => option_map Z.opp (unsigned_literal s')
    | String "+" s' => unsigned_literal s'
    | s' => unsigned_literal s'
    end in
  match body with
  | Some z => Ok z
  | None => Raise ValueError
  end.

(** [str(n)] for an integer [n]; also ['%d' % n]. *)
Definition str (n : Z) : string := NilZero.string_of_int (Z.to_int n).

(** [re.split('([0-9]+)', s)]: the text cut at each maximal run of digits,
    the runs themselves kept.  [cur] is the run being read, reversed;
    [indig] says whether it is a run of digits. *)
Fixpoint split_runs (s : string) (cur : string) (indig : bool) : list string :=
  match s with
  | EmptyString =>
      if indig then [str_rev cur; EmptyString] else [str_rev cur]
  | String c s' =>
      if is_digit c then
        if indig then split_runs s' (String c cur) true
        else str_rev cur :: split_runs s' (String c EmptyString) true
      else
        if indig then str_rev cur :: split_runs s' (String c EmptyString) false
        else split_runs s' (String c cur) false
  end.

Definition re_split_digits (s : string) : list string :=
  split_runs s EmptyString false.

(** [a < b] on [str]: lexicographic on code points. *)
Definition str_lt (a b : string) : bool := String.ltb a b.

End Py.

Open Scope string_scope.

(** ** Dictionaries

    A [dict] iterates in insertion order, and storing under a key that is
    already present keeps the key where it is. *)

Section Dict.
Context {V : Type}.

Definition dict : Type := list (string * V).

Fixpoint dict_get (k : string) (d : dict) : option V :=
  match d with
  | [] => None
  | (k', v) :: d' => if String.eqb k' k then Some v else dict_get k d'
  end.

Fixpoint dict_set (k : string) (v : V) (d : dict) : dict :=
  match d with
  | [] => [(k, v)]
  | (k', v') :: d' =>
      if String.eqb k' k then (k', v) :: d' else (k', v') :: dict_set k v d'
  end.

Definition dict_keys (d : dict) : list string := map fst d.

(** [d[k]] *)
Definition getitem (k : string) (d : dict) : result V :=
  match dict_get k d with
  | Some v => Ok v
  | None => Raise KeyError
  end.

(** [dict(pairs)] *)
Definition dict_of (pairs : list (string * V)) : dict :=
  fold_left (fun d kv => dict_set (fst kv) (snd kv) d) pairs [].
End Dict.

Arguments dict V : clear implicits.

(** ** [sorted(l, key=...)]

    The keys are computed first, in order; the list is then sorted on them
    with [<] alone, and elements with equal keys keep their order.  The
    model inserts each element in front of the sorted rest, before the
    first element that is not smaller. *)

Section Sorted.
Context {A K : Type}.
Variable key : A -> result K.
Variable lt : K -> K -> result bool.

Fixpoint insert (x : K * A) (l : list (K * A)) : result (list (K * A)) :=
  match l with
  | [] => Ok [x]
  | y :: l' =>
      b <- lt (fst y) (fst x) ;;
      if b then (r <- insert x l' ;; Ok (y :: r)) else Ok (x :: y :: l')
  end.

Fixpoint isort (l : list (K * A)) : result (list (K * A)) :=
  match l with
  | [] => Ok []
  | x :: l' => s <- isort l' ;; insert x s
  end.

Definition decorate (a : A) : result (K * A) := k <- key a ;; Ok (k, a).

Definition sorted (l : list A) : result (list A) :=
  ks <- rmap decorate l ;;
  s <- isort ks ;;
  Ok (map snd s).
End Sorted.

Definition int_lt (a b : Z) : result bool := Ok (a <? b)%Z.

(** [sorted(keys, key=lambda s: int(s))] *)
Definition sorted_by_int (keys : list string) : result (list string) :=
  sorted Py.int int_lt keys.

(** ** natural_sort *)

(** An element of a sort key: [int(text)] or [text.lower()]. *)
Inductive chunk : Type :=
| CInt (n : Z)
| CStr (s : string).

(** [convert = lambda text: int(text) if text.isdigit() else text.lower()] *)
Definition convert (text : string) : result chunk :=
  if Py.isdigit text then (n <- Py.int text ;; Ok (CInt n))
  else Ok (CStr (Py.lower text)).

(** [alphanum_key = lambda key: [convert(c) for c in re.split('([0-9]+)', key)]] *)
Definition alphanum_key (key : string) : result (list chunk) :=
  rmap convert (Py.re_split_digits key).

(** [==] between an [int] and a [str] is [False]. *)
Definition chunk_eqb (a b : chunk) : bool :=
  match a, b with
  | CInt x, CInt y => (x =? y)%Z
  | CStr x, CStr y => String.eqb x y
  | _, _ => false
  end.

(** [<] between an [int] and a [str] raises [TypeError]. *)
Definition chunk_lt (a b : chunk) : result bool :=
  match a, b with
  | CInt x, CInt y => Ok (x <? y)%Z
  | CStr x, CStr y => Ok (Py.str_lt x y)
  | _, _ => Raise TypeError
  end.

(** [<] on lists: decided at the first position where the two differ, else
    by the lengths. *)
Fixpoint key_lt (a b : list chunk) : result bool :=
  match a, b with
  | [], [] => Ok false
  | [], _ :: _ => Ok true
  | _ :: _, [] => Ok false
  | x :: a', y :: b' => if chunk_eqb x y then key_lt a' b' else chunk_lt x y
  end.

Definition natural_sort (l : list string) : result (list string) :=
  sorted alphanum_key key_lt l.

(** ** Files

    A CSV file is taken as the records that [csv.reader] yields, the header
    first; a JSON file as the [dict] that [json.load] returns, in the order
    of the text.  Every value of the JSON table is an object with the four
    numbers [X], [Y], [ID], [OD]; the keys are arbitrary text. *)

Definition csv_rows : Type := list (list string).

(** One cell of a [DictReader] row: [None] where the record is shorter
    than the header. *)
Definition cell : Type := option string.

(** [dict(zip(fieldnames, row))], then [restval] for the missing fields.
    Fields beyond the header go under the key [None], which no lookup by
    name reaches; they are left out. *)
Definition row_dict (fieldnames row : list string) : dict cell :=
  let d := dict_of (map (fun kv => (fst kv, Some (snd kv))) (combine fieldnames row)) in
  fold_left (fun d k => dict_set k None d) (skipn (List.length row) fieldnames) d.

Definition is_blank (row : list string) : bool :=
  match row with
  | [] => true
  | _ => false
  end.

(** [csv.DictReader(f)]: the first record names the fields, and blank
    records are skipped. *)
Definition DictReader (f : csv_rows) : list (dict cell) :=
  match f with
  | [] => []
  | fieldnames :: rows =>
      map (row_dict fieldnames) (filter (fun r => negb (is_blank r)) rows)
  end.

(** A record of the via table: the value of [viaDict[k]]. *)
Record via : Type := mk_via { X : Q; Y : Q; ID : Q; OD : Q }.

(** A number read by [json.load]: an [int] or a [float]. *)
Inductive jnum : Type :=
| JInt (z : Z)
| JFloat (q : Q).

Record jvia : Type := mk_jvia { jX : jnum; jY : jnum; jID : jnum; jOD : jnum }.

(** [float(v)] for a number [v]. *)
Definition float_of_jnum (v : jnum) : Q :=
  match v with
  | JInt z => inject_Z z
  | JFloat q => q
  end.

(** [int(c)] for a cell: [int(None)] raises [TypeError]. *)
Definition int_cell (c : cell) : result Z :=
  match c with
  | Some s => Py.int s
  | None => Raise TypeError
  end.

Section Table.
(** [float(s)] for text [s], and [repr(x)] for a float [x]: Python's
    conversions between floats and text are parameters of the model. *)
Variable float_of_str : string -> result Q.
Variable repr : Q -> string.

Definition float_cell (c : cell) : result Q :=
  match c with
  | Some s => float_of_str s
  | None => Raise TypeError
  end.

(** The body of the loop of [restoreCSV]. *)
Definition restoreCSV_row (row : dict cell) (viaDict : dict via)
  : result (dict via) :=
  ci <- getitem "index" row ;;
  n <- int_cell ci ;;
  let k := Py.str n in
  cx <- getitem "X" row ;;
  x <- float_cell cx ;;
  cy <- getitem "Y" row ;;
  y <- float_cell cy ;;
  cid <- getitem "ID" row ;;
  id <- float_cell cid ;;
  cod <- getitem "OD" row ;;
  od <- float_cell cod ;;
  Ok (dict_set k {| X := x; Y := y; ID := id; OD := od |} viaDict).

Fixpoint restoreCSV_loop (rows : list (dict cell)) (viaDict : dict via)
  : result (dict via) :=
  match rows with
  | [] => Ok viaDict
  | row :: rows' =>
      d <- restoreCSV_row row viaDict ;;
      restoreCSV_loop rows' d
  end.

Definition restoreCSV (f : csv_rows) : result (dict via) :=
  restoreCSV_loop (DictReader f) [].

(** [str(v)] for a number, as [csv] writes it. *)
Definition str_of_jnum (v : jnum) : string :=
  match v with
  | JInt z => Py.str z
  | JFloat q => repr q
  end.

(** [convertJSONtoCSV], between the two file dialogs and the report.
    [json_rows] is the list [rows] built from the table; [writerow] is what
    the [DictWriter] writes for one of its entries; the file starts with
    the header. *)
Definition json_rows (jd : dict jvia) : result (list (Z * jvia)) :=
  ks <- sorted_by_int (dict_keys jd) ;;
  rmap (fun k =>
          v <- getitem k jd ;;
          n <- Py.int k ;;
          Ok (n, v)) ks.

Definition writerow (row : Z * jvia) : list string :=
  let (index, v) := row in
  [Py.str index; str_of_jnum (jX v); str_of_jnum (jY v);
   str_of_jnum (jID v); str_of_jnum (jOD v)].

Definition convertJSONtoCSV (jd : dict jvia) : result csv_rows :=
  rows <- json_rows jd ;;
  Ok (["index"; "X"; "Y"; "ID"; "OD"] :: map writerow rows).
End Table.

(** ** The host: pcbnew *)

Module Pcbnew.

Definition IU_PER_MM : Z := 1000000.
Definition IU_PER_MILS : Z := 25400.

(** [int(x)] for a float [x]: towards zero. *)
Definition int_of_float (x : Q) : Z := Z.quot (Qnum x) (Z.pos (Qden x)).

Definition FromMM (mm : Q) : Z := int_of_float (mm * inject_Z IU_PER_MM).
Definition ToMM (iu : Q) : Q := iu / inject_Z IU_PER_MM.
Definition FromMils (mils : Q) : Z := int_of_float (mils * inject_Z IU_PER_MILS).
Definition ToMils (iu : Q) : Q := iu / inject_Z IU_PER_MILS.

(** [pcbIUScale.mmToIU]: to the nearest unit, halves away from zero. *)
Definition mmToIU (mm : Q) : Z :=
  if Qle_bool 0 mm then int_of_float (mm * inject_Z IU_PER_MM + (1 # 2))
  else int_of_float (mm * inject_Z IU_PER_MM - (1 # 2)).

Definition point : Type := (Z * Z)%type.

Definition wxPointMM (mmx mmy : Q) : point := (FromMM mmx, FromMM mmy).
Definition wxPointMils (mmx mmy : Q) : point := (FromMils mmx, FromMils mmy).
Definition wxSize (w h : Z) : point := (w, h).

Inductive layer : Type := F_Cu | B_Cu | F_SilkS | B_Mask | F_Mask.
Inductive viatype : Type := VIATYPE_THROUGH | VIATYPE_NOT_DEFINED.
Inductive shape_t : Type := S_SEGMENT | S_CIRCLE.

Record PCB_VIA : Type := mk_pcb_via {
  via_pos : point;
  via_drill : Z;
  via_width : Z;
  via_layers : layer * layer;
  via_type : viatype }.

Record PCB_SHAPE : Type := mk_shape {
  shape_kind : shape_t;
  shape_layer : layer;
  shape_start : point;
  shape_end : point;
  shape_filled : bool }.

Record PCB_TEXT : Type := mk_text {
  text_pos : point;
  text_layer : layer;
  text_visible : bool;
  text_size : point;
  text_thickness : Z;
  text_text : string }.

Record FOOTPRINT : Type := mk_fp {
  fp_reference : string;
  fp_selected : bool;
  fp_position : point }.

Inductive item : Type :=
| Via (v : PCB_VIA)
| Shape (s : PCB_SHAPE)
| Text (t : PCB_TEXT).

(** The board: what was added to it, oldest first, and its footprints. *)
Record BOARD : Type := mk_board {
  items : list item;
  footprints : list FOOTPRINT }.

Definition Add (it : item) (b : BOARD) : BOARD :=
  {| items := items b ++ [it]; footprints := footprints b |}.

(** [fp.SetPosition(p)] for the footprint at index [j]. *)
Fixpoint set_nth (j : nat) (p : point) (l : list FOOTPRINT) : list FOOTPRINT :=
  match l, j with
  | [], _ => []
  | fp :: l', O =>
      {| fp_reference := fp_reference fp; fp_selected := fp_selected fp;
         fp_position := p |} :: l'
  | fp :: l', S j' => fp :: set_nth j' p l'
  end.

Definition SetPosition (j : nat) (p : point) (b : BOARD) : BOARD :=
  {| items := items b; footprints := set_nth j p (footprints b) |}.

(** A new shape lies at the origin; moving a circle moves its centre
    [shape_start] and the point [shape_end] on its rim together. *)
Definition new_shape : PCB_SHAPE :=
  {| shape_kind := S_SEGMENT; shape_layer := F_Cu; shape_start := (0, 0);
     shape_end := (0, 0); shape_filled := false |}.

Definition SetShape (k : shape_t) (s : PCB_SHAPE) : PCB_SHAPE :=
  {| shape_kind := k; shape_layer := shape_layer s; shape_start := shape_start s;
     shape_end := shape_end s; shape_filled := shape_filled s |}.

Definition SetLayer (l : layer) (s : PCB_SHAPE) : PCB_SHAPE :=
  {| shape_kind := shape_kind s; shape_layer := l; shape_start := shape_start s;
     shape_end := shape_end s; shape_filled := shape_filled s |}.

Definition SetShapePosition (p : point) (s : PCB_SHAPE) : PCB_SHAPE :=
  let dx := fst p - fst (shape_start s) in
  let dy := snd p - snd (shape_start s) in
  {| shape_kind := shape_kind s; shape_layer := shape_layer s;
     shape_start := (fst (shape_start s) + dx, snd (shape_start s) + dy);
     shape_end := (fst (shape_end s) + dx, snd (shape_end s) + dy);
     shape_filled := shape_filled s |}.

Definition SetStartX (x : Z) (s : PCB_SHAPE) : PCB_SHAPE :=
  {| shape_kind := shape_kind s; shape_layer := shape_layer s;
     shape_start := (x, snd (shape_start s)); shape_end := shape_end s;
     shape_filled := shape_filled s |}.

Definition SetEndX (x : Z) (s : PCB_SHAPE) : PCB_SHAPE :=
  {| shape_kind := shape_kind s; shape_layer := shape_layer s;
     shape_start := shape_start s; shape_end := (x, snd (shape_end s));
     shape_filled := shape_filled s |}.

Definition SetFilled (f : bool) (s : PCB_SHAPE) : PCB_SHAPE :=
  {| shape_kind := shape_kind s; shape_layer := shape_layer s;
     shape_start := shape_start s; shape_end := shape_end s;
     shape_filled := f |}.

End Pcbnew.

Import Pcbnew.

Open Scope Q_scope.

(** ** create_via *)

(** [VECTOR2I(int(pt.x), int(pt.y))] *)
Definition vec_from_point (pt : point) : point := pt.

(** [VECTOR2I(w, h)] of a size *)
Definition vec_from_size (sz : point) : point := sz.

(** The via is added to the board and then set up through the reference
    the board holds too: the board ends up with the finished via, at the
    place of the [Add]. *)
Definition create_via (board : BOARD) (net : string)
    (xPos yPos drillSize drillWidth : Q) (addMaskBool : bool) : BOARD :=
  let newPos := wxPointMM xPos yPos in
  let newvia :=
    {| via_pos := vec_from_point newPos;
       via_drill := mmToIU drillSize;
       via_width := mmToIU drillWidth;
       via_layers := (F_Cu, F_Cu);
       via_type := VIATYPE_THROUGH |} in
  let board := Add (Via newvia) board in
  if addMaskBool then
    let startX := mmToIU xPos in
    let circRadius := (mmToIU (drillWidth / 2) + startX)%Z in
    let bMaskCir := new_shape in
    let bMaskCir := SetShape S_CIRCLE bMaskCir in
    let bMaskCir := SetLayer B_Mask bMaskCir in
    let bMaskCir := SetShapePosition (vec_from_point newPos) bMaskCir in
    let bMaskCir := SetStartX startX bMaskCir in
    let bMaskCir := SetEndX circRadius bMaskCir in
    let bMaskCir := SetFilled true bMaskCir in
    let board := Add (Shape bMaskCir) board in
    let fMaskCir := new_shape in
    let fMaskCir := SetShape S_CIRCLE fMaskCir in
    let fMaskCir := SetLayer F_Mask fMaskCir in
    let fMaskCir := SetShapePosition (vec_from_point newPos) fMaskCir in
    let fMaskCir := SetStartX startX fMaskCir in
    let fMaskCir := SetEndX circRadius fMaskCir in
    let fMaskCir := SetFilled true fMaskCir in
    Add (Shape fMaskCir) board
  else board.

(** ** Loops

    [for i, k in enumerate(l)]: the body returns the state it reached and
    the exception that left it, if any; an exception ends the loop. *)

Fixpoint for_each {K S : Type} (body : Z -> K -> S -> S * option exn)
    (i : Z) (l : list K) (st : S) : S * option exn :=
  match l with
  | [] => (st, None)
  | k :: l' =>
      match body i k st with
      | (st', None) => for_each body (i + 1) l' st'
      | (st', Some e) => (st', Some e)
      end
  end.

(** A body that raises only before it changes anything. *)
Definition atomic {S : Type} (r : result S) (st : S) : S * option exn :=
  match r with
  | Ok st' => (st', None)
  | Raise e => (st, Some e)
  end.

(** [a % b == 0] *)
Definition divides (b a : Z) : result bool :=
  if (b =? 0)%Z then Raise ZeroDivisionError else Ok (a mod b =? 0)%Z.

(** ** funnelFromCSV and funnelFromJson *)

(** The variables of the placement loop. *)
Record place_state : Type := mk_place { yMod : Q; m : Z; pcb : BOARD }.

Definition netDefault : string := "1".
Definition origin : point := wxPointMM 0 0.
Definition textLayer : layer := F_SilkS.
Definition textsize : point := wxSize (FromMM 4) (FromMM 4).
Definition thickness : Z := FromMM (1 # 2).

(** The body of the loop, the same text in both functions; [lookup k] is
    [viaDict[k]] with its four numbers as floats.  Whatever raises in it
    does so before the first [Add]. *)
Definition funnel_body (lookup : string -> result via) (xStep yStep : Q)
    (numCols : Z) (i : Z) (k : string) (st : place_state) : result place_state :=
  wrap <- (if (0 <? i)%Z then divides numCols i else Ok false) ;;
  let yMod := if wrap then yMod st + yStep else yMod st in
  let m := if wrap then 0%Z else m st in
  v <- lookup k ;;
  let curX := X v in
  let curY := Y v in
  let curDiam := ID v in
  let curOD := OD v in
  let curX := curX + ToMM (inject_Z (fst origin)) in
  let curY := curY + ToMM (inject_Z (snd origin)) in
  let curX := curX + xStep * inject_Z m in
  let m := (m + 1)%Z in
  let curY := curY + yMod in
  let textPos := wxPointMM curX (curY + curOD / 2 + 4) in
  n <- Py.int k ;;
  let text :=
    {| text_pos := vec_from_point textPos;
       text_layer := textLayer;
       text_visible := true;
       text_size := textsize;
       text_thickness := thickness;
       text_text := Py.str (n + 1) |} in
  let pcb := Add (Text text) (pcb st) in
  let pcb := create_via pcb netDefault curX curY curDiam curOD true in
  Ok {| yMod := yMod; m := m; pcb := pcb |}.

Definition funnel_loop (lookup : string -> result via) (xStep yStep : Q)
    (numCols : Z) (keyList : list string) (board : BOARD) : BOARD * option exn :=
  let '(st, e) :=
    for_each (fun i k st => atomic (funnel_body lookup xStep yStep numCols i k st) st)
      0 keyList {| yMod := 0; m := 0; pcb := board |} in
  (pcb st, e).

Section Funnel.
Variable float_of_str : string -> result Q.

(** The result is the board and the exception that ended the call, if
    any. *)
Definition funnelFromCSV (csvFile : csv_rows) (xStep yStep : Q) (numCols : Z)
    (board : BOARD) : BOARD * option exn :=
  match restoreCSV float_of_str csvFile with
  | Raise e => (board, Some e)
  | Ok viaDict =>
      match sorted_by_int (dict_keys viaDict) with
      | Raise e => (board, Some e)
      | Ok keyList =>
          funnel_loop (fun k => getitem k viaDict) xStep yStep numCols keyList board
      end
  end.
End Funnel.

Definition via_of_jvia (v : jvia) : via :=
  {| X := float_of_jnum (jX v); Y := float_of_jnum (jY v);
     ID := float_of_jnum (jID v); OD := float_of_jnum (jOD v) |}.

(** [jsonFile] is the table that [restoreJSON] returns. *)
Definition funnelFromJson (jsonFile : dict jvia) (xStep yStep : Q) (numCols : Z)
    (board : BOARD) : BOARD * option exn :=
  let viaDict := jsonFile in
  let keyList := dict_keys viaDict in
  funnel_loop (fun k => v <- getitem k viaDict ;; Ok (via_of_jvia v))
    xStep yStep numCols keyList board.

(** ** distributeX, distributeY, distributeXY *)

Record dist_state : Type := mk_dist { d_yMod : Q; d_m : Z; d_pcb : BOARD }.

(** [pcb.GetFootprints()]: the references to the footprints, in the host's
    order. *)
Definition GetFootprints (b : BOARD) : list nat := seq 0 (List.length (footprints b)).

Definition distributeX_body (xStep : Q) (fp : nat) (st : dist_state) : dist_state :=
  match nth_error (footprints (d_pcb st)) fp with
  | None => st
  | Some f =>
      if fp_selected f then
        let curX := inject_Z (fst (fp_position f)) in
        let curY := inject_Z (snd (fp_position f)) in
        let curX := ToMils curX in
        let curX := curX + xStep * inject_Z (d_m st) in
        let m := (d_m st + 1)%Z in
        let curY := ToMils curY in
        let newPos := wxPointMils curX curY in
        {| d_yMod := d_yMod st; d_m := m;
           d_pcb := SetPosition fp (fst newPos, snd newPos) (d_pcb st) |}
      else st
  end.

Definition distributeX (xStep : Q) (board : BOARD) : BOARD :=
  d_pcb (fold_left (fun st fp => distributeX_body xStep fp st)
           (GetFootprints board) {| d_yMod := 0; d_m := 0; d_pcb := board |}).

Definition distributeY_body (yStep : Q) (fp : nat) (st : dist_state) : dist_state :=
  match nth_error (footprints (d_pcb st)) fp with
  | None => st
  | Some f =>
      if fp_selected f then
        let curX := inject_Z (fst (fp_position f)) in
        let curY := inject_Z (snd (fp_position f)) in
        let curY := ToMils curY in
        let curY := curY + yStep * inject_Z (d_m st) in
        let m := (d_m st + 1)%Z in
        let curY := ToMils curY in
        let newPos := wxPointMils curX curY in
        {| d_yMod := d_yMod st; d_m := m;
           d_pcb := SetPosition fp (fst newPos, snd newPos) (d_pcb st) |}
      else st
  end.

Definition distributeY (yStep : Q) (board : BOARD) : BOARD :=
  d_pcb (fold_left (fun st fp => distributeY_body yStep fp st)
           (GetFootprints board) {| d_yMod := 0; d_m := 0; d_pcb := board |}).

(** [<] on the pairs of [zip(fpNames, fpList)]: on the names where they
    differ; two different footprints under one name are compared
    themselves, which the host's objects do not support. *)
Definition pair_lt (a b : string * nat) : result bool :=
  if String.eqb (fst a) (fst b) then
    if Nat.eqb (snd a) (snd b) then Ok false else Raise TypeError
  else Ok (Py.str_lt (fst a) (fst b)).

Definition GetReference (b : BOARD) (fp : nat) : string :=
  match nth_error (footprints b) fp with
  | Some f => fp_reference f
  | None => ""
  end.

(** The body of the loop of [distributeXY]; the test for the end of a row
    comes after the footprint was moved. *)
Definition distributeXY_body (xStep yStep : Q) (numCols : Z) (i : Z) (fp : nat)
    (st : dist_state) : dist_state * option exn :=
  match nth_error (footprints (d_pcb st)) fp with
  | None => (st, None)
  | Some f =>
      if fp_selected f then
        let curX := inject_Z (fst (fp_position f)) in
        let curY := inject_Z (snd (fp_position f)) in
        let curX := ToMils curX in
        let curX := curX + xStep * inject_Z (d_m st) in
        let m := (d_m st + 1)%Z in
        let curY := ToMils curY in
        let curY := curY + d_yMod st in
        let newPos := wxPointMils curX curY in
        let st := {| d_yMod := d_yMod st; d_m := m;
                     d_pcb := SetPosition fp (fst newPos, snd newPos) (d_pcb st) |} in
        match (if (0 <? i)%Z then divides numCols i else Ok false) with
        | Raise e => (st, Some e)
        | Ok true => ({| d_yMod := d_yMod st + yStep; d_m := 0; d_pcb := d_pcb st |}, None)
        | Ok false => (st, None)
        end
      else (st, None)
  end.

Definition distributeXY (xStep yStep : Q) (numCols : Z) (board : BOARD)
    : BOARD * option exn :=
  let fpList := GetFootprints board in
  let fpNames := map (GetReference board) fpList in
  match natural_sort fpNames with
  | Raise e => (board, Some e)
  | Ok fpNames =>
      match sorted (fun p => Ok p) pair_lt (combine fpNames fpList) with
      | Raise e => (board, Some e)
      | Ok pairs =>
          let sortedFP := map snd pairs in
          let '(st, e) :=
            for_each (distributeXY_body xStep yStep numCols) 0 sortedFP
              {| d_yMod := 0; d_m := 0; d_pcb := board |} in
          (d_pcb st, e)
      end
  end.

(** ** ViaGridDialog and the plugin's Run

    The dialog keeps what the user confirmed in [_x], [_y], [_cols] and
    [_units], all [None] at first.  A click on OK runs [_on_ok] on what the
    controls hold at that moment; [ended] says whether it closed the dialog
    with [EndModal(wx.ID_OK)]. *)

Record ViaGridDialog : Type := mk_dialog {
  _x : option Q;
  _y : option Q;
  _cols : option Z;
  _units : option string }.

(** What the controls hold: the two text fields, the spin control and the
    selected unit (empty when none is selected). *)
Record controls : Type := mk_controls {
  txt_x : string;
  txt_y : string;
  spin_cols : Z;
  choice_units : string }.

(** [__init__]: nothing confirmed yet. *)
Definition new_dialog : ViaGridDialog :=
  {| _x := None; _y := None; _cols := None; _units := None |}.

(** [s or "inches"] for text [s] *)
Definition or_inches (s : string) : string :=
  match s with
  | EmptyString => "inches"
  | _ => s
  end.

Section Dialog.
Variable float_of_str : string -> result Q.

(** The [try] block of [_on_ok]: both steps read and checked. *)
Definition read_steps (c : controls) : result (Q * Q) :=
  x <- float_of_str (Py.strip (txt_x c)) ;;
  y <- float_of_str (Py.strip (txt_y c)) ;;
  if Qle_bool x 0 || Qle_bool y 0 then Raise ValueError else Ok (x, y).

Definition _on_ok (self : ViaGridDialog) (c : controls) : ViaGridDialog * bool :=
  match read_steps c with
  | Raise _ => (self, false)
  | Ok (x, y) =>
      let cols := spin_cols c in
      if (cols <? 1)%Z then (self, false)
      else
        ({| _x := Some x; _y := Some y; _cols := Some cols;
            _units := Some (or_inches (choice_units c)) |}, true)
  end.

(** [get_values_mm].  [_x], [_y] and [_cols] are set together; a dialog
    with [_x] set and one of the others missing could not give its values
    to the caller, which is [TypeError] here. *)
Definition get_values_mm (self : ViaGridDialog) : result (option (Q * Q * Z)) :=
  match _x self with
  | None => Ok None
  | Some x =>
      match _y self, _cols self with
      | Some y, Some cols =>
          let units := match _units self with
                       | Some u => or_inches u
                       | None => "inches"
                       end in
          if String.eqb (Py.lower units) "inches"
          then Ok (Some (x * (254 # 10), y * (254 # 10), cols))
          else Ok (Some (x, y, cols))
      | _, _ => Raise TypeError
      end
  end.

(** What the user does with the open dialog: clicks on OK, each with the
    controls as they are then, and in the end, unless an OK closed the
    dialog, a cancel. *)
Fixpoint ShowModal (dlg : ViaGridDialog) (clicks : list controls)
  : ViaGridDialog * bool :=
  match clicks with
  | [] => (dlg, false)
  | c :: clicks' =>
      match _on_ok dlg c with
      | (dlg', true) => (dlg', true)
      | (dlg', false) => ShowModal dlg' clicks'
      end
  end.

(** [distributeVias.Run] from its file dialog on, the editor's window
    found ([B64.Run] has the search for it).  [fileName] is the file the
    user chose, [None] when the file dialog was cancelled or the path is
    not a file; [clicks] is what the user does with the settings dialog. *)
Definition Run (fileName : option csv_rows) (clicks : list controls)
    (board : BOARD) : BOARD * option exn :=
  match fileName with
  | None => (board, None)
  | Some csvFile =>
      match ShowModal new_dialog clicks with
      | (_, false) => (board, None)
      | (dlg, true) =>
          match get_values_mm dlg with
          | Ok (Some (xStep_mm, yStep_mm, numCols)) =>
              funnelFromCSV float_of_str csvFile xStep_mm yStep_mm numCols board
          | Ok None => (board, Some TypeError)
          | Raise e => (board, Some e)
          end
      end
  end.
End Dialog.

(** ** The same code on binary64 floats

    Where a result depends on how floats round, or on floats that are not
    numbers, the exact rationals above say nothing.  The placement loop,
    [distributeX], the settings dialog and [Run] are embedded here a second
    time with Python's [float] as IEEE 754 binary64: a [spec_float] with a
    mantissa of 53 bits, its operations rounding to nearest, ties to even.
    The objects of the board are those of [Pcbnew]. *)

Module B64.

Local Open Scope Z_scope.

Definition float : Type := spec_float.
Definition prec : Z := 53.
Definition emax : Z := 1024.

Definition add (x y : float) : float := SFadd prec emax x y.
Definition sub (x y : float) : float := SFsub prec emax x y.
Definition mul (x y : float) : float := SFmul prec emax x y.
Definition div (x y : float) : float := SFdiv prec emax x y.

(** [x <= y] and [x < y]: [False] when a side is nan. *)
Definition leb (x y : float) : bool := SFleb x y.
Definition ltb (x y : float) : bool := SFltb x y.

(** The float nearest to an integer. *)
Definition of_Z (z : Z) : float := binary_normalize prec emax z 0 false.

(** [float(n)] for an [int]: [OverflowError] beyond the largest float. *)
Definition float_of_int (z : Z) : result float :=
  match of_Z z with
  | S754_infinity _ => Raise OverflowError
  | x => Ok x
  end.

(** The float that a decimal literal of the source denotes: [decimal n k]
    is the one nearest to [n / 10^k], for [n] and [10^k] that are floats
    themselves. *)
Definition decimal (n : Z) (k : nat) : float :=
  div (of_Z n) (of_Z (10 ^ Z.of_nat k)).

Definition zero : float := S754_zero false.
Definition two : float := of_Z 2.
Definition four : float := of_Z 4.
Definition half : float := decimal 5 1.

(** [int(x)] for a float: towards zero; [ValueError] for nan and
    [OverflowError] for an infinity. *)
Definition int (x : float) : result Z :=
  match x with
  | S754_nan => Raise ValueError
  | S754_infinity _ => Raise OverflowError
  | S754_zero _ => Ok 0
  | S754_finite s mx e =>
      Ok (cond_Zopp s
            match e with
            | Zneg p => Z.shiftr (Zpos mx) (Zpos p)
            | _ => Z.shiftl (Zpos mx) e
            end)
  end.

(** A number that is an [int] or a [float], and [xStep*m] for a counter
    [m]: exact on two [int]s, else the product of two floats. *)
Inductive num : Type :=
| Int (z : Z)
| Float (f : float).

Definition times (xStep : num) (m : Z) : result float :=
  match xStep with
  | Int z => float_of_int (z * m)
  | Float f => fm <- float_of_int m ;; Ok (mul f fm)
  end.

(** [sub in s] for text *)
Fixpoint contains (sub s : string) : bool :=
  String.prefix sub s ||
  match s with
  | EmptyString => false
  | String _ s' => contains sub s'
  end.

(** *** pcbnew's conversions *)

Definition IU_PER_MM : float := of_Z 1000000.
Definition IU_PER_MILS : float := of_Z 25400.

(** [int(float(mm) * float(pcbIUScale.IU_PER_MM))] *)
Definition FromMM (mm : float) : result Z := int (mul mm IU_PER_MM).

(** [float(iu) / float(pcbIUScale.IU_PER_MM)] for an [int] *)
Definition ToMM (iu : Z) : result float :=
  f <- float_of_int iu ;; Ok (div f IU_PER_MM).

Definition FromMils (mils : float) : result Z := int (mul mils IU_PER_MILS).

Definition ToMils (iu : Z) : result float :=
  f <- float_of_int iu ;; Ok (div f IU_PER_MILS).

Definition wxPointMM (mmx mmy : float) : result point :=
  x <- FromMM mmx ;; y <- FromMM mmy ;; Ok (x, y).

Definition wxPointMils (mmx mmy : float) : result point :=
  x <- FromMils mmx ;; y <- FromMils mmy ;; Ok (x, y).

(** A record of the via table. *)
Record via : Type := mk_via { X : float; Y : float; ID : float; OD : float }.

(** A record of the JSON table: its numbers are [int]s or [float]s. *)
Record jvia : Type := mk_jvia { jX : num; jY : num; jID : num; jOD : num }.

(** The variables of the placement loop. *)
Record place_state : Type := mk_place { yMod : float; m : Z; pcb : BOARD }.

(** The variables of the loop of [distributeX]. *)
Record dist_state : Type := mk_dist { d_m : Z; d_pcb : BOARD }.

(** The settings dialog, with floats for the steps. *)
Record ViaGridDialog : Type := mk_dialog {
  _x : option float;
  _y : option float;
  _cols : option Z;
  _units : option string }.

Definition new_dialog : ViaGridDialog :=
  {| _x := None; _y := None; _cols := None; _units := None |}.

Section Host.
(** Two things the host decides and the script does not: what the C++
    cast [(int)x] of [pcbIUScale.mmToIU] gives for a double outside the
    range of [int], and what a [PCB_VIA] holds before it is set up. *)
Variable int_cast : float -> Z.
Variable new_via : PCB_VIA.

(** [pcbIUScale.mmToIU]:
    [(int)(mm < 0 ? mm * IU_PER_MM - 0.5 : mm * IU_PER_MM + 0.5)] *)
Definition mmToIU (mm : float) : Z :=
  let p := if ltb mm zero then sub (mul mm IU_PER_MM) half
           else add (mul mm IU_PER_MM) half in
  match int p with
  | Ok z => if (- 2 ^ 31 <=? z) && (z <? 2 ^ 31) then z else int_cast p
  | Raise _ => int_cast p
  end.

(** [create_via]: the via is on the board from the first statement on, so
    an exception of [wxPointMM] leaves it there as the host made it. *)
Definition create_via (board : BOARD) (net : string)
    (xPos yPos drillSize drillWidth : float) (addMaskBool : bool)
  : BOARD * option exn :=
  match wxPointMM xPos yPos with
  | Raise e => (Add (Via new_via) board, Some e)
  | Ok newPos =>
      let newvia :=
        {| via_pos := vec_from_point newPos;
           via_drill := mmToIU drillSize;
           via_width := mmToIU drillWidth;
           via_layers := (F_Cu, F_Cu);
           via_type := VIATYPE_THROUGH |} in
      let board := Add (Via newvia) board in
      if addMaskBool then
        let startX := mmToIU xPos in
        let circRadius := mmToIU (div drillWidth two) + startX in
        let bMaskCir := new_shape in
        let bMaskCir := SetShape S_CIRCLE bMaskCir in
        let bMaskCir := SetLayer B_Mask bMaskCir in
        let bMaskCir := SetShapePosition (vec_from_point newPos) bMaskCir in
        let bMaskCir := SetStartX startX bMaskCir in
        let bMaskCir := SetEndX circRadius bMaskCir in
        let bMaskCir := SetFilled true bMaskCir in
        let board := Add (Shape bMaskCir) board in
        let fMaskCir := new_shape in
        let fMaskCir := SetShape S_CIRCLE fMaskCir in
        let fMaskCir := SetLayer F_Mask fMaskCir in
        let fMaskCir := SetShapePosition (vec_from_point newPos) fMaskCir in
        let fMaskCir := SetStartX startX fMaskCir in
        let fMaskCir := SetEndX circRadius fMaskCir in
        let fMaskCir := SetFilled true fMaskCir in
        (Add (Shape fMaskCir) board, None)
      else (board, None)
  end.

(** What the body of the placement loop computes before its first [Add],
    in the order of the source: the test for a new row, the record, the
    offsets, the position of the label, the integer of the key.  The steps
    are floats, as the defaults are and as [Run] passes them. *)
Definition funnel_values (lookup : string -> result via) (origin : point)
    (xStep yStep : float) (numCols : Z) (i : Z) (k : string) (st : place_state)
  : result (float * Z * float * float * via * point * Z) :=
  wrap <- (if 0 <? i then divides numCols i else Ok false) ;;
  let yMod := if wrap then add (yMod st) yStep else yMod st in
  let m := if wrap then 0 else m st in
  v <- lookup k ;;
  let curX := X v in
  let curY := Y v in
  let curOD := OD v in
  ox <- ToMM (fst origin) ;;
  let curX := add curX ox in
  oy <- ToMM (snd origin) ;;
  let curY := add curY oy in
  fm <- float_of_int m ;;
  let curX := add curX (mul xStep fm) in
  let m := m + 1 in
  let curY := add curY yMod in
  textPos <- wxPointMM curX (add (add curY (div curOD two)) four) ;;
  n <- Py.int k ;;
  Ok (yMod, m, curX, curY, v, textPos, n).

(** The body of the loop, the same text in [funnelFromCSV] and
    [funnelFromJson].  The state it returns with an exception holds what
    was added to the board before the exception. *)
Definition funnel_body (lookup : string -> result via) (origin textsize : point)
    (thickness : Z) (xStep yStep : float) (numCols : Z) (i : Z) (k : string)
    (st : place_state) : place_state * option exn :=
  match funnel_values lookup origin xStep yStep numCols i k st with
  | Raise e => (st, Some e)
  | Ok (yMod, m, curX, curY, v, textPos, n) =>
      let text :=
        {| text_pos := vec_from_point textPos;
           text_layer := textLayer;
           text_visible := true;
           text_size := textsize;
           text_thickness := thickness;
           text_text := Py.str (n + 1) |} in
      let pcb := Add (Text text) (pcb st) in
      let '(pcb, e) := create_via pcb netDefault curX curY (ID v) (OD v) true in
      ({| yMod := yMod; m := m; pcb := pcb |}, e)
  end.

Definition funnel_loop (lookup : string -> result via) (origin textsize : point)
    (thickness : Z) (xStep yStep : float) (numCols : Z) (keyList : list string)
    (board : BOARD) : BOARD * option exn :=
  let '(st, e) :=
    for_each (funnel_body lookup origin textsize thickness xStep yStep numCols)
      0 keyList {| yMod := zero; m := 0; pcb := board |} in
  (pcb st, e).

(** [float(v)] for a number of the JSON table, and the four of a record
    in the order of the source. *)
Definition to_float (v : num) : result float :=
  match v with
  | Int z => float_of_int z
  | Float f => Ok f
  end.

Definition via_of_jvia (v : jvia) : result via :=
  x <- to_float (jX v) ;;
  y <- to_float (jY v) ;;
  id <- to_float (jID v) ;;
  od <- to_float (jOD v) ;;
  Ok {| X := x; Y := y; ID := id; OD := od |}.

(** [jsonFile] is the table that [restoreJSON] returns. *)
Definition funnelFromJson (jsonFile : dict jvia) (xStep yStep : float)
    (numCols : Z) (board : BOARD) : BOARD * option exn :=
  let viaDict := jsonFile in
  match
    (origin <- wxPointMM (of_Z 0) (of_Z 0) ;;
     let keyList := dict_keys viaDict in
     w <- FromMM (of_Z 4) ;;
     h <- FromMM (of_Z 4) ;;
     thickness <- FromMM (decimal 5 1) ;;
     Ok (origin, keyList, wxSize w h, thickness))
  with
  | Raise e => (board, Some e)
  | Ok (origin, keyList, textsize, thickness) =>
      funnel_loop (fun k => v <- getitem k viaDict ;; via_of_jvia v)
        origin textsize thickness xStep yStep numCols keyList board
  end.

Section Table.
(** [float(s)] for text [s]. *)
Variable float_of_str : string -> result float.

Definition float_cell (c : cell) : result float :=
  match c with
  | Some s => float_of_str s
  | None => Raise TypeError
  end.

Definition restoreCSV_row (row : dict cell) (viaDict : dict via)
  : result (dict via) :=
  ci <- getitem "index" row ;;
  n <- int_cell ci ;;
  let k := Py.str n in
  cx <- getitem "X" row ;;
  x <- float_cell cx ;;
  cy <- getitem "Y" row ;;
  y <- float_cell cy ;;
  cid <- getitem "ID" row ;;
  id <- float_cell cid ;;
  cod <- getitem "OD" row ;;
  od <- float_cell cod ;;
  Ok (dict_set k {| X := x; Y := y; ID := id; OD := od |} viaDict).

Fixpoint restoreCSV_loop (rows : list (dict cell)) (viaDict : dict via)
  : result (dict via) :=
  match rows with
  | [] => Ok viaDict
  | row :: rows' =>
      d <- restoreCSV_row row viaDict ;;
      restoreCSV_loop rows' d
  end.

Definition restoreCSV (f : csv_rows) : result (dict via) :=
  restoreCSV_loop (DictReader f) [].

(** What [funnelFromCSV] sets up before its loop, in the order of the
    source: the table, the origin, the sorted keys, the size and the
    thickness of the labels. *)
Definition funnel_setup (csvFile : csv_rows)
  : result (dict via * point * list string * point * Z) :=
  viaDict <- restoreCSV csvFile ;;
  origin <- wxPointMM (of_Z 0) (of_Z 0) ;;
  keyList <- sorted_by_int (dict_keys viaDict) ;;
  w <- FromMM (of_Z 4) ;;
  h <- FromMM (of_Z 4) ;;
  thickness <- FromMM (decimal 5 1) ;;
  Ok (viaDict, origin, keyList, wxSize w h, thickness).

Definition funnelFromCSV (csvFile : csv_rows) (xStep yStep : float) (numCols : Z)
    (board : BOARD) : BOARD * option exn :=
  match funnel_setup csvFile with
  | Raise e => (board, Some e)
  | Ok (viaDict, origin, keyList, textsize, thickness) =>
      funnel_loop (fun k => getitem k viaDict) origin textsize thickness
        xStep yStep numCols keyList board
  end.

(** The [try] block of [_on_ok]. *)
Definition read_steps (c : controls) : result (float * float) :=
  x <- float_of_str (Py.strip (txt_x c)) ;;
  y <- float_of_str (Py.strip (txt_y c)) ;;
  if leb x zero || leb y zero then Raise ValueError else Ok (x, y).

Definition _on_ok (self : ViaGridDialog) (c : controls) : ViaGridDialog * bool :=
  match read_steps c with
  | Raise _ => (self, false)
  | Ok (x, y) =>
      let cols := spin_cols c in
      if cols <? 1 then (self, false)
      else
        ({| _x := Some x; _y := Some y; _cols := Some cols;
            _units := Some (or_inches (choice_units c)) |}, true)
  end.

Definition get_values_mm (self : ViaGridDialog)
  : result (option (float * float * Z)) :=
  match _x self with
  | None => Ok None
  | Some x =>
      match _y self, _cols self with
      | Some y, Some cols =>
          let units := match _units self with
                       | Some u => or_inches u
                       | None => "inches"
                       end in
          if String.eqb (Py.lower units) "inches"
          then Ok (Some (mul x (decimal 254 1), mul y (decimal 254 1), cols))
          else Ok (Some (x, y, cols))
      | _, _ => Raise TypeError
      end
  end.

Fixpoint ShowModal (dlg : ViaGridDialog) (clicks : list controls)
  : ViaGridDialog * bool :=
  match clicks with
  | [] => (dlg, false)
  | c :: clicks' =>
      match _on_ok dlg c with
      | (dlg', true) => (dlg', true)
      | (dlg', false) => ShowModal dlg' clicks'
      end
  end.

(** [distributeVias.Run].  [titles] are the titles of the top-level
    windows, of which the first with [pcb editor] in it is taken;
    [fileName] and [clicks] are as in [Run] above. *)
Definition Run (titles : list string) (fileName : option csv_rows)
    (clicks : list controls) (board : BOARD) : BOARD * option exn :=
  match filter (fun t => contains "pcb editor" (Py.lower t)) titles with
  | [] => (board, Some IndexError)
  | _ :: _ =>
      match fileName with
      | None => (board, None)
      | Some csvFile =>
          match ShowModal new_dialog clicks with
          | (_, false) => (board, None)
          | (dlg, true) =>
              match get_values_mm dlg with
              | Ok (Some (xStep_mm, yStep_mm, numCols)) =>
                  funnelFromCSV csvFile xStep_mm yStep_mm numCols board
              | Ok None => (board, Some TypeError)
              | Raise e => (board, Some e)
              end
          end
      end
  end.
End Table.
End Host.

(** The body of the loop of [distributeX] for one footprint. *)
Definition distributeX_body (xStep : num) (fp : nat) (st : dist_state)
  : dist_state * option exn :=
  match nth_error (footprints (d_pcb st)) fp with
  | None => (st, None)
  | Some f =>
      if fp_selected f then
        match
          (curX <- ToMils (fst (fp_position f)) ;;
           step <- times xStep (d_m st) ;;
           let curX := add curX step in
           curY <- ToMils (snd (fp_position f)) ;;
           wxPointMils curX curY)
        with
        | Raise e => (st, Some e)
        | Ok newPos =>
            ({| d_m := d_m st + 1;
                d_pcb := SetPosition fp (fst newPos, snd newPos) (d_pcb st) |}, None)
        end
      else (st, None)
  end.

(** ['%d' % xStep], for the report at the end: a float goes through
    [int()]. *)
Definition format_d (xStep : num) : result unit :=
  match xStep with
  | Int _ => Ok tt
  | Float f => _ <- int f ;; Ok tt
  end.

Definition distributeX (xStep : num) (board : BOARD) : BOARD * option exn :=
  let '(st, e) :=
    for_each (fun _ fp st => distributeX_body xStep fp st) 0 (GetFootprints board)
      {| d_m := 0; d_pcb := board |} in
  match e with
  | Some ex => (d_pcb st, Some ex)
  | None =>
      match format_d xStep with
      | Raise ex => (d_pcb st, Some ex)
      | Ok _ => (d_pcb st, None)
      end
  end.

End B64.

(** ** Definitions for the statements and proofs *)

(** Text without whitespace: each character is a digit or a sign. *)
Fixpoint no_space (s : string) : bool :=
  match s with
  | EmptyString => true
  | String c s' => negb (Py.is_space c) && no_space s'
  end.

(** The value of a run of decimal digits read from the left. *)
Fixpoint horner (u : Decimal.uint) (acc : Z) : Z :=
  match u with
  | Decimal.Nil => acc
  | Decimal.D0 u' => horner u' (10 * acc + 0)
  | Decimal.D1 u' => horner u' (10 * acc + 1)
  | Decimal.D2 u' => horner u' (10 * acc + 2)
  | Decimal.D3 u' => horner u' (10 * acc + 3)
  | Decimal.D4 u' => horner u' (10 * acc + 4)
  | Decimal.D5 u' => horner u' (10 * acc + 5)
  | Decimal.D6 u' => horner u' (10 * acc + 6)
  | Decimal.D7 u' => horner u' (10 * acc + 7)
  | Decimal.D8 u' => horner u' (10 * acc + 8)
  | Decimal.D9 u' => horner u' (10 * acc + 9)
  end.

(** [a] does not come after [b] in the order of [sorted(.., key=key)]:
    the key of [b] is not smaller than the key of [a]. *)
Definition key_le {A K : Type} (key : A -> result K) (lt : K -> K -> result bool)
    (a b : A) : Prop :=
  exists ka kb, key a = Ok ka /\ key b = Ok kb /\ lt kb ka = Ok false.

(** The number of selected footprints before position [j]. *)
Definition selected_before (l : list FOOTPRINT) (j : nat) : Z :=
  Z.of_nat (List.length (filter fp_selected (firstn j l))).

(** What the body of [distributeY] leaves of a selected footprint when the
    counter is [n]. *)
Definition moved_y (yStep : Q) (n : Z) (f : FOOTPRINT) : FOOTPRINT :=
  {| fp_reference := fp_reference f;
     fp_selected := fp_selected f;
     fp_position :=
       (FromMils (inject_Z (fst (fp_position f))),
        FromMils (ToMils (ToMils (inject_Z (snd (fp_position f)))
                          + yStep * inject_Z n))) |}.

Fixpoint spread_y (yStep : Q) (n : Z) (l : list FOOTPRINT) : list FOOTPRINT :=
  match l with
  | [] => []
  | f :: l' =>
      if fp_selected f then moved_y yStep n f :: spread_y yStep (n + 1) l'
      else f :: spread_y yStep n l'
  end.

(** Sample boards. *)
Definition three_footprints : BOARD :=
  {| items := [];
     footprints :=
       [ {| fp_reference := "R1"; fp_selected := true; fp_position := (25400, 50800)%Z |};
         {| fp_reference := "R2"; fp_selected := false; fp_position := (0, 7)%Z |};
         {| fp_reference := "R3"; fp_selected := true; fp_position := (-3, 12)%Z |} ] |}.

Definition one_footprint : BOARD :=
  {| items := [];
     footprints :=
       [ {| fp_reference := "R1"; fp_selected := true; fp_position := (25400, 25400)%Z |} ] |}.

(** The two halves of the body of [restoreCSV]: the index of a row, and its
    four floats read in the order of the source. *)
Definition row_index (row : dict cell) : result Z :=
  ci <- getitem "index" row ;; int_cell ci.

Definition row_via (float_of_str : string -> result Q) (row : dict cell)
  : result via :=
  cx <- getitem "X" row ;;
  x <- float_cell float_of_str cx ;;
  cy <- getitem "Y" row ;;
  y <- float_cell float_of_str cy ;;
  cid <- getitem "ID" row ;;
  id <- float_cell float_of_str cid ;;
  cod <- getitem "OD" row ;;
  od <- float_cell float_of_str cod ;;
  Ok {| X := x; Y := y; ID := id; OD := od |}.

(** A reader of plain decimal literals ([12], [-0.5], [1.88]), to run the
    loader on examples: one possible [float_of_str]. *)
Fixpoint frac_digits (s : string) (num : Z) (den : positive) : option (Z * positive) :=
  match s with
  | EmptyString => Some (num, den)
  | String c s' =>
      if Py.is_digit c
      then frac_digits s' (10 * num + Py.digit_val c)%Z (10 * den)%positive
      else None
  end.

Fixpoint dec_digits (s : string) (num : Z) : option (Z * positive) :=
  match s with
  | EmptyString => Some (num, 1%positive)
  | String c s' =>
      if Py.is_digit c then dec_digits s' (10 * num + Py.digit_val c)%Z
      else if Ascii.eqb c "." then frac_digits s' num 1
      else None
  end.

Definition decimal_float (s : string) : result Q :=
  match s with
  | EmptyString => Raise ValueError
  | String c s' =>
      if Ascii.eqb c "-" then
        match dec_digits s' 0 with
        | Some (n, d) => Ok (Qred (- n # d))
        | None => Raise ValueError
        end
      else if Py.is_digit c then
        match dec_digits s 0 with
        | Some (n, d) => Ok (Qred (n # d))
        | None => Raise ValueError
        end
      else Raise ValueError
  end.

(** Sample tables. *)
Definition header : list string := ["index"; "X"; "Y"; "ID"; "OD"].

Definition csv_repeated_index : csv_rows :=
  [header; ["007"; "1"; "1"; "1"; "1"]; ["7"; "2"; "2"; "2"; "2"]].

Definition csv_header_only : csv_rows := [["index"; "X"; "Y"; "ID"]].

Definition csv_bad_number : csv_rows :=
  [header; ["0"; "0"; "0"; "1.0"; "2.0"]; ["1"; "0"; "abc"; "1.0"; "2.0"]].

(** A row that the loader cannot read in column [c]: the row has no such
    column, or the record was too short to reach it, or what stands there
    is rejected by [int()] (for the index) or by [float()]. *)
Definition unreadable (float_of_str : string -> result Q) (c : string)
    (row : dict cell) : Prop :=
  match dict_get c row with
  | None => True
  | Some None => True
  | Some (Some s) =>
      if String.eqb c "index" then exists e, Py.int s = Raise e
      else exists e, float_of_str s = Raise e
  end.








(** Ascending numeric order of two keys. *)
Definition index_lt (a b : string) : Prop :=
  exists na nb, Py.int a = Ok na /\ Py.int b = Ok nb /\ (na < nb)%Z.

(** The positions of the vias among some objects, in order. *)
Fixpoint via_positions (l : list item) : list point :=
  match l with
  | [] => []
  | Via v :: l' => via_pos v :: via_positions l'
  | _ :: l' => via_positions l'
  end.


Definition csv_two_vias : csv_rows :=
  [header; ["0"; "0"; "0"; "1.0"; "2.0"]; ["1"; "0"; "0"; "1.0"; "2.0"]].

Definition empty_board : BOARD := {| items := []; footprints := [] |}.

(** The texts of the labels among some objects, in order. *)
Fixpoint labels (l : list item) : list string :=
  match l with
  | [] => []
  | Text t :: l' => text_text t :: labels l'
  | _ :: l' => labels l'
  end.

(** One JSON table written in two orders: record 0 at the origin and
    record 1 at X = 10 mm. *)
Definition json_record_0 : jvia :=
  {| jX := JInt 0; jY := JInt 0; jID := JFloat 1; jOD := JFloat 2 |}.

Definition json_record_1 : jvia :=
  {| jX := JInt 10; jY := JInt 0; jID := JFloat 1; jOD := JFloat 2 |}.

Definition json_ascending : dict jvia := [("0", json_record_0); ("1", json_record_1)].
Definition json_descending : dict jvia := [("1", json_record_1); ("0", json_record_0)].

(** Boards of selected footprints at the origin. *)
Definition selected_at_origin (reference : string) : FOOTPRINT :=
  {| fp_reference := reference; fp_selected := true; fp_position := (0, 0)%Z |}.

Definition board_A1_A2_A3 : BOARD :=
  {| items := [];
     footprints := map selected_at_origin ["A1"; "A2"; "A3"] |}.

Definition board_A2_A10 : BOARD :=
  {| items := [];
     footprints := map selected_at_origin ["A2"; "A10"] |}.

(** The shape of a sort key: elements that are numbers and elements that
    are text take turns; [digits] says which comes first. *)
Definition is_int (c : chunk) : bool :=
  match c with
  | CInt _ => true
  | CStr _ => false
  end.

Fixpoint alternates (digits : bool) (l : list chunk) : Prop :=
  match l with
  | [] => True
  | c :: l' => is_int c = digits /\ alternates (negb digits) l'
  end.

(** Text without a digit. *)
Fixpoint has_no_digit (s : string) : bool :=
  match s with
  | EmptyString => true
  | String c s' => negb (Py.is_digit c) && has_no_digit s'
  end.

(** The runs of [re.split('([0-9]+)', s)]: text without a digit and
    non-empty runs of digits take turns. *)
Fixpoint runs_alternate (digits : bool) (l : list string) : Prop :=
  match l with
  | [] => True
  | r :: l' =>
      (if digits then Py.isdigit r = true else has_no_digit r = true)
      /\ runs_alternate (negb digits) l'
  end.

(** A number of the JSON table that survives the file: what the writer
    prints for it, the loader reads as the same float. *)
Definition reads_back (float_of_str : string -> result Q) (repr : Q -> string)
    (v : jnum) : Prop :=
  exists q, float_of_str (str_of_jnum repr v) = Ok q /\ q == float_of_jnum v.

(** The same record, float for float. *)
Definition via_eq (a b : via) : Prop :=
  X a == X b /\ Y a == Y b /\ ID a == ID b /\ OD a == OD b.

(** A printer of floats that have one decimal place ([1.0], [-0.5]), to run
    the converter on examples: one possible [repr]. *)
Definition repr_one_decimal (q : Q) : string :=
  let t := Qfloor (q * 10) in
  ((if (t <? 0)%Z then "-" else "")
   ++ Py.str (Z.abs t / 10) ++ "." ++ Py.str (Z.abs t mod 10))%string.

(** All four numbers of a record survive the file. *)
Definition survives (float_of_str : string -> result Q) (repr : Q -> string)
    (v : jvia) : Prop :=
  reads_back float_of_str repr (jX v) /\ reads_back float_of_str repr (jY v) /\
  reads_back float_of_str repr (jID v) /\ reads_back float_of_str repr (jOD v).

(** The key under which the loader stores a written row. *)
Definition key_of (r : Z * jvia) : string := Py.str (fst r).

(** Decorated elements in the order of their keys, and decorated elements
    that carry their own key, a key in [P]. *)
Definition decorated_le {A K : Type} (lt : K -> K -> result bool)
    (x y : K * A) : Prop :=
  lt (fst y) (fst x) = Ok false.

Definition decorated_ok {A K : Type} (key : A -> result K) (P : K -> Prop)
    (x : K * A) : Prop :=
  P (fst x) /\ key (snd x) = Ok (fst x).

(** A JSON table whose second key is not a number. *)
Definition json_bad_key : dict jvia := [("0", json_record_0); ("a", json_record_1)].

(** The exception that reading column [c] of a row raises, if any:
    [KeyError] without the column, [TypeError] on a record too short to
    reach it, else what [int()] or [float()] raises on its text. *)
Definition cell_error (float_of_str : string -> result Q) (c : string)
    (row : dict cell) : option exn :=
  match dict_get c row with
  | None => Some KeyError
  | Some None => Some TypeError
  | Some (Some s) =>
      if String.eqb c "index" then
        match Py.int s with
        | Ok _ => None
        | Raise e => Some e
        end
      else
        match float_of_str s with
        | Ok _ => None
        | Raise e => Some e
        end
  end.

(** The first exception among some columns, and among the rows of a file,
    the columns of each row taken in the order [index], [X], [Y], [ID],
    [OD]. *)
Fixpoint first_error (float_of_str : string -> result Q) (columns : list string)
    (row : dict cell) : option exn :=
  match columns with
  | [] => None
  | c :: columns' =>
      match cell_error float_of_str c row with
      | Some e => Some e
      | None => first_error float_of_str columns' row
      end
  end.

Fixpoint load_error (float_of_str : string -> result Q) (rows : list (dict cell))
  : option exn :=
  match rows with
  | [] => None
  | row :: rows' =>
      match first_error float_of_str header row with
      | Some e => Some e
      | None => load_error float_of_str rows'
      end
  end.

Definition csv_three_vias : csv_rows :=
  [header; ["5"; "0"; "0"; "1.0"; "2.0"]; ["2"; "1"; "0"; "1.0"; "2.0"];
   ["9"; "2"; "0"; "1.0"; "2.0"]].

(** A JSON table with two texts of the same index. *)
Definition json_seven_twice : dict jvia := [("7", json_record_1); ("07", json_record_0)].

(** What the re-spacing functions may do to a footprint: move it if it is
    selected, and nothing else. *)
Definition moved_only (f f' : FOOTPRINT) : Prop :=
  fp_reference f' = fp_reference f /\ fp_selected f' = fp_selected f /\
  (fp_selected f = false -> fp_position f' = fp_position f).

Definition respaced (b b' : BOARD) : Prop :=
  items b' = items b /\ Forall2 moved_only (footprints b) (footprints b').

Definition none_selected : BOARD :=
  {| items := [];
     footprints :=
       [ {| fp_reference := "R1"; fp_selected := false; fp_position := (25400, 50800)%Z |};
         {| fp_reference := "R2"; fp_selected := false; fp_position := (0, 7)%Z |} ] |}.

(** What the user may leave in the controls. *)
Definition click_inches : controls :=
  {| txt_x := " 0.5 "; txt_y := "0.25"; spin_cols := 10; choice_units := "" |}.



(** The records of [csv_three_vias] in another order. *)
Definition csv_three_vias_shuffled : csv_rows :=
  [header; ["9"; "2"; "0"; "1.0"; "2.0"]; ["5"; "0"; "0"; "1.0"; "2.0"];
   ["2"; "1"; "0"; "1.0"; "2.0"]].

(** The records of [json_ascending] as a CSV file. *)
Definition csv_ascending : csv_rows :=
  [header; ["0"; "0"; "0"; "1.0"; "2.0"]; ["1"; "10"; "0"; "1.0"; "2.0"]].

(** ** Definitions for the statements on binary64 floats *)

(** The offset in Y on row [r] of the grid: [yStep] added [r] times,
    starting from 0, as [yMod += yStep] does. *)
Fixpoint ysum (yStep : B64.float) (r : nat) : B64.float :=
  match r with
  | O => B64.zero
  | S r' => B64.add (ysum yStep r') yStep
  end.

(** The position of a record in millimetres, in column [col] and on row
    [r]: to its own [X] and [Y] the loop adds the origin, which is 0.0, and
    then the offset. *)
Definition cell_x (xStep col : B64.float) (v : B64.via) : B64.float :=
  B64.add (B64.add (B64.X v) B64.zero) (B64.mul xStep col).

Definition cell_y (yStep : B64.float) (r : nat) (v : B64.via) : B64.float :=
  B64.add (B64.add (B64.Y v) B64.zero) (ysum yStep r).

(** The position that the specification gives: the products
    [xStep * col] and [yStep * r] added to [X] and [Y]. *)
Definition claimed_x (xStep : B64.float) (col : Z) (v : B64.via) : B64.float :=
  B64.add (B64.X v) (B64.mul xStep (B64.of_Z col)).

Definition claimed_y (yStep : B64.float) (r : Z) (v : B64.via) : B64.float :=
  B64.add (B64.Y v) (B64.mul yStep (B64.of_Z r)).

(** The objects of a record placed at [(xa, ya)] millimetres: the label at
    [q], the via at [p], and a circle on each solder-mask layer whose
    centre [shape_start] has the X that [mmToIU] gives and the Y of [p],
    and whose [shape_end] lies on the rim. *)
Definition label64 (q : point) (index : Z) : PCB_TEXT :=
  {| text_pos := q;
     text_layer := F_SilkS;
     text_visible := true;
     text_size := (4000000, 4000000)%Z;
     text_thickness := 500000%Z;
     text_text := Py.str (index + 1) |}.

Definition via64 (int_cast : B64.float -> Z) (p : point) (v : B64.via) : PCB_VIA :=
  {| via_pos := p;
     via_drill := B64.mmToIU int_cast (B64.ID v);
     via_width := B64.mmToIU int_cast (B64.OD v);
     via_layers := (F_Cu, F_Cu);
     via_type := VIATYPE_THROUGH |}.

Definition mask64 (int_cast : B64.float -> Z) (l : layer) (xa : B64.float)
    (p : point) (v : B64.via) : PCB_SHAPE :=
  {| shape_kind := S_CIRCLE;
     shape_layer := l;
     shape_start := (B64.mmToIU int_cast xa, snd p);
     shape_end := ((B64.mmToIU int_cast (B64.div (B64.OD v) B64.two)
                    + B64.mmToIU int_cast xa)%Z, snd p);
     shape_filled := true |}.

Definition label_y (ya : B64.float) (v : B64.via) : B64.float :=
  B64.add (B64.add ya (B64.div (B64.OD v) B64.two)) B64.four.

Definition placed_at (int_cast : B64.float -> Z) (xa ya : B64.float) (index : Z)
    (v : B64.via) : result (list item) :=
  q <- B64.wxPointMM xa (label_y ya v) ;;
  p <- B64.wxPointMM xa ya ;;
  Ok [ Text (label64 q index);
       Via (via64 int_cast p v);
       Shape (mask64 int_cast B_Mask xa p v);
       Shape (mask64 int_cast F_Mask xa p v) ].

(** What the body of the loop needs of turn [i] before it adds anything,
    with the variables of the loop in closed form: the record, its
    position in millimetres, the position of the label and the integer of
    the key. *)
Definition turn_values (lookup : string -> result B64.via) (xStep yStep : B64.float)
    (numCols i : Z) (k : string)
  : result (B64.float * B64.float * B64.via * point * Z) :=
  v <- lookup k ;;
  col <- B64.float_of_int (i mod numCols) ;;
  let xa := cell_x xStep col v in
  let ya := cell_y yStep (Z.to_nat (i / numCols)) v in
  q <- B64.wxPointMM xa (label_y ya v) ;;
  n <- Py.int k ;;
  Ok (xa, ya, v, q, n).

(** What turn [i] adds to the board and how it ends. *)
Definition turn_objects (int_cast : B64.float -> Z) (new_via : PCB_VIA)
    (lookup : string -> result B64.via) (xStep yStep : B64.float)
    (numCols i : Z) (k : string) : list item * option exn :=
  match turn_values lookup xStep yStep numCols i k with
  | Raise e => ([], Some e)
  | Ok (xa, ya, v, q, n) =>
      match B64.wxPointMM xa ya with
      | Raise e => ([Text (label64 q n); Via new_via], Some e)
      | Ok p =>
          ([ Text (label64 q n);
             Via (via64 int_cast p v);
             Shape (mask64 int_cast B_Mask xa p v);
             Shape (mask64 int_cast F_Mask xa p v) ], None)
      end
  end.

Fixpoint grid_objects (int_cast : B64.float -> Z) (new_via : PCB_VIA)
    (lookup : string -> result B64.via) (xStep yStep : B64.float)
    (numCols i : Z) (keys : list string) : list item * option exn :=
  match keys with
  | [] => ([], None)
  | k :: keys' =>
      match turn_objects int_cast new_via lookup xStep yStep numCols i k with
      | (objs, Some e) => (objs, Some e)
      | (objs, None) =>
          let '(rest, e) :=
            grid_objects int_cast new_via lookup xStep yStep numCols (i + 1) keys' in
          ((objs ++ rest)%list, e)
      end
  end.

(** The variables of the placement loop on entry to turn [i]. *)
Definition entry64 (yStep : B64.float) (numCols i : Z) (st : B64.place_state)
  : Prop :=
  (i = 0%Z /\ B64.m st = 0%Z /\ B64.yMod st = B64.zero) \/
  ((0 < i)%Z /\ B64.m st = ((i - 1) mod numCols + 1)%Z
   /\ B64.yMod st = ysum yStep (Z.to_nat ((i - 1) / numCols))).

(** The centres of the circles among some objects, in order. *)
Fixpoint mask_centres (l : list item) : list point :=
  match l with
  | [] => []
  | Shape c :: l' => shape_start c :: mask_centres l'
  | _ :: l' => mask_centres l'
  end.

(** A reader of plain decimal literals for binary64, and of [nan] and
    [inf], to run the loader on examples: one possible [float()].  The
    quotient of two integers that are floats themselves is the float
    nearest to the literal, which holds up to 15 digits. *)
Definition float64_of_decimal (s : string) : result B64.float :=
  if String.eqb (Py.lower s) "nan" then Ok S754_nan
  else if String.eqb (Py.lower s) "inf" then Ok (S754_infinity false)
  else if String.eqb (Py.lower s) "-inf" then Ok (S754_infinity true)
  else
    match s with
    | EmptyString => Raise ValueError
    | String c s' =>
        if Ascii.eqb c "-" then
          match dec_digits s' 0 with
          | Some (n, d) =>
              Ok (SFopp (B64.div (B64.of_Z n) (B64.of_Z (Z.pos d))))
          | None => Raise ValueError
          end
        else if Py.is_digit c then
          match dec_digits s 0 with
          | Some (n, d) => Ok (B64.div (B64.of_Z n) (B64.of_Z (Z.pos d)))
          | None => Raise ValueError
          end
        else Raise ValueError
    end.

(** A file of [n] records with the indices 0, 1, ..., all at the origin,
    with inner diameter 1.0 and outer diameter 2.0. *)
Definition csv_vias_at_origin (n : nat) : csv_rows :=
  header :: map (fun i => [Py.str (Z.of_nat i); "0"; "0"; "1.0"; "2.0"]) (seq 0 n).

(** The table of [csv_two_vias] on binary64. *)
Definition via_1_2 : B64.via :=
  {| B64.X := B64.zero; B64.Y := B64.zero;
     B64.ID := B64.of_Z 1; B64.OD := B64.of_Z 2 |}.

Definition two_vias64 : dict B64.via := [("0", via_1_2); ("1", via_1_2)].

(** Selected footprints at (900000, 7000000), in host units. *)
Definition footprint_at_7000000 (reference : string) : FOOTPRINT :=
  {| fp_reference := reference; fp_selected := true;
     fp_position := (900000, 7000000)%Z |}.

Definition board_at_7000000 : BOARD :=
  {| items := [];
     footprints := map footprint_at_7000000 ["R1"; "R2"; "R3"; "R4"] |}.

(** A host for the examples: a cast that gives 0 outside the range of
    [int], and a via without a position before it is set up. *)
Definition cast_zero : B64.float -> Z := fun _ => 0%Z.

Definition blank_via : PCB_VIA :=
  {| via_pos := (0, 0)%Z; via_drill := 0%Z; via_width := 0%Z;
     via_layers := (F_Cu, B_Cu); via_type := VIATYPE_NOT_DEFINED |}.

(** A step that the settings dialog lets pass: not below or equal to
    zero, so greater than zero or not a number. *)
Definition accepted_step (x : B64.float) : Prop :=
  x = S754_nan \/ B64.ltb B64.zero x = true.

(** A JSON table on binary64 whose second key is no integer. *)
Definition jvia_1_2 (x : Z) : B64.jvia :=
  {| B64.jX := B64.Int x; B64.jY := B64.Int 0;
     B64.jID := B64.Float (B64.of_Z 1); B64.jOD := B64.Float (B64.of_Z 2) |}.

Definition json_bad_key64 : dict B64.jvia := [("0", jvia_1_2 0); ("a", jvia_1_2 10)].

(** A click on OK with [nan] typed as the X step. *)
Definition click_nan : controls :=
  {| txt_x := "nan"; txt_y := "1"; spin_cols := 10; choice_units := "mm" |}.



(** A file whose second record has [nan] for X, and one with [inf]. *)
Definition csv_nan_cell : csv_rows :=
  [header; ["0"; "0"; "0"; "1.0"; "2.0"]; ["1"; "nan"; "0"; "1.0"; "2.0"]].

Definition csv_inf_cell : csv_rows :=
  [header; ["0"; "0"; "0"; "1.0"; "2.0"]; ["1"; "0"; "inf"; "1.0"; "2.0"]].

(** The two records of [json_descending] and [json_ascending] on
    binary64, with the [int]s and [float]s of the JSON text. *)
Definition json_descending64 : dict B64.jvia := [("1", jvia_1_2 10); ("0", jvia_1_2 0)].
Definition json_ascending64 : dict B64.jvia := [("0", jvia_1_2 0); ("1", jvia_1_2 10)].

(** * Properties *)

Open Scope list_scope.

(** ** The model on small inputs *)

Example int_007 : Py.int "007" = Ok 7%Z.
Proof. reflexivity. Qed.

Example int_padded : Py.int "  -1_000 " = Ok (-1000)%Z.
Proof. reflexivity. Qed.

Example int_rejects :
  Py.int "1.5" = Raise ValueError /\ Py.int "1__0" = Raise ValueError /\
  Py.int "" = Raise ValueError /\ Py.int "7_" = Raise ValueError /\
  Py.int "+ 7" = Raise ValueError.
Proof. repeat split; reflexivity. Qed.

(** [int()] does not skip the separator 28, which [str.strip()] strips. *)
Example int_rejects_separator :
  Py.int (String "7" (String (ascii_of_nat 28) "")) = Raise ValueError /\
  Py.strip (String "7" (String (ascii_of_nat 28) "")) = "7".
Proof. split; reflexivity. Qed.

Example split_A10 : Py.re_split_digits "A10" = ["A"; "10"; ""].
Proof. reflexivity. Qed.

Example split_10A2b : Py.re_split_digits "10A2b" = [""; "10"; "A"; "2"; "b"].
Proof. reflexivity. Qed.

Example sorted_is_stable :
  sorted_by_int ["2"; "02"; "1"; " 2"] = Ok ["1"; "2"; "02"; " 2"].
Proof. reflexivity. Qed.

Example short_record_has_none :
  DictReader [["index"; "X"]; []; ["3"]] = [[("index", Some "3"); ("X", None)]].
Proof. reflexivity. Qed.

Example mmToIU_rounds_FromMM_truncates :
  mmToIU (15 # 10000000) = 2%Z /\ FromMM (15 # 10000000) = 1%Z /\
  mmToIU (- (15 # 10000000)) = (-2)%Z /\ FromMM (- (15 # 10000000)) = (-1)%Z.
Proof. repeat split; reflexivity. Qed.

Example numCols_zero_raises_after_first_record :
  snd (funnelFromCSV decimal_float csv_two_vias 1 1 0 empty_board)
  = Some ZeroDivisionError /\
  List.length (items (fst (funnelFromCSV decimal_float csv_two_vias 1 1 0 empty_board)))
  = 4%nat.
Proof. split; reflexivity. Qed.

(** ** Results *)

Lemma rbind_ok {A B : Type} (r : result A) (k : A -> result B) (b : B) :
  rbind r k = Ok b -> exists a, r = Ok a /\ k a = Ok b.
Proof.
  destruct r as [a|e]; simpl; intros H; [eauto | discriminate].
Qed.

Lemma rmap_ok_all {A B : Type} (f : A -> result B) (l : list A) :
  (forall a, In a l -> exists b, f a = Ok b) ->
  exists bs, rmap f l = Ok bs /\ List.length bs = List.length l.
Proof.
  induction l as [|a l IH]; intros H; simpl.
  - exists []; auto.
  - destruct (H a) as [b Hb]; [now left|].
    destruct IH as [bs [Hbs Hlen]]; [intros; apply H; now right|].
    rewrite Hb, Hbs; simpl. exists (b :: bs); simpl; auto.
Qed.

(** ** Integers and text *)

Module PyFacts.
Import Py.

Lemma append_assoc (a b c : string) : ((a ++ b) ++ c = a ++ (b ++ c))%string.
Proof.
  induction a as [|x a IH]; simpl; [reflexivity | now rewrite IH].
Qed.

Lemma append_nil_r (a : string) : (a ++ EmptyString)%string = a.
Proof.
  induction a as [|x a IH]; simpl; [reflexivity | now rewrite IH].
Qed.

Lemma str_rev_acc_app (s acc : string) :
  str_rev_acc s acc = (str_rev_acc s EmptyString ++ acc)%string.
Proof.
  revert acc; induction s as [|c s IH]; intros acc; simpl; [reflexivity|].
  rewrite IH, (IH (String c EmptyString)).
  rewrite append_assoc. reflexivity.
Qed.

Lemma str_rev_app (a b : string) :
  str_rev (a ++ b) = (str_rev b ++ str_rev a)%string.
Proof.
  unfold str_rev; induction a as [|c a IH]; simpl.
  - now rewrite append_nil_r.
  - rewrite str_rev_acc_app, IH, (str_rev_acc_app a (String c EmptyString)).
    now rewrite append_assoc.
Qed.

Lemma str_rev_involutive (s : string) : str_rev (str_rev s) = s.
Proof.
  induction s as [|c s IH]; [reflexivity|].
  change (String c s) with (String c EmptyString ++ s)%string at 1.
  rewrite str_rev_app, str_rev_app, IH. reflexivity.
Qed.

Lemma no_space_app (a b : string) :
  no_space (a ++ b) = no_space a && no_space b.
Proof.
  induction a as [|c a IH]; simpl; [reflexivity|].
  now rewrite IH, andb_assoc.
Qed.

Lemma no_space_rev (s : string) : no_space (str_rev s) = no_space s.
Proof.
  induction s as [|c s IH]; [reflexivity|].
  change (String c s) with (String c EmptyString ++ s)%string at 1.
  rewrite str_rev_app, no_space_app, IH. simpl.
  now rewrite andb_true_r, andb_comm.
Qed.

Lemma int_space_is_space (c : ascii) : is_int_space c = true -> is_space c = true.
Proof.
  unfold is_int_space, is_space. intros H.
  apply orb_true_iff in H. apply orb_true_iff. destruct H as [H|H]; [now left|].
  right. apply Nat.eqb_eq in H. now rewrite H.
Qed.

Lemma lstrip_int_no_space (s : string) : no_space s = true -> lstrip_int s = s.
Proof.
  destruct s as [|c s]; [reflexivity|]. simpl. intros H.
  destruct (is_int_space c) eqn:Hc; [|reflexivity].
  rewrite (int_space_is_space c Hc) in H. discriminate.
Qed.

Lemma strip_int_no_space (s : string) : no_space s = true -> strip_int s = s.
Proof.
  intros H. unfold strip_int.
  rewrite (lstrip_int_no_space s H).
  rewrite lstrip_int_no_space by now rewrite no_space_rev.
  apply str_rev_involutive.
Qed.

Lemma digitpart_uint (u : Decimal.uint) (acc : Z) :
  digitpart (NilEmpty.string_of_uint u) acc false = Some (horner u acc).
Proof.
  revert acc; induction u; intros acc; simpl; try reflexivity; apply IHu.
Qed.

Lemma no_space_uint (u : Decimal.uint) :
  no_space (NilEmpty.string_of_uint u) = true.
Proof.
  induction u; simpl; auto.
Qed.

Lemma horner_acc (u : Decimal.uint) (acc : positive) :
  horner u (Z.pos acc) = Z.pos (Pos.of_uint_acc u acc).
Proof.
  revert acc; induction u; intros acc; cbn [horner Pos.of_uint_acc];
    try reflexivity; rewrite <- IHu; f_equal; lia.
Qed.

Lemma horner_of_uint (u : Decimal.uint) :
  horner u 0 = Z.of_N (Pos.of_uint u).
Proof.
  induction u; simpl; try reflexivity; try assumption;
    rewrite <- horner_acc; reflexivity.
Qed.

Lemma horner_to_uint (p : positive) : horner (Pos.to_uint p) 0 = Z.pos p.
Proof.
  rewrite horner_of_uint, DecimalPos.Unsigned.of_to. reflexivity.
Qed.

Lemma unsigned_literal_uint (u : Decimal.uint) :
  u <> Decimal.Nil ->
  unsigned_literal (NilEmpty.string_of_uint u) = Some (horner u 0).
Proof.
  intros Hu. destruct u; [congruence | ..];
    cbn [NilEmpty.string_of_uint unsigned_literal horner];
    (replace (is_digit _) with true by reflexivity);
    rewrite digitpart_uint; reflexivity.
Qed.

Lemma str_pos (p : positive) :
  str (Z.pos p) = NilEmpty.string_of_uint (Pos.to_uint p).
Proof.
  unfold str; simpl. unfold NilZero.string_of_uint.
  pose proof (DecimalPos.Unsigned.to_uint_nonnil p) as H.
  destruct (Pos.to_uint p); [congruence | reflexivity ..].
Qed.

Lemma first_char_uint (u : Decimal.uint) :
  u <> Decimal.Nil ->
  exists c s, NilEmpty.string_of_uint u = String c s /\ is_digit c = true.
Proof.
  intros Hu. destruct u; [congruence | ..]; simpl; eauto.
Qed.

(** Reading back what [str] wrote gives the integer. *)
Lemma int_str (n : Z) : int (str n) = Ok n.
Proof.
  destruct n as [|p|p].
  - reflexivity.
  - rewrite str_pos. unfold int.
    rewrite strip_int_no_space by apply no_space_uint.
    pose proof (DecimalPos.Unsigned.to_uint_nonnil p) as Hn.
    destruct (first_char_uint _ Hn) as [c [s [Hs Hc]]].
    assert (Hlit := unsigned_literal_uint _ Hn).
    rewrite horner_to_uint in Hlit. rewrite Hs in *.
    assert (c <> "-"%char /\ c <> "+"%char) as [Hm Hp].
    { split; intros ->; discriminate. }
    destruct c as [[] [] [] [] [] [] [] []]; try congruence;
      rewrite Hlit; reflexivity.
  - unfold str. cbn [Z.to_int NilZero.string_of_int].
    assert (NilZero.string_of_uint (Pos.to_uint p)
            = NilEmpty.string_of_uint (Pos.to_uint p)) as ->.
    { pose proof (DecimalPos.Unsigned.to_uint_nonnil p) as H.
      unfold NilZero.string_of_uint.
      destruct (Pos.to_uint p); [congruence | reflexivity ..]. }
    unfold int. rewrite strip_int_no_space.
    + rewrite unsigned_literal_uint by apply DecimalPos.Unsigned.to_uint_nonnil.
      rewrite horner_to_uint. reflexivity.
    + simpl. apply no_space_uint.
Qed.

Lemma str_inj (a b : Z) : str a = str b -> a = b.
Proof.
  intros H. pose proof (int_str a) as Ha. rewrite H, int_str in Ha.
  congruence.
Qed.

End PyFacts.

(** ** sorted *)

Section SortedFacts.
Context {A K : Type}.
Variable key : A -> result K.
Variable lt : K -> K -> result bool.

(** The keys that occur, on which [<] is a strict weak order. *)
Variable P : K -> Prop.
Hypothesis lt_total : forall a b, P a -> P b -> exists r, lt a b = Ok r.
Hypothesis lt_asym :
  forall a b, P a -> P b -> lt a b = Ok true -> lt b a = Ok false.
Hypothesis le_trans :
  forall a b c, P a -> P b -> P c ->
    lt b a = Ok false -> lt c b = Ok false -> lt c a = Ok false.


Lemma insert_sorted (x : K * A) (l : list (K * A)) :
  decorated_ok key P x -> Forall (decorated_ok key P) l -> StronglySorted (decorated_le lt) l ->
  exists r, insert lt x l = Ok r /\ Permutation (x :: l) r
            /\ StronglySorted (decorated_le lt) r.
Proof.
  intros Hx. induction l as [|y l IH]; intros Hl Hs.
  - exists [x]. simpl. repeat split; auto. constructor; constructor.
  - inversion Hl as [|? ? Hy Hl']; subst.
    inversion Hs as [|? ? Hs' Hall]; subst.
    destruct (lt_total (fst y) (fst x)) as [b Hb]; [apply Hy | apply Hx |].
    cbn [insert]. rewrite Hb. cbn [rbind]. destruct b.
    + destruct (IH Hl' Hs') as [r [Hr [Hp Hsr]]].
      rewrite Hr. cbn [rbind]. exists (y :: r). repeat split.
      * rewrite perm_swap. now constructor.
      * constructor; [assumption|].
        apply (Permutation_Forall Hp). constructor; [|assumption].
        unfold decorated_le. apply lt_asym; [apply Hy | apply Hx | assumption].
    + exists (x :: y :: l). repeat split; auto.
      constructor; [assumption|]. constructor; [exact Hb|].
      rewrite Forall_forall in *. intros z Hz.
      unfold decorated_le. apply (le_trans (fst x) (fst y) (fst z));
        [apply Hx | apply Hy | apply (Hl' z Hz) | exact Hb | exact (Hall z Hz)].
Qed.

Lemma isort_sorted (l : list (K * A)) :
  Forall (decorated_ok key P) l ->
  exists r, isort lt l = Ok r /\ Permutation l r /\ StronglySorted (decorated_le lt) r.
Proof.
  induction l as [|x l IH]; intros Hl.
  - exists []. repeat split; auto. constructor.
  - inversion Hl as [|? ? Hx Hl']; subst.
    destruct (IH Hl') as [s [Hs [Hp Hss]]].
    destruct (insert_sorted x s Hx) as [r [Hr [Hpr Hsr]]];
      [apply (Permutation_Forall Hp Hl') | assumption |].
    cbn [isort]. rewrite Hs. cbn [rbind]. exists r. repeat split; auto.
    rewrite <- Hpr. now constructor.
Qed.

Lemma decorate_all (l : list A) :
  (forall a, In a l -> exists k, key a = Ok k /\ P k) ->
  exists ks, rmap (decorate key) l = Ok ks /\ map snd ks = l /\ Forall (decorated_ok key P) ks.
Proof.
  induction l as [|a l IH]; intros H.
  - exists []. repeat split; auto.
  - destruct (H a) as [k [Hk HP]]; [now left|].
    destruct IH as [ks [Hks [Hm Hg]]]; [intros; apply H; now right|].
    cbn [rmap]. unfold decorate at 1. rewrite Hk. cbn [rbind]. rewrite Hks.
    cbn [rbind]. exists ((k, a) :: ks). repeat split.
    + simpl. now rewrite Hm.
    + constructor; [split; assumption | assumption].
Qed.

Lemma strongly_sorted_map (s : list (K * A)) :
  Forall (decorated_ok key P) s -> StronglySorted (decorated_le lt) s ->
  StronglySorted (key_le key lt) (map snd s).
Proof.
  induction s as [|x s IH]; intros Hg Hs; simpl; [constructor|].
  inversion Hg as [|? ? Hx Hg']; subst.
  inversion Hs as [|? ? Hs' Hall]; subst.
  constructor; [auto|].
  rewrite Forall_forall in *. intros b Hb.
  apply in_map_iff in Hb. destruct Hb as [y [<- Hy]].
  exists (fst x), (fst y). repeat split;
    [apply Hx | apply (Hg' y Hy) | apply (Hall y Hy)].
Qed.

(** [sorted] returns, and what it returns is the same elements in the
    order of their keys. *)
Lemma sorted_spec (l : list A) :
  (forall a, In a l -> exists k, key a = Ok k /\ P k) ->
  exists r, sorted key lt l = Ok r /\ Permutation l r
            /\ StronglySorted (key_le key lt) r.
Proof.
  intros H. destruct (decorate_all l H) as [ks [Hks [Hm Hg]]].
  destruct (isort_sorted ks Hg) as [s [Hs [Hp Hss]]].
  unfold sorted. rewrite Hks. cbn [rbind]. rewrite Hs. cbn [rbind].
  exists (map snd s). repeat split.
  - rewrite <- Hm. now apply Permutation_map.
  - apply strongly_sorted_map; [apply (Permutation_Forall Hp Hg) | assumption].
Qed.
End SortedFacts.

Lemma sorted_by_int_spec (keys : list string) :
  (forall k, In k keys -> exists n, Py.int k = Ok n) ->
  exists r, sorted_by_int keys = Ok r /\ Permutation keys r
            /\ StronglySorted (key_le Py.int int_lt) r.
Proof.
  intros H. apply (sorted_spec Py.int int_lt (fun _ => True)).
  - intros a b _ _. unfold int_lt. eauto.
  - intros a b _ _. unfold int_lt. intros [= Hab]. f_equal.
    apply Z.ltb_lt in Hab. apply Z.ltb_ge. lia.
  - intros a b c _ _ _. unfold int_lt. intros [= H1] [= H2]. f_equal.
    apply Z.ltb_ge in H1, H2. apply Z.ltb_ge. lia.
  - intros k Hk. destruct (H k Hk) as [n Hn]. eauto.
Qed.

(** ** Host units *)

Lemma int_of_float_alt (x : Q) :
  int_of_float x = if Qle_bool 0 x then Qfloor x else (- Qfloor (- x))%Z.
Proof.
  unfold int_of_float, Qfloor, Qle_bool. destruct x as [a b]. cbn [Qnum Qden Qopp].
  rewrite Z.mul_1_r. cbn [Z.mul].
  destruct (Z.leb_spec 0 a) as [Ha|Ha].
  - apply Z.quot_div_nonneg; lia.
  - rewrite <- (Z.opp_involutive a) at 1. rewrite Z.quot_opp_l by lia.
    f_equal. apply Z.quot_div_nonneg; lia.
Qed.

#[export] Instance int_of_float_comp : Proper (Qeq ==> eq) int_of_float.
Proof.
  intros x y H. rewrite !int_of_float_alt.
  assert (Qle_bool 0 x = Qle_bool 0 y) as -> by now rewrite H.
  destruct (Qle_bool 0 y).
  - now apply Qfloor_comp.
  - f_equal. apply Qfloor_comp. now rewrite H.
Qed.

Lemma int_of_float_Z (z : Z) : int_of_float (inject_Z z) = z.
Proof.
  unfold int_of_float, inject_Z. cbn [Qnum Qden]. apply Z.quot_1_r.
Qed.

#[export] Instance FromMM_comp : Proper (Qeq ==> eq) FromMM.
Proof. intros x y H. unfold FromMM. now rewrite H. Qed.

#[export] Instance FromMils_comp : Proper (Qeq ==> eq) FromMils.
Proof. intros x y H. unfold FromMils. now rewrite H. Qed.

#[export] Instance mmToIU_comp : Proper (Qeq ==> eq) mmToIU.
Proof.
  intros x y H. unfold mmToIU.
  assert (Qle_bool 0 x = Qle_bool 0 y) as -> by now rewrite H.
  destruct (Qle_bool 0 y); now rewrite H.
Qed.

#[export] Instance wxPointMM_comp : Proper (Qeq ==> Qeq ==> eq) wxPointMM.
Proof. intros x y H x' y' H'. unfold wxPointMM. now rewrite H, H'. Qed.

Lemma FromMils_whole (q : Q) (z : Z) :
  q * inject_Z IU_PER_MILS == inject_Z z -> FromMils q = z.
Proof.
  intros H. unfold FromMils. rewrite H. apply int_of_float_Z.
Qed.

(** ** distributeX *)

Lemma nth_error_middle {A : Type} (l1 l2 : list A) (a : A) :
  nth_error (l1 ++ a :: l2) (List.length l1) = Some a.
Proof.
  induction l1 as [|x l1 IH]; simpl; auto.
Qed.

Lemma set_nth_middle (l1 l2 : list FOOTPRINT) (f : FOOTPRINT) (p : point) :
  set_nth (List.length l1) p (l1 ++ f :: l2)
  = l1 ++ {| fp_reference := fp_reference f; fp_selected := fp_selected f;
             fp_position := p |} :: l2.
Proof.
  induction l1 as [|x l1 IH]; simpl; [reflexivity | now rewrite IH].
Qed.

(** ** distributeY *)

Lemma distributeY_loop (yStep : Q) (its : list item) (l2 l1 : list FOOTPRINT)
    (y : Q) (n : Z) :
  d_pcb (fold_left (fun st fp => distributeY_body yStep fp st)
           (seq (List.length l1) (List.length l2))
           {| d_yMod := y; d_m := n;
              d_pcb := {| items := its; footprints := l1 ++ l2 |} |})
  = {| items := its; footprints := l1 ++ spread_y yStep n l2 |}.
Proof.
  revert l1 n. induction l2 as [|f l2 IH]; intros l1 n.
  - reflexivity.
  - cbn [List.length seq fold_left spread_y].
    unfold distributeY_body at 2. cbn [d_pcb footprints d_m d_yMod].
    rewrite nth_error_middle. destruct (fp_selected f) eqn:Hsel.
    + unfold SetPosition. cbn [items footprints fst snd wxPointMils].
      rewrite set_nth_middle.
      replace (l1 ++ _ :: l2) with ((l1 ++ [moved_y yStep n f]) ++ l2)
        by (rewrite <- app_assoc; reflexivity).
      replace (S (List.length l1)) with (List.length (l1 ++ [moved_y yStep n f]))
        by (rewrite length_app; simpl; lia).
      rewrite IH. rewrite <- app_assoc. reflexivity.
    + replace (l1 ++ f :: l2) with ((l1 ++ [f]) ++ l2)
        by (rewrite <- app_assoc; reflexivity).
      replace (S (List.length l1)) with (List.length (l1 ++ [f]))
        by (rewrite length_app; simpl; lia).
      rewrite IH. rewrite <- app_assoc. reflexivity.
Qed.

Lemma distributeY_spread (yStep : Q) (board : BOARD) :
  distributeY yStep board
  = {| items := items board; footprints := spread_y yStep 0 (footprints board) |}.
Proof.
  unfold distributeY, GetFootprints. destruct board as [its fps]. cbn [items footprints].
  apply (distributeY_loop yStep its fps [] 0 0%Z).
Qed.

Lemma spread_y_nth (yStep : Q) (l : list FOOTPRINT) (n : Z) (j : nat) (f : FOOTPRINT) :
  nth_error l j = Some f ->
  nth_error (spread_y yStep n l) j
  = Some (if fp_selected f then moved_y yStep (n + selected_before l j) f else f).
Proof.
  revert n j. induction l as [|g l IH]; intros n j Hj.
  - destruct j; discriminate.
  - destruct j as [|j]; simpl in Hj.
    + injection Hj as ->. unfold selected_before. cbn [firstn filter List.length].
      cbn [spread_y]. destruct (fp_selected f); cbn [nth_error]; [|reflexivity].
      now rewrite Z.add_0_r.
    + cbn [spread_y]. unfold selected_before. cbn [firstn filter].
      destruct (fp_selected g) eqn:Hg; cbn [nth_error]; rewrite (IH _ _ Hj);
        unfold selected_before; [|reflexivity].
      cbn [List.length]. destruct (fp_selected f); [|reflexivity].
      f_equal. f_equal. lia.
Qed.

(** C5, at a failing input.  One selected footprint at (25400, 25400) host
    units, that is (1 mil, 1 mil), and a step of 66 mils: it is the first
    selected footprint, so it should stay where it is, as [distributeX]
    leaves it.  [distributeY] converts [Y] to mils twice and passes [X],
    still in host units, as mils: the footprint ends at (645160000, 1).  On
    any board, it multiplies the [X] of every selected footprint by the
    number of host units in a mil. *)
Theorem distributeY_moves_x :
  footprints (distributeY 66 one_footprint)
  = [ {| fp_reference := "R1"; fp_selected := true;
         fp_position := (645160000, 1)%Z |} ]
  /\ footprints (distributeX 66 one_footprint) = footprints one_footprint
  /\ forall (yStep : Q) (board : BOARD) (j : nat) (f : FOOTPRINT),
       nth_error (footprints board) j = Some f ->
       fp_selected f = true ->
       exists f',
         nth_error (footprints (distributeY yStep board)) j = Some f' /\
         fst (fp_position f') = (fst (fp_position f) * IU_PER_MILS)%Z.
Proof.
  split; [reflexivity|]. split; [reflexivity|].
  intros yStep board j f Hj Hsel. rewrite distributeY_spread. cbn [footprints].
  rewrite (spread_y_nth yStep _ 0 j f Hj), Hsel.
  eexists. split; [reflexivity|]. cbn [moved_y fp_position fst].
  apply FromMils_whole. now rewrite inject_Z_mult.
Qed.

(** ** Dictionaries *)

Section DictFacts.
Context {V : Type}.
Implicit Types (d : dict V) (k : string) (v : V).

Lemma dict_get_set_same k v d : dict_get k (dict_set k v d) = Some v.
Proof.
  induction d as [|[k' v'] d IH]; simpl.
  - now rewrite String.eqb_refl.
  - destruct (String.eqb k' k) eqn:E; simpl; rewrite E; auto.
Qed.

Lemma dict_get_set_other k k' v d :
  k' <> k -> dict_get k' (dict_set k v d) = dict_get k' d.
Proof.
  intros Hne. induction d as [|[k0 v0] d IH]; simpl.
  - destruct (String.eqb_spec k k'); [congruence | reflexivity].
  - destruct (String.eqb_spec k0 k) as [->|Hk]; simpl.
    + destruct (String.eqb_spec k k'); [congruence | reflexivity].
    + destruct (String.eqb_spec k0 k'); auto.
Qed.

Lemma dict_keys_set k v d k' :
  In k' (dict_keys (dict_set k v d)) <-> k' = k \/ In k' (dict_keys d).
Proof.
  unfold dict_keys. induction d as [|[k0 v0] d IH]; simpl.
  - intuition.
  - destruct (String.eqb_spec k0 k) as [->|Hk]; simpl.
    + intuition.
    + rewrite IH. intuition.
Qed.

Lemma dict_set_nodup k v d :
  NoDup (dict_keys d) -> NoDup (dict_keys (dict_set k v d)).
Proof.
  unfold dict_keys. induction d as [|[k0 v0] d IH]; simpl; intros Hnd.
  - constructor; [intros [] | constructor].
  - inversion Hnd as [|? ? Hnin Hnd']; subst.
    destruct (String.eqb_spec k0 k) as [->|Hk]; simpl.
    + constructor; assumption.
    + constructor; [|auto].
      intros Hin. apply (dict_keys_set k v d k0) in Hin.
      destruct Hin as [->|Hin]; [congruence | contradiction].
Qed.

Lemma dict_get_in k d :
  In k (dict_keys d) -> exists v, dict_get k d = Some v.
Proof.
  unfold dict_keys. induction d as [|[k0 v0] d IH]; simpl; [intros []|].
  intros [->|Hin].
  - rewrite String.eqb_refl. eauto.
  - destruct (String.eqb k0 k); eauto.
Qed.

Lemma dict_get_some_in k v d : dict_get k d = Some v -> In k (dict_keys d).
Proof.
  unfold dict_keys. induction d as [|[k0 v0] d IH]; simpl; [discriminate|].
  destruct (String.eqb_spec k0 k) as [->|Hk]; auto.
Qed.

Lemma dict_get_nodup k v d :
  NoDup (dict_keys d) -> In (k, v) d -> dict_get k d = Some v.
Proof.
  unfold dict_keys. induction d as [|[k0 v0] d IH]; simpl; [intros _ []|].
  intros Hnd Hin. inversion Hnd as [|? ? Hnin Hnd']; subst.
  destruct Hin as [[= -> ->]|Hin].
  - now rewrite String.eqb_refl.
  - destruct (String.eqb_spec k0 k) as [->|Hk]; auto.
    exfalso. apply Hnin. apply in_map_iff. exists (k, v). auto.
Qed.
End DictFacts.

(** ** restoreCSV *)

Section RestoreFacts.
Variable float_of_str : string -> result Q.

Lemma restoreCSV_row_split (row : dict cell) (d : dict via) :
  restoreCSV_row float_of_str row d
  = (n <- row_index row ;;
     v <- row_via float_of_str row ;;
     Ok (dict_set (Py.str n) v d)).
Proof.
  unfold restoreCSV_row, row_index, row_via.
  destruct (getitem "index" row) as [ci|]; cbn [rbind]; [|reflexivity].
  destruct (int_cell ci) as [n|]; cbn [rbind]; [|reflexivity].
  destruct (getitem "X" row) as [cx|]; cbn [rbind]; [|reflexivity].
  destruct (float_cell float_of_str cx); cbn [rbind]; [|reflexivity].
  destruct (getitem "Y" row) as [cy|]; cbn [rbind]; [|reflexivity].
  destruct (float_cell float_of_str cy); cbn [rbind]; [|reflexivity].
  destruct (getitem "ID" row) as [cid|]; cbn [rbind]; [|reflexivity].
  destruct (float_cell float_of_str cid); cbn [rbind]; [|reflexivity].
  destruct (getitem "OD" row) as [cod|]; cbn [rbind]; [|reflexivity].
  destruct (float_cell float_of_str cod); cbn [rbind]; reflexivity.
Qed.

Lemma restoreCSV_row_ok (row : dict cell) (d d' : dict via) :
  restoreCSV_row float_of_str row d = Ok d' ->
  exists n v, row_index row = Ok n /\ row_via float_of_str row = Ok v
              /\ d' = dict_set (Py.str n) v d.
Proof.
  rewrite restoreCSV_row_split. intros H.
  apply rbind_ok in H. destruct H as [n [Hn H]].
  apply rbind_ok in H. destruct H as [v [Hv H]].
  injection H as <-. eauto.
Qed.

Lemma restoreCSV_loop_app (a b : list (dict cell)) (d0 d : dict via) :
  restoreCSV_loop float_of_str (a ++ b) d0 = Ok d ->
  exists d1, restoreCSV_loop float_of_str a d0 = Ok d1
             /\ restoreCSV_loop float_of_str b d1 = Ok d.
Proof.
  revert d0. induction a as [|row a IH]; intros d0 H; simpl in *.
  - eauto.
  - apply rbind_ok in H. destruct H as [d' [Hrow H]].
    rewrite Hrow. cbn [rbind]. auto.
Qed.

Lemma restoreCSV_loop_keys (rows : list (dict cell)) (d0 d : dict via) :
  restoreCSV_loop float_of_str rows d0 = Ok d ->
  forall k, In k (dict_keys d) <->
            In k (dict_keys d0)
            \/ exists row n, In row rows /\ row_index row = Ok n /\ k = Py.str n.
Proof.
  revert d0. induction rows as [|row rows IH]; intros d0 H k; simpl in H.
  - injection H as <-. split; [auto|]. intros [?|[row [n [[] _]]]]. assumption.
  - apply rbind_ok in H. destruct H as [d' [Hrow H]].
    apply restoreCSV_row_ok in Hrow. destruct Hrow as [n [v [Hn [Hv ->]]]].
    rewrite (IH _ H k), dict_keys_set. split.
    + intros [[->|Hin]|[r [n' [Hr [Hn' ->]]]]].
      * right. exists row, n. simpl. auto.
      * now left.
      * right. exists r, n'. simpl. auto.
    + intros [Hin|[r [n' [[<-|Hr] [Hn' ->]]]]].
      * left. now right.
      * left. left. congruence.
      * right. eauto.
Qed.

Lemma restoreCSV_loop_nodup (rows : list (dict cell)) (d0 d : dict via) :
  restoreCSV_loop float_of_str rows d0 = Ok d ->
  NoDup (dict_keys d0) -> NoDup (dict_keys d).
Proof.
  revert d0. induction rows as [|row rows IH]; intros d0 H Hnd; simpl in H.
  - now injection H as <-.
  - apply rbind_ok in H. destruct H as [d' [Hrow H]].
    apply restoreCSV_row_ok in Hrow. destruct Hrow as [n [v [Hn [Hv ->]]]].
    apply (IH _ H). now apply dict_set_nodup.
Qed.

(** Rows with another index leave the record of index [n] alone. *)
Lemma restoreCSV_loop_keeps (rows : list (dict cell)) (d0 d : dict via) (n : Z) :
  restoreCSV_loop float_of_str rows d0 = Ok d ->
  (forall r, In r rows -> row_index r <> Ok n) ->
  dict_get (Py.str n) d = dict_get (Py.str n) d0.
Proof.
  revert d0. induction rows as [|row rows IH]; intros d0 H Hother; simpl in H.
  - now injection H as <-.
  - apply rbind_ok in H. destruct H as [d' [Hrow H]].
    apply restoreCSV_row_ok in Hrow. destruct Hrow as [n' [v [Hn [Hv ->]]]].
    rewrite (IH _ H) by (intros r Hr; apply Hother; now right).
    apply dict_get_set_other. intros Heq. apply PyFacts.str_inj in Heq. subst n'.
    apply (Hother row); [now left | assumption].
Qed.

Lemma restoreCSV_loop_rows_ok (rows : list (dict cell)) (d0 d : dict via) :
  restoreCSV_loop float_of_str rows d0 = Ok d ->
  forall row, In row rows ->
    exists n v, row_index row = Ok n /\ row_via float_of_str row = Ok v.
Proof.
  revert d0. induction rows as [|r rows IH]; intros d0 H row Hin; simpl in H.
  - destruct Hin.
  - apply rbind_ok in H. destruct H as [d' [Hrow H]].
    destruct Hin as [->|Hin]; [|eauto].
    apply restoreCSV_row_ok in Hrow. destruct Hrow as [n [v [Hn [Hv _]]]]. eauto.
Qed.

Lemma restoreCSV_keys_canonical (f : csv_rows) (d : dict via) :
  restoreCSV float_of_str f = Ok d ->
  forall k, In k (dict_keys d) -> exists n, k = Py.str n /\ Py.int k = Ok n.
Proof.
  intros H k Hk. apply (restoreCSV_loop_keys _ _ _ H) in Hk.
  destruct Hk as [[]|[row [n [_ [_ ->]]]]].
  exists n. split; [reflexivity | apply PyFacts.int_str].
Qed.
End RestoreFacts.

(** C10. When [restoreCSV] returns, every key of the mapping is [str(n)] for
    the integer [n] that [int()] reads in the index of some row, and every
    such [str(n)] is a key, once; and under the key of a row the mapping
    holds the four floats of that row, unless a later row has the same
    integer as its index: the last row of an index wins.  So a row of index
    [007] is stored under [7], and a later row of index [7] replaces it. *)
Theorem restoreCSV_normalises_keys_last_row_wins
    (float_of_str : string -> result Q) (f : csv_rows) (d : dict via) :
  restoreCSV float_of_str f = Ok d ->
  NoDup (dict_keys d) /\
  (forall k, In k (dict_keys d) <->
     exists row n, In row (DictReader f) /\ row_index row = Ok n /\ k = Py.str n) /\
  (forall before row after,
     DictReader f = before ++ row :: after ->
     exists n v,
       row_index row = Ok n /\ row_via float_of_str row = Ok v /\
       ((forall r, In r after -> row_index r <> Ok n) ->
        dict_get (Py.str n) d = Some v)) /\
  (forall a b,
     float_of_str "1" = Ok a -> float_of_str "2" = Ok b ->
     restoreCSV float_of_str csv_repeated_index
     = Ok [("7", {| X := b; Y := b; ID := b; OD := b |})]).
Proof.
  intros H. unfold restoreCSV in H. repeat split.
  - apply (restoreCSV_loop_nodup _ _ _ _ H). constructor.
  - intros Hk. apply (restoreCSV_loop_keys _ _ _ _ H) in Hk.
    destruct Hk as [[]|Hk]. exact Hk.
  - intros Hk. apply (restoreCSV_loop_keys _ _ _ _ H). now right.
  - intros before row after Hrows. rewrite Hrows in H.
    apply restoreCSV_loop_app in H. destruct H as [d1 [_ H]].
    simpl in H. apply rbind_ok in H. destruct H as [d' [Hrow H]].
    apply restoreCSV_row_ok in Hrow. destruct Hrow as [n [v [Hn [Hv ->]]]].
    exists n, v. repeat split; auto. intros Hlast.
    rewrite (restoreCSV_loop_keeps _ _ _ _ n H Hlast).
    apply dict_get_set_same.
  - intros a b Ha Hb. unfold restoreCSV, csv_repeated_index, header.
    cbn [DictReader filter is_blank negb map].
    cbn. rewrite Ha, Hb. reflexivity.
Qed.

Lemma restoreCSV_normalises_keys_last_row_wins_witness :
  restoreCSV decimal_float csv_repeated_index
  = Ok [("7", {| X := 2; Y := 2; ID := 2; OD := 2 |})]
  /\ NoDup (dict_keys [("7", {| X := 2; Y := 2; ID := 2; OD := 2 |})]).
Proof.
  split; [reflexivity|].
  exact (proj1 (restoreCSV_normalises_keys_last_row_wins decimal_float
                  csv_repeated_index _ eq_refl)).
Defined.

(** ** Malformed tables *)

Section Malformed.
Variable float_of_str : string -> result Q.

Lemma unreadable_index (row : dict cell) :
  unreadable float_of_str "index" row -> exists e, row_index row = Raise e.
Proof.
  unfold unreadable, row_index, getitem.
  destruct (dict_get "index" row) as [[s|]|]; cbn; eauto.
Qed.

Lemma unreadable_float (c : string) (row : dict cell) :
  unreadable float_of_str c row -> String.eqb c "index" = false ->
  exists e, (cc <- getitem c row ;; float_cell float_of_str cc) = Raise e.
Proof.
  unfold unreadable, getitem. intros H Hc. rewrite Hc in H.
  destruct (dict_get c row) as [[s|]|]; cbn; eauto.
Qed.

Lemma unreadable_via (c : string) (row : dict cell) :
  In c ["X"; "Y"; "ID"; "OD"] -> unreadable float_of_str c row ->
  exists e, row_via float_of_str row = Raise e.
Proof.
  intros Hc Hu. unfold row_via.
  assert (String.eqb c "index" = false) as Hne.
  { simpl in Hc. decompose [or] Hc; subst; try reflexivity; contradiction. }
  destruct (unreadable_float c row Hu Hne) as [e He].
  destruct (getitem "X" row) as [cx|ex] eqn:Ex; cbn [rbind]; [|eauto].
  destruct (float_cell float_of_str cx) as [x|ex] eqn:Fx; cbn [rbind]; [|eauto].
  destruct (getitem "Y" row) as [cy|ey] eqn:Ey; cbn [rbind]; [|eauto].
  destruct (float_cell float_of_str cy) as [y|ey] eqn:Fy; cbn [rbind]; [|eauto].
  destruct (getitem "ID" row) as [ci|ei] eqn:Ei; cbn [rbind]; [|eauto].
  destruct (float_cell float_of_str ci) as [i|ei] eqn:Fi; cbn [rbind]; [|eauto].
  destruct (getitem "OD" row) as [co|eo] eqn:Eo; cbn [rbind]; [|eauto].
  destruct (float_cell float_of_str co) as [o|eo] eqn:Fo; cbn [rbind]; [|eauto].
  exfalso. simpl in Hc.
  destruct Hc as [<-|[<-|[<-|[<-|[]]]]].
  - rewrite Ex in He; cbn in He; congruence.
  - rewrite Ey in He; cbn in He; congruence.
  - rewrite Ei in He; cbn in He; congruence.
  - rewrite Eo in He; cbn in He; congruence.
Qed.

Lemma unreadable_row_raises (c : string) (row : dict cell) (d : dict via) :
  In c header -> unreadable float_of_str c row ->
  exists e, restoreCSV_row float_of_str row d = Raise e.
Proof.
  intros Hc Hu. rewrite restoreCSV_row_split.
  destruct Hc as [<-|Hc].
  - destruct (unreadable_index row Hu) as [e ->]. cbn. eauto.
  - destruct (unreadable_via c row Hc Hu) as [e He].
    destruct (row_index row); cbn [rbind]; [|eauto].
    rewrite He. cbn. eauto.
Qed.

Lemma unreadable_rows_raise (rows : list (dict cell)) (d : dict via) :
  (exists row c, In row rows /\ In c header /\ unreadable float_of_str c row) ->
  exists e, restoreCSV_loop float_of_str rows d = Raise e.
Proof.
  revert d. induction rows as [|r rows IH]; intros d [row [c [Hin [Hc Hu]]]].
  - destruct Hin.
  - cbn [restoreCSV_loop].
    destruct (restoreCSV_row float_of_str r d) as [d'|e] eqn:Hr; cbn [rbind]; [|eauto].
    destruct Hin as [->|Hin].
    + destruct (unreadable_row_raises c row d Hc Hu) as [e He]. congruence.
    + apply IH. eauto.
Qed.
End Malformed.

Lemma dict_of_keys {V : Type} (pairs : list (string * V)) (d0 : dict V) (k : string) :
  In k (dict_keys (fold_left (fun d kv => dict_set (fst kv) (snd kv) d) pairs d0)) ->
  In k (dict_keys d0) \/ In k (map fst pairs).
Proof.
  revert d0. induction pairs as [|[k0 v0] pairs IH]; intros d0 H; simpl in *.
  - now left.
  - apply IH in H. destruct H as [H|H]; [|auto].
    apply dict_keys_set in H. destruct H as [->|H]; auto.
Qed.

Lemma row_dict_keys (fieldnames row : list string) (k : string) :
  In k (dict_keys (row_dict fieldnames row)) -> In k fieldnames.
Proof.
  unfold row_dict.
  set (d := dict_of _).
  assert (Hd : forall k, In k (dict_keys d) -> In k fieldnames).
  { intros k' Hk'. unfold d, dict_of in Hk'. apply dict_of_keys in Hk'.
    destruct Hk' as [[]|Hk']. rewrite map_map in Hk'. cbn [fst] in Hk'.
    apply in_map_iff in Hk'. destruct Hk' as [[a b] [<- Hab]].
    apply in_combine_l in Hab. exact Hab. }
  clearbody d.
  assert (Hs : forall k, In k (skipn (List.length row) fieldnames) -> In k fieldnames).
  { intros k' Hk'. rewrite <- (firstn_skipn (List.length row) fieldnames).
    apply in_or_app. now right. }
  revert d Hd Hs. generalize (skipn (List.length row) fieldnames) as rest.
  induction rest as [|c rest IH]; intros d Hd Hs; simpl.
  - apply Hd.
  - apply IH.
    + intros k' Hk'. apply dict_keys_set in Hk'. destruct Hk' as [->|Hk'].
      * apply Hs. now left.
      * now apply Hd.
    + intros k' Hk'. apply Hs. now right.
Qed.

(** Under a header without the column [c], no row has it. *)
Lemma missing_column_unreadable (float_of_str : string -> result Q)
    (fieldnames : list string) (rows : list (list string)) (c : string)
    (row : dict cell) :
  ~ In c fieldnames -> In row (DictReader (fieldnames :: rows)) ->
  unreadable float_of_str c row.
Proof.
  intros Hc Hrow. cbn [DictReader] in Hrow. apply in_map_iff in Hrow.
  destruct Hrow as [r [<- _]]. unfold unreadable.
  destruct (dict_get c (row_dict fieldnames r)) as [v|] eqn:E; [|exact I].
  exfalso. apply Hc. apply (row_dict_keys fieldnames r).
  apply (dict_get_some_in _ _ _ E).
Qed.

(** C7, as the code has it.  When the file has a record, and a column among
    [index], [X], [Y], [ID], [OD] is missing from the header, or some record
    is too short to have it, or holds there what [int()] (for the index) or
    [float()] rejects, then [restoreCSV] raises; and [funnelFromCSV], which
    calls it first, ends with that exception and the board as it was. *)
Theorem unreadable_csv_leaves_board_unchanged
    (float_of_str : string -> result Q) (f : csv_rows) (xStep yStep : Q)
    (numCols : Z) (board : BOARD) :
  (exists row, In row (DictReader f) /\
     ((exists c, In c header /\ ~ In c (hd [] f)) \/
      (exists c, In c header /\ unreadable float_of_str c row))) ->
  exists e,
    restoreCSV float_of_str f = Raise e /\
    funnelFromCSV float_of_str f xStep yStep numCols board = (board, Some e).
Proof.
  intros [row [Hrow Hbad]].
  assert (exists c, In c header /\ unreadable float_of_str c row) as [c [Hc Hu]].
  { destruct Hbad as [[c [Hc Hmiss]]|Hbad]; [|exact Hbad].
    exists c. split; [exact Hc|].
    destruct f as [|fieldnames rows]; [destruct Hrow|].
    apply (missing_column_unreadable float_of_str fieldnames rows); assumption. }
  destruct (unreadable_rows_raise float_of_str (DictReader f) [])
    as [e He]; [eauto|].
  exists e. unfold funnelFromCSV, restoreCSV. rewrite He. auto.
Qed.

Lemma unreadable_csv_leaves_board_unchanged_witness :
  exists e,
    restoreCSV decimal_float csv_bad_number = Raise e /\
    funnelFromCSV decimal_float csv_bad_number (188 # 100) (163 # 100) 10
      three_footprints = (three_footprints, Some e).
Proof.
  apply unreadable_csv_leaves_board_unchanged.
  exists (row_dict header ["1"; "0"; "abc"; "1.0"; "2.0"]). split.
  - simpl. right. left. reflexivity.
  - right. exists "Y". split.
    + simpl. auto.
    + exists ValueError. reflexivity.
Defined.

(** C7, as stated, fails on a file without records: a header that lacks
    the column [OD] and nothing after it loads as the empty mapping. *)
Lemma header_only_csv_loads :
  In "OD" header /\ ~ In "OD" (hd [] csv_header_only) /\
  restoreCSV decimal_float csv_header_only = Ok [] /\
  ~ (forall (f : csv_rows) (c : string),
       In c header -> ~ In c (hd [] f) ->
       exists e, restoreCSV decimal_float f = Raise e).
Proof.
  assert (Hmiss : ~ In "OD" (hd [] csv_header_only)).
  { simpl. intros H. decompose [or] H; discriminate || contradiction. }
  repeat split.
  - simpl. auto 10.
  - exact Hmiss.
  - intros H. destruct (H csv_header_only "OD") as [e He].
    + simpl. auto 10.
    + exact Hmiss.
    + discriminate.
Qed.

(** ** The placement loop *)





Lemma row_start (n i : Z) :
  (1 <= n)%Z -> (0 < i)%Z -> (i mod n = 0)%Z -> ((i - 1) / n + 1 = i / n)%Z.
Proof.
  intros Hn Hi Hmod.
  pose proof (Z.div_mod i n ltac:(lia)) as Hd. rewrite Hmod in Hd.
  pose proof (Z.div_mod (i - 1) n ltac:(lia)) as Hd1.
  pose proof (Z.mod_pos_bound (i - 1) n ltac:(lia)) as Hb.
  assert (n * (i / n - (i - 1) / n) = (i - 1) mod n + 1)%Z as He by lia.
  assert (0 < i / n - (i - 1) / n)%Z by nia.
  assert (i / n - (i - 1) / n < 2)%Z by nia.
  lia.
Qed.

Lemma row_inside (n i : Z) :
  (1 <= n)%Z -> (0 < i)%Z -> (i mod n <> 0)%Z ->
  ((i - 1) mod n + 1 = i mod n)%Z /\ ((i - 1) / n = i / n)%Z.
Proof.
  intros Hn Hi Hmod.
  pose proof (Z.div_mod i n ltac:(lia)) as Hd.
  pose proof (Z.mod_pos_bound i n ltac:(lia)) as Hb.
  assert (i - 1 = n * (i / n) + (i mod n - 1))%Z as He by lia.
  split.
  - rewrite <- (Z.mod_unique (i - 1) n (i / n) (i mod n - 1)); [lia | lia | exact He].
  - symmetry. apply (Z.div_unique (i - 1) n _ (i mod n - 1)); [lia | exact He].
Qed.




Lemma strongly_sorted_strict (l : list string) :
  NoDup l ->
  (forall k, In k l -> exists n, k = Py.str n) ->
  StronglySorted (key_le Py.int int_lt) l -> StronglySorted index_lt l.
Proof.
  induction l as [|a l IH]; intros Hnd Hcanon Hs; [constructor|].
  inversion Hnd as [|? ? Hnin Hnd']; subst.
  inversion Hs as [|? ? Hs' Hall]; subst.
  constructor.
  - apply IH; auto. intros k Hk. apply Hcanon. now right.
  - rewrite Forall_forall in *. intros b Hb.
    destruct (Hall b Hb) as [na [nb [Ha [Hbn Hlt]]]].
    exists na, nb. repeat split; auto.
    unfold int_lt in Hlt. injection Hlt as Hlt. apply Z.ltb_ge in Hlt.
    assert (na <> nb); [|lia]. intros ->.
    destruct (Hcanon a) as [n1 ->]; [now left|].
    destruct (Hcanon b) as [n2 ->]; [now right|].
    rewrite PyFacts.int_str in Ha, Hbn. apply Hnin. congruence.
Qed.

Section FunnelFacts.
Variable float_of_str : string -> result Q.

(** The keys of a loaded table, sorted: all of them, in strictly ascending
    numeric order. *)
Lemma loaded_keys_sorted (csvFile : csv_rows) (viaDict : dict via) :
  restoreCSV float_of_str csvFile = Ok viaDict ->
  exists keyList,
    sorted_by_int (dict_keys viaDict) = Ok keyList /\
    Permutation (dict_keys viaDict) keyList /\
    StronglySorted index_lt keyList.
Proof.
  intros Hload.
  pose proof (restoreCSV_keys_canonical _ _ _ Hload) as Hcanon.
  destruct (sorted_by_int_spec (dict_keys viaDict)) as [keyList [Hs [Hp Hss]]].
  { intros k Hk. destruct (Hcanon k Hk) as [n [_ Hn]]. eauto. }
  exists keyList. repeat split; auto.
  apply strongly_sorted_strict; auto.
  - apply (Permutation_NoDup Hp).
    apply (restoreCSV_loop_nodup _ _ _ _ Hload). constructor.
  - intros k Hk. apply (Permutation_in _ (Permutation_sym Hp)) in Hk.
    destruct (Hcanon k Hk) as [n [Hn _]]. eauto.
Qed.

End FunnelFacts.

(** ** funnelFromJson *)


(** ** distributeXY *)

(** C3, at two failing inputs, with steps of 360 mils (9144000 host units).
    Three selected footprints A1, A2, A3 at the origin and two columns: the
    test for the end of a row comes after the move and skips [i = 0], so
    A3, third in order, goes to column 2 of row 0 and not to column 0 of
    row 1.  Two selected footprints A2, A10 in this host order: the names
    are sorted naturally, paired with the footprints in host order, and the
    pairs sorted again as plain text, which puts A10 first; A2 is moved as
    the second footprint.  Nothing is added to the board. *)
Theorem distributeXY_misses_grid_and_order :
  distributeXY 360 360 2 board_A1_A2_A3
  = ({| items := [];
        footprints :=
          [ {| fp_reference := "A1"; fp_selected := true; fp_position := (0, 0)%Z |};
            {| fp_reference := "A2"; fp_selected := true; fp_position := (9144000, 0)%Z |};
            {| fp_reference := "A3"; fp_selected := true; fp_position := (18288000, 0)%Z |} ] |},
     None)
  /\ natural_sort ["A2"; "A10"] = Ok ["A2"; "A10"]
  /\ distributeXY 360 360 10 board_A2_A10
     = ({| items := [];
           footprints :=
             [ {| fp_reference := "A2"; fp_selected := true; fp_position := (9144000, 0)%Z |};
               {| fp_reference := "A10"; fp_selected := true; fp_position := (0, 0)%Z |} ] |},
        None).
Proof.
  repeat split; reflexivity.
Qed.

(** ** The order of natural_sort *)

Lemma ascii_compare_refl (a : ascii) : Ascii.compare a a = Eq.
Proof. apply N.compare_refl. Qed.

Lemma ascii_compare_lt_trans (a b c : ascii) :
  Ascii.compare a b = Lt -> Ascii.compare b c = Lt -> Ascii.compare a c = Lt.
Proof.
  unfold Ascii.compare. rewrite !N.compare_lt_iff. apply N.lt_trans.
Qed.

Lemma string_compare_lt_trans (a b c : string) :
  String.compare a b = Lt -> String.compare b c = Lt -> String.compare a c = Lt.
Proof.
  revert b c. induction a as [|x a IH]; intros [|y b] [|z c]; simpl;
    try discriminate; auto.
  destruct (Ascii.compare x y) eqn:Exy; try discriminate;
    destruct (Ascii.compare y z) eqn:Eyz; try discriminate.
  - apply Ascii.compare_eq_iff in Exy, Eyz. subst.
    rewrite ascii_compare_refl. apply IH.
  - apply Ascii.compare_eq_iff in Exy. subst. now rewrite Eyz.
  - apply Ascii.compare_eq_iff in Eyz. subst. now rewrite Exy.
  - now rewrite (ascii_compare_lt_trans x y z Exy Eyz).
Qed.

Lemma str_lt_asym (a b : string) : Py.str_lt a b = true -> Py.str_lt b a = false.
Proof.
  unfold Py.str_lt, String.ltb. rewrite (String.compare_antisym b a).
  destruct (String.compare a b); simpl; congruence.
Qed.

Lemma str_lt_irrefl (a : string) : Py.str_lt a a = false.
Proof.
  destruct (Py.str_lt a a) eqn:E; [|reflexivity].
  now rewrite (str_lt_asym a a E) in E.
Qed.

Lemma str_lt_trans (a b c : string) :
  Py.str_lt a b = true -> Py.str_lt b c = true -> Py.str_lt a c = true.
Proof.
  unfold Py.str_lt, String.ltb.
  destruct (String.compare a b) eqn:Eab; try discriminate.
  destruct (String.compare b c) eqn:Ebc; try discriminate.
  now rewrite (string_compare_lt_trans a b c Eab Ebc).
Qed.

Lemma str_lt_connected (a b : string) :
  a <> b -> Py.str_lt a b = false -> Py.str_lt b a = true.
Proof.
  unfold Py.str_lt, String.ltb. intros Hne. rewrite (String.compare_antisym b a).
  destruct (String.compare a b) eqn:E; simpl; try congruence.
  apply String.compare_eq_iff in E. contradiction.
Qed.

Lemma chunk_eqb_eq (x y : chunk) : chunk_eqb x y = true <-> x = y.
Proof.
  destruct x as [a|a], y as [b|b]; simpl; split; try congruence.
  - intros H. apply Z.eqb_eq in H. congruence.
  - intros [= ->]. apply Z.eqb_refl.
  - intros H. apply String.eqb_eq in H. congruence.
  - intros [= ->]. apply String.eqb_refl.
Qed.

Lemma chunk_eqb_sym (x y : chunk) : chunk_eqb x y = chunk_eqb y x.
Proof.
  destruct x, y; simpl; auto using Z.eqb_sym, String.eqb_sym.
Qed.

Lemma chunk_lt_total (x y : chunk) :
  is_int x = is_int y -> exists r, chunk_lt x y = Ok r.
Proof.
  destruct x, y; simpl; intros H; try discriminate; eauto.
Qed.

Lemma chunk_lt_asym (x y : chunk) :
  chunk_lt x y = Ok true -> chunk_lt y x = Ok false /\ chunk_eqb x y = false.
Proof.
  destruct x as [a|a], y as [b|b]; simpl; try discriminate; intros [= H].
  - apply Z.ltb_lt in H. split; [f_equal; apply Z.ltb_ge | apply Z.eqb_neq]; lia.
  - split; [f_equal; now apply str_lt_asym|].
    apply String.eqb_neq. intros ->. now rewrite str_lt_irrefl in H.
Qed.

Lemma chunk_lt_connected (x y : chunk) :
  is_int x = is_int y -> chunk_eqb x y = false -> chunk_lt x y = Ok false ->
  chunk_lt y x = Ok true.
Proof.
  destruct x as [a|a], y as [b|b]; simpl; try discriminate; intros _ He [= H].
  - apply Z.eqb_neq in He. apply Z.ltb_ge in H. f_equal. apply Z.ltb_lt. lia.
  - apply String.eqb_neq in He. f_equal. now apply str_lt_connected.
Qed.

Lemma chunk_lt_trans (x y z : chunk) :
  chunk_lt x y = Ok true -> chunk_lt y z = Ok true -> chunk_lt x z = Ok true.
Proof.
  destruct x as [a|a], y as [b|b], z as [c|c]; simpl; try discriminate;
    intros [= H1] [= H2]; f_equal.
  - apply Z.ltb_lt in H1, H2. apply Z.ltb_lt. lia.
  - now apply (str_lt_trans a b c).
Qed.

Lemma key_lt_total (a b : list chunk) (d : bool) :
  alternates d a -> alternates d b -> exists r, key_lt a b = Ok r.
Proof.
  revert b d. induction a as [|x a IH]; intros [|y b] d Ha Hb; simpl; eauto.
  destruct Ha as [Hx Ha], Hb as [Hy Hb].
  destruct (chunk_eqb x y).
  - apply (IH b (negb d)); assumption.
  - apply chunk_lt_total. congruence.
Qed.

Lemma key_lt_asym (a b : list chunk) :
  key_lt a b = Ok true -> key_lt b a = Ok false.
Proof.
  revert b. induction a as [|x a IH]; intros [|y b]; simpl; try discriminate; auto.
  rewrite (chunk_eqb_sym y x). destruct (chunk_eqb x y) eqn:E.
  - apply IH.
  - intros H. now apply chunk_lt_asym in H.
Qed.

Lemma key_le_trans (a b c : list chunk) (d : bool) :
  alternates d a -> alternates d b -> alternates d c ->
  key_lt b a = Ok false -> key_lt c b = Ok false -> key_lt c a = Ok false.
Proof.
  revert b c d. induction a as [|x a IH]; intros [|y b] [|z c] d Ha Hb Hc;
    simpl; try discriminate; auto.
  destruct Ha as [Hx Ha], Hb as [Hy Hb], Hc as [Hz Hc].
  destruct (chunk_eqb y x) eqn:Eyx; destruct (chunk_eqb z y) eqn:Ezy.
  - apply chunk_eqb_eq in Eyx, Ezy. subst z y.
    assert (chunk_eqb x x = true) as -> by now apply chunk_eqb_eq.
    apply (IH b c (negb d)); assumption.
  - apply chunk_eqb_eq in Eyx. subst y. rewrite Ezy. auto.
  - apply chunk_eqb_eq in Ezy. subst z. rewrite Eyx. auto.
  - intros H1 H2.
    assert (Hxy : chunk_lt x y = Ok true).
    { apply chunk_lt_connected; [congruence | exact Eyx | exact H1]. }
    assert (Hyz : chunk_lt y z = Ok true).
    { apply chunk_lt_connected; [congruence | exact Ezy | exact H2]. }
    destruct (chunk_lt_asym x z (chunk_lt_trans x y z Hxy Hyz)) as [Hzx Hne].
    rewrite chunk_eqb_sym, Hne. exact Hzx.
Qed.

(** ** The runs of a label *)

Module RunFacts.
Import Py PyFacts.

Lemma str_rev_cons (c : ascii) (s : string) :
  str_rev (String c s) = (str_rev s ++ String c EmptyString)%string.
Proof.
  unfold str_rev. simpl. apply str_rev_acc_app.
Qed.

Lemma all_digits_app (a b : string) :
  all_digits (a ++ b) = all_digits a && all_digits b.
Proof.
  induction a as [|c a IH]; simpl; [reflexivity|].
  now rewrite IH, andb_assoc.
Qed.

Lemma has_no_digit_app (a b : string) :
  has_no_digit (a ++ b) = has_no_digit a && has_no_digit b.
Proof.
  induction a as [|c a IH]; simpl; [reflexivity|].
  now rewrite IH, andb_assoc.
Qed.

Lemma all_digits_rev (s : string) : all_digits (str_rev s) = all_digits s.
Proof.
  induction s as [|c s IH]; [reflexivity|].
  rewrite str_rev_cons, all_digits_app, IH. simpl.
  now rewrite andb_true_r, andb_comm.
Qed.

Lemma has_no_digit_rev (s : string) : has_no_digit (str_rev s) = has_no_digit s.
Proof.
  induction s as [|c s IH]; [reflexivity|].
  rewrite str_rev_cons, has_no_digit_app, IH. simpl.
  now rewrite andb_true_r, andb_comm.
Qed.

Lemma isdigit_rev_cons (c : ascii) (s : string) :
  isdigit (str_rev (String c s)) = is_digit c && all_digits s.
Proof.
  assert (H : forall t, t <> EmptyString -> isdigit t = all_digits t).
  { intros [|x t] Ht; [congruence | reflexivity]. }
  rewrite H.
  - rewrite all_digits_rev. reflexivity.
  - rewrite str_rev_cons. destruct (str_rev s); discriminate.
Qed.

Lemma isdigit_all_digits (s : string) : isdigit s = true -> all_digits s = true.
Proof.
  destruct s; [discriminate | auto].
Qed.

Lemma has_no_digit_not_isdigit (s : string) :
  has_no_digit s = true -> isdigit s = false.
Proof.
  destruct s as [|c s]; [reflexivity|]. simpl.
  destruct (is_digit c); [discriminate | reflexivity].
Qed.

Lemma split_runs_alternate (s cur : string) (indig : bool) :
  (if indig then isdigit (str_rev cur) = true
   else has_no_digit (str_rev cur) = true) ->
  runs_alternate indig (split_runs s cur indig).
Proof.
  revert cur indig. induction s as [|c s IH]; intros cur indig Hcur.
  - destruct indig; simpl; auto.
  - cbn [split_runs]. destruct (is_digit c) eqn:Hc; destruct indig.
    + apply IH. rewrite isdigit_rev_cons, Hc.
      apply isdigit_all_digits in Hcur. now rewrite all_digits_rev in Hcur.
    + split; [exact Hcur|]. apply (IH _ true).
      now rewrite isdigit_rev_cons, Hc.
    + split; [exact Hcur|]. apply (IH _ false).
      rewrite has_no_digit_rev. simpl. now rewrite Hc.
    + apply IH. rewrite has_no_digit_rev. simpl. rewrite Hc.
      now rewrite has_no_digit_rev in Hcur.
Qed.

Lemma concat_cons (x : string) (xs : list string) :
  String.concat "" (x :: xs) = (x ++ String.concat "" xs)%string.
Proof.
  destruct xs; simpl; [now rewrite append_nil_r | reflexivity].
Qed.

(** The runs, put end to end, are the text that was split. *)
Lemma split_runs_concat (s cur : string) (indig : bool) :
  String.concat "" (split_runs s cur indig) = (str_rev cur ++ s)%string.
Proof.
  revert cur indig. induction s as [|c s IH]; intros cur indig.
  - destruct indig; simpl; now rewrite ?append_nil_r.
  - cbn [split_runs]. destruct (is_digit c), indig;
      rewrite ?concat_cons, IH, ?str_rev_cons, ?append_assoc; reflexivity.
Qed.

Lemma all_digits_no_space (s : string) : all_digits s = true -> no_space s = true.
Proof.
  induction s as [|c s IH]; simpl; [reflexivity|].
  intros H. apply andb_prop in H. destruct H as [Hc Hs].
  rewrite (IH Hs), andb_true_r.
  destruct c as [[] [] [] [] [] [] [] []]; try discriminate; reflexivity.
Qed.

Lemma digitpart_all_digits (s : string) (acc : Z) :
  all_digits s = true -> exists z, digitpart s acc false = Some z.
Proof.
  revert acc. induction s as [|c s IH]; intros acc H; simpl in *; [eauto|].
  apply andb_prop in H. destruct H as [Hc Hs]. rewrite Hc. now apply IH.
Qed.

(** [int()] reads every non-empty run of digits. *)
Lemma int_isdigit (s : string) : isdigit s = true -> exists n, int s = Ok n.
Proof.
  intros H. unfold int.
  rewrite strip_int_no_space by now apply all_digits_no_space, isdigit_all_digits.
  destruct s as [|c s]; [discriminate|]. simpl in H.
  apply andb_prop in H. destruct H as [Hc Hs].
  destruct (digitpart_all_digits s (digit_val c) Hs) as [z Hz].
  assert (unsigned_literal (String c s) = Some z) as Hlit.
  { simpl. now rewrite Hc. }
  destruct c as [[] [] [] [] [] [] [] []]; try discriminate Hc;
    rewrite Hlit; eauto.
Qed.

End RunFacts.

Lemma convert_runs (l : list string) (d : bool) :
  runs_alternate d l -> exists k, rmap convert l = Ok k /\ alternates d k.
Proof.
  revert d. induction l as [|r l IH]; intros d Hl.
  - exists []. split; [reflexivity | exact I].
  - destruct Hl as [Hr Hl]. destruct (IH _ Hl) as [k [Hk Halt]].
    cbn [rmap]. unfold convert at 1. destruct d.
    + rewrite Hr. destruct (RunFacts.int_isdigit r Hr) as [n ->].
      cbn [rbind]. rewrite Hk. cbn [rbind].
      exists (CInt n :: k). repeat split; assumption.
    + rewrite (RunFacts.has_no_digit_not_isdigit r Hr). cbn [rbind].
      rewrite Hk. cbn [rbind].
      exists (CStr (Py.lower r) :: k). repeat split; assumption.
Qed.

(** Every label has a key; the key begins with text, and text and numbers
    take turns in it. *)
Lemma alphanum_key_total (s : string) :
  exists k, alphanum_key s = Ok k /\ alternates false k.
Proof.
  apply convert_runs. apply RunFacts.split_runs_alternate. reflexivity.
Qed.

(** C8. [natural_sort] returns for every list of labels: the same labels,
    each before every label whose key is not smaller.  The key of a label
    is made of its runs: the label is cut at each maximal run of digits,
    the runs put end to end give the label back, text without a digit and
    runs of digits take turns; a run of digits counts as its integer and
    text as its lower-case form, and keys compare as lists.  So A2 comes
    before A10, which plain text order puts first, and a2 before B1. *)
Theorem natural_sort_orders_by_runs :
  (forall l : list string,
     exists r,
       natural_sort l = Ok r /\ Permutation l r /\
       StronglySorted (key_le alphanum_key key_lt) r) /\
  (forall s : string,
     String.concat "" (Py.re_split_digits s) = s /\
     runs_alternate false (Py.re_split_digits s) /\
     exists k, alphanum_key s = Ok k /\ alternates false k) /\
  (forall r : string,
     (Py.isdigit r = true -> exists n, Py.int r = Ok n /\ convert r = Ok (CInt n)) /\
     (Py.isdigit r = false -> convert r = Ok (CStr (Py.lower r)))) /\
  natural_sort ["A1"; "A2"; "A10"; "B1"] = Ok ["A1"; "A2"; "A10"; "B1"] /\
  natural_sort ["B1"; "A10"; "A2"; "A1"] = Ok ["A1"; "A2"; "A10"; "B1"] /\
  natural_sort ["B1"; "a2"] = Ok ["a2"; "B1"] /\
  alphanum_key "A10" = Ok [CStr "a"; CInt 10; CStr ""] /\
  Py.str_lt "A10" "A2" = true.
Proof.
  repeat split; try reflexivity.
  - intros l. unfold natural_sort.
    apply (sorted_spec alphanum_key key_lt (alternates false)).
    + intros a b. apply key_lt_total.
    + intros a b _ _. apply key_lt_asym.
    + intros a b c. apply key_le_trans.
    + intros a _. apply alphanum_key_total.
  - apply (RunFacts.split_runs_concat s "" false).
  - apply RunFacts.split_runs_alternate. reflexivity.
  - apply alphanum_key_total.
  - intros Hr. destruct (RunFacts.int_isdigit r Hr) as [n Hn].
    exists n. split; [exact Hn|]. unfold convert. now rewrite Hr, Hn.
  - intros Hr. unfold convert. now rewrite Hr.
Qed.

(** ** From JSON to CSV and back *)

Lemma rmap_Forall2 {A B : Type} (f : A -> result B) (l : list A) (l' : list B) :
  rmap f l = Ok l' -> Forall2 (fun a b => f a = Ok b) l l'.
Proof.
  revert l'. induction l as [|a l IH]; intros l' H; simpl in H.
  - injection H as <-. constructor.
  - apply rbind_ok in H. destruct H as [b [Hb H]].
    apply rbind_ok in H. destruct H as [bs [Hbs H]].
    injection H as <-. constructor; auto.
Qed.

Lemma dict_keys_set_new {V : Type} (k : string) (v : V) (d : dict V) :
  ~ In k (dict_keys d) -> dict_keys (dict_set k v d) = dict_keys d ++ [k].
Proof.
  unfold dict_keys. induction d as [|[k0 v0] d IH]; simpl; intros Hnin; [reflexivity|].
  destruct (String.eqb_spec k0 k) as [->|Hk]; [tauto|].
  simpl. rewrite IH; tauto.
Qed.

Lemma filter_written (repr : Q -> string) (rows : list (Z * jvia)) :
  filter (fun r => negb (is_blank r)) (map (writerow repr) rows)
  = map (writerow repr) rows.
Proof.
  induction rows as [|[n v] rows IH]; simpl; [reflexivity | now rewrite IH].
Qed.

Section RoundTrip.
Variable float_of_str : string -> result Q.
Variable repr : Q -> string.


(** The loader on one written row. *)
Lemma restore_written_row (n : Z) (v : jvia) (d : dict via) :
  survives float_of_str repr v ->
  exists v',
    restoreCSV_row float_of_str (row_dict header (writerow repr (n, v))) d
    = Ok (dict_set (Py.str n) v' d)
    /\ via_eq v' (via_of_jvia v).
Proof.
  intros [[x [Hx Ex]] [[y [Hy Ey]] [[i [Hi Ei]] [o [Ho Eo]]]]].
  exists {| X := x; Y := y; ID := i; OD := o |}. split.
  - rewrite restoreCSV_row_split.
    assert (row_index (row_dict header (writerow repr (n, v))) = Py.int (Py.str n))
      as -> by reflexivity.
    rewrite PyFacts.int_str. cbn [rbind].
    assert (row_via float_of_str (row_dict header (writerow repr (n, v)))
            = (x <- float_of_str (str_of_jnum repr (jX v)) ;;
               y <- float_of_str (str_of_jnum repr (jY v)) ;;
               i <- float_of_str (str_of_jnum repr (jID v)) ;;
               o <- float_of_str (str_of_jnum repr (jOD v)) ;;
               Ok {| X := x; Y := y; ID := i; OD := o |})) as -> by reflexivity.
    rewrite Hx, Hy, Hi, Ho. reflexivity.
  - repeat split; assumption.
Qed.

Lemma restore_written (rows : list (Z * jvia)) (d0 : dict via) :
  (forall r, In r rows -> survives float_of_str repr (snd r)) ->
  NoDup (map key_of rows) ->
  (forall r, In r rows -> ~ In (key_of r) (dict_keys d0)) ->
  exists d,
    restoreCSV_loop float_of_str
      (map (row_dict header) (map (writerow repr) rows)) d0 = Ok d /\
    dict_keys d = dict_keys d0 ++ map key_of rows /\
    (forall k, ~ In k (map key_of rows) -> dict_get k d = dict_get k d0) /\
    (forall r, In r rows ->
       exists v', dict_get (key_of r) d = Some v' /\ via_eq v' (via_of_jvia (snd r))).
Proof.
  revert d0. induction rows as [|[n v] rows IH]; intros d0 Hsurv Hnd Hfresh.
  - exists d0. repeat split; auto.
    + simpl. now rewrite app_nil_r.
    + intros r [].
  - cbn [map] in Hnd. inversion Hnd as [|? ? Hnin Hnd']; subst.
    destruct (restore_written_row n v d0) as [v' [Hrow Hv']].
    { apply (Hsurv (n, v)). now left. }
    destruct (IH (dict_set (Py.str n) v' d0)) as [d [Hd [Hkeys [Hother Hrows]]]].
    + intros r Hr. apply Hsurv. now right.
    + exact Hnd'.
    + intros r Hr Hin. apply dict_keys_set in Hin. destruct Hin as [Heq|Hin].
      * apply Hnin. assert (key_of r = key_of (n, v)) as Hk by exact Heq.
        rewrite <- Hk. now apply in_map.
      * apply (Hfresh r); [now right | exact Hin].
    + exists d. cbn [map restoreCSV_loop]. rewrite Hrow. cbn [rbind].
      split; [exact Hd|]. split; [|split].
      * rewrite Hkeys, dict_keys_set_new, <- app_assoc; [reflexivity|].
        apply (Hfresh (n, v)). now left.
      * intros k Hk. rewrite Hother by (intros Hin; apply Hk; now right).
        apply dict_get_set_other. intros ->. apply Hk. now left.
      * intros r [<-|Hr]; [|now apply Hrows].
        exists v'. split; [|exact Hv'].
        rewrite (Hother (key_of (n, v)) Hnin). apply dict_get_set_same.
Qed.

(** C6. A JSON table whose keys are distinct and are each the decimal text
    of their integer, and whose numbers each survive the file (what [str]
    or [repr] prints for it, [float()] reads as the same float): the
    converter writes a CSV file, the loader reads that file, and the mapping
    read has the keys of the table, each once, and under each key the
    floats of the record of the table. *)
Theorem json_csv_round_trip (jd : dict jvia) :
  NoDup (dict_keys jd) ->
  (forall k, In k (dict_keys jd) -> exists n, Py.int k = Ok n /\ k = Py.str n) ->
  (forall k v, In (k, v) jd -> survives float_of_str repr v) ->
  exists (csv : csv_rows) (d : dict via),
    convertJSONtoCSV repr jd = Ok csv /\
    restoreCSV float_of_str csv = Ok d /\
    Permutation (dict_keys jd) (dict_keys d) /\
    NoDup (dict_keys d) /\
    StronglySorted index_lt (dict_keys d) /\
    forall k v,
      dict_get k jd = Some v ->
      exists v', dict_get k d = Some v' /\ via_eq v' (via_of_jvia v).
Proof.
  intros Hnd Hcanon Hsurv.
  destruct (sorted_by_int_spec (dict_keys jd)) as [ks [Hks [Hperm Hsorted]]].
  { intros k Hk. destruct (Hcanon k Hk) as [n [Hn _]]. eauto. }
  assert (Hin : forall k, In k ks -> In k (dict_keys jd)).
  { intros k Hk. apply (Permutation_in _ (Permutation_sym Hperm) Hk). }
  destruct (rmap_ok_all (fun k => v <- getitem k jd ;; n <- Py.int k ;; Ok (n, v)) ks)
    as [rows [Hrows _]].
  { intros k Hk. destruct (Hcanon k (Hin k Hk)) as [n [Hn _]].
    destruct (dict_get_in _ _ (Hin k Hk)) as [v Hv].
    exists (n, v). unfold getitem. rewrite Hv. cbn [rbind]. now rewrite Hn. }
  assert (Hpairs : Forall2 (fun k r => k = key_of r /\ dict_get k jd = Some (snd r))
                     ks rows).
  { apply rmap_Forall2 in Hrows. clear Hks Hperm Hsorted.
    induction Hrows as [|k r ks' rows' Hkr _ IH]; constructor.
    - apply rbind_ok in Hkr. destruct Hkr as [v [Hv Hkr]].
      apply rbind_ok in Hkr. destruct Hkr as [n [Hn Hkr]]. injection Hkr as <-.
      unfold getitem in Hv. destruct (dict_get k jd) as [v0|]; [|discriminate].
      injection Hv as ->.
      destruct (Hcanon k) as [n' [Hn' Hstr]]; [apply Hin; now left|].
      split; [|reflexivity]. unfold key_of. cbn [fst]. congruence.
    - apply IH. intros k' Hk'. apply Hin. now right. }
  assert (Hkeys : map key_of rows = ks).
  { clear -Hpairs. induction Hpairs as [|k r ks' rows' [Hk _] _ IH]; simpl; congruence. }
  assert (Hrow_in : forall r, In r rows -> dict_get (key_of r) jd = Some (snd r)).
  { clear -Hpairs. induction Hpairs as [|k r ks' rows' [Hk Hv] _ IH]; intros r0 [].
    - subst. exact Hv.
    - now apply IH. }
  assert (Hmem : forall k v, dict_get k jd = Some v -> In (k, v) jd).
  { clear. induction jd as [|[k0 v0] jd' IH]; simpl; intros k v H; [discriminate|].
    destruct (String.eqb_spec k0 k) as [->|Hne].
    - injection H as ->. now left.
    - right. now apply IH. }
  destruct (restore_written rows []) as [d [Hd [Hdk [_ Hget]]]].
  - intros r Hr. apply (Hsurv (key_of r)). apply Hmem. now apply Hrow_in.
  - rewrite Hkeys. apply (Permutation_NoDup Hperm Hnd).
  - intros r _ [].
  - simpl in Hdk. rewrite Hkeys in Hdk.
    exists (["index"; "X"; "Y"; "ID"; "OD"] :: map (writerow repr) rows), d.
    split; [|split; [|split; [|split; [|split]]]].
    + unfold convertJSONtoCSV, json_rows. rewrite Hks. cbn [rbind].
      rewrite Hrows. reflexivity.
    + unfold restoreCSV. cbn [DictReader]. rewrite filter_written. exact Hd.
    + now rewrite Hdk.
    + rewrite Hdk. apply (Permutation_NoDup Hperm Hnd).
    + rewrite Hdk. apply strongly_sorted_strict.
      * apply (Permutation_NoDup Hperm Hnd).
      * intros k Hk. destruct (Hcanon k (Hin k Hk)) as [n [_ Hn]]. eauto.
      * exact Hsorted.
    + intros k v Hv.
      assert (In k ks) as Hk.
      { apply (Permutation_in _ Hperm). apply (dict_get_some_in _ _ _ Hv). }
      rewrite <- Hkeys in Hk. apply in_map_iff in Hk. destruct Hk as [r [<- Hr]].
      destruct (Hget r Hr) as [v' [Hv' He]]. exists v'. split; [exact Hv'|].
      rewrite (Hrow_in r Hr) in Hv. now injection Hv as <-.
Qed.
End RoundTrip.

Lemma json_csv_round_trip_witness :
  exists (csv : csv_rows) (d : dict via),
    convertJSONtoCSV repr_one_decimal json_descending = Ok csv /\
    restoreCSV decimal_float csv = Ok d /\
    Permutation (dict_keys json_descending) (dict_keys d).
Proof.
  destruct (json_csv_round_trip decimal_float repr_one_decimal json_descending)
    as [csv [d [Hconv [Hload [Hperm _]]]]].
  - repeat constructor; simpl; intuition discriminate.
  - intros k [<-|[<-|[]]]; [exists 1%Z | exists 0%Z]; split; reflexivity.
  - intros k v [[= <- <-]|[[= <- <-]|[]]];
      repeat split; eexists; (split; [reflexivity | reflexivity]).
  - exists csv, d. auto.
Defined.

(** * Further properties of the code *)

(** ** The placement loop on any input *)






(** X2. A file without records (empty, a header alone, blank lines after
    the header) places nothing and raises nothing, whatever its header. *)
Theorem funnelFromCSV_without_records
    (float_of_str : string -> result Q) (csvFile : csv_rows)
    (xStep yStep : Q) (numCols : Z) (board : BOARD) :
  DictReader csvFile = [] ->
  restoreCSV float_of_str csvFile = Ok [] /\
  funnelFromCSV float_of_str csvFile xStep yStep numCols board = (board, None).
Proof.
  intros H. unfold funnelFromCSV, restoreCSV. rewrite H. split; reflexivity.
Qed.

Lemma funnelFromCSV_without_records_witness :
  funnelFromCSV decimal_float [["index"; "X"]; []; []] 1 1 0 three_footprints
  = (three_footprints, None).
Proof.
  apply (funnelFromCSV_without_records decimal_float [["index"; "X"]; []; []]).
  reflexivity.
Defined.



Lemma divides_opp (n i : Z) : divides (- n) i = divides n i.
Proof.
  unfold divides. destruct (Z.eqb_spec n 0) as [->|Hn]; [reflexivity|].
  destruct (Z.eqb_spec (- n) 0); [lia|]. f_equal.
  destruct (Z.eqb_spec (i mod n) 0) as [Hz|Hnz].
  - apply Z.eqb_eq. now apply Z.mod_opp_r_z.
  - apply Z.eqb_neq. rewrite Z.mod_opp_r_nz by assumption.
    pose proof (Z.mod_bound_or i n Hn). lia.
Qed.

Lemma for_each_ext {K S : Type} (f g : Z -> K -> S -> S * option exn)
    (l : list K) (i : Z) (st : S) :
  (forall i k st, f i k st = g i k st) -> for_each f i l st = for_each g i l st.
Proof.
  intros H. revert i st. induction l as [|k l IH]; intros i st; [reflexivity|].
  cbn [for_each]. rewrite H. destruct (g i k st) as [st' [e|]]; auto.
Qed.

Lemma funnel_loop_opp (lookup : string -> result via) (xStep yStep : Q)
    (numCols : Z) (keys : list string) (board : BOARD) :
  funnel_loop lookup xStep yStep (- numCols) keys board
  = funnel_loop lookup xStep yStep numCols keys board.
Proof.
  unfold funnel_loop.
  rewrite (for_each_ext _
             (fun i k st => atomic (funnel_body lookup xStep yStep numCols i k st) st));
    [reflexivity|].
  intros i k st. unfold funnel_body. now rewrite divides_opp.
Qed.

(** X4. The sign of the number of columns does not matter: [i % numCols]
    is zero for [-numCols] exactly when it is for [numCols], so the two
    placement functions and [distributeXY] do with [-numCols] what they do
    with [numCols]. *)
Theorem negative_columns_as_positive
    (float_of_str : string -> result Q) (csvFile : csv_rows) (jsonFile : dict jvia)
    (xStep yStep : Q) (numCols : Z) (board : BOARD) :
  funnelFromCSV float_of_str csvFile xStep yStep (- numCols) board
  = funnelFromCSV float_of_str csvFile xStep yStep numCols board /\
  funnelFromJson jsonFile xStep yStep (- numCols) board
  = funnelFromJson jsonFile xStep yStep numCols board /\
  distributeXY xStep yStep (- numCols) board
  = distributeXY xStep yStep numCols board.
Proof.
  repeat split.
  - unfold funnelFromCSV. destruct (restoreCSV float_of_str csvFile); [|reflexivity].
    destruct (sorted_by_int _); [|reflexivity]. apply funnel_loop_opp.
  - unfold funnelFromJson. apply funnel_loop_opp.
  - unfold distributeXY. destruct (natural_sort _); [|reflexivity].
    destruct (sorted _ _ _); [|reflexivity].
    rewrite (for_each_ext _ (distributeXY_body xStep yStep numCols)); [reflexivity|].
    intros i fp st. unfold distributeXY_body. now rewrite divides_opp.
Qed.

Lemma int_raises_ValueError (s : string) (e : exn) :
  Py.int s = Raise e -> e = ValueError.
Proof.
  unfold Py.int.
  destruct (match Py.strip_int s with
            | String "-" s' => option_map Z.opp (Py.unsigned_literal s')
            | String "+" s' => Py.unsigned_literal s'
            | s' => Py.unsigned_literal s'
            end); congruence.
Qed.

(** ** The loader, record by record *)

Lemma rbind_assoc {A B C : Type} (r : result A) (f : A -> result B)
    (g : B -> result C) :
  (b <- (a <- r ;; f a) ;; g b) = (a <- r ;; b <- f a ;; g b).
Proof.
  destruct r; reflexivity.
Qed.

Section LoadErrors.
Variable float_of_str : string -> result Q.

Lemma row_index_error (row : dict cell) :
  match cell_error float_of_str "index" row with
  | Some e => row_index row = Raise e
  | None => exists n, row_index row = Ok n
  end.
Proof.
  unfold cell_error, row_index, getitem.
  destruct (dict_get "index" row) as [[s|]|]; cbn; try reflexivity.
  destruct (Py.int s); eauto.
Qed.

Lemma float_read_error (c : string) (row : dict cell) :
  String.eqb c "index" = false ->
  match cell_error float_of_str c row with
  | Some e => (cc <- getitem c row ;; float_cell float_of_str cc) = Raise e
  | None => exists q, (cc <- getitem c row ;; float_cell float_of_str cc) = Ok q
  end.
Proof.
  intros Hc. unfold cell_error, getitem. rewrite Hc.
  destruct (dict_get c row) as [[s|]|]; cbn; try reflexivity.
  destruct (float_of_str s); eauto.
Qed.

Lemma row_via_alt (row : dict cell) :
  row_via float_of_str row
  = (x <- (cc <- getitem "X" row ;; float_cell float_of_str cc) ;;
     y <- (cc <- getitem "Y" row ;; float_cell float_of_str cc) ;;
     id <- (cc <- getitem "ID" row ;; float_cell float_of_str cc) ;;
     od <- (cc <- getitem "OD" row ;; float_cell float_of_str cc) ;;
     Ok {| X := x; Y := y; ID := id; OD := od |}).
Proof.
  unfold row_via.
  destruct (getitem "X" row) as [cx|]; cbn [rbind]; [|reflexivity].
  destruct (float_cell float_of_str cx); cbn [rbind]; [|reflexivity].
  destruct (getitem "Y" row) as [cy|]; cbn [rbind]; [|reflexivity].
  destruct (float_cell float_of_str cy); cbn [rbind]; [|reflexivity].
  destruct (getitem "ID" row) as [ci|]; cbn [rbind]; [|reflexivity].
  destruct (float_cell float_of_str ci); cbn [rbind]; [|reflexivity].
  destruct (getitem "OD" row) as [co|]; cbn [rbind]; reflexivity.
Qed.

(** One record: it is stored, or the first unreadable column decides the
    exception. *)
Lemma restoreCSV_row_error (row : dict cell) (d : dict via) :
  match first_error float_of_str header row with
  | Some e => restoreCSV_row float_of_str row d = Raise e
  | None => exists d', restoreCSV_row float_of_str row d = Ok d'
  end.
Proof.
  rewrite restoreCSV_row_split, row_via_alt. unfold header. cbn [first_error].
  pose proof (row_index_error row) as Hi.
  destruct (cell_error float_of_str "index" row) as [e|]; [now rewrite Hi|].
  destruct Hi as [n ->]. cbn [rbind].
  pose proof (float_read_error "X" row eq_refl) as Hx.
  destruct (cell_error float_of_str "X" row) as [e|]; [now rewrite Hx|].
  destruct Hx as [x ->]. cbn [rbind].
  pose proof (float_read_error "Y" row eq_refl) as Hy.
  destruct (cell_error float_of_str "Y" row) as [e|]; [now rewrite Hy|].
  destruct Hy as [y ->]. cbn [rbind].
  pose proof (float_read_error "ID" row eq_refl) as Hid.
  destruct (cell_error float_of_str "ID" row) as [e|]; [now rewrite Hid|].
  destruct Hid as [id ->]. cbn [rbind].
  pose proof (float_read_error "OD" row eq_refl) as Hod.
  destruct (cell_error float_of_str "OD" row) as [e|]; [now rewrite Hod|].
  destruct Hod as [od ->]. cbn [rbind]. eauto.
Qed.

Lemma restoreCSV_loop_error (rows : list (dict cell)) (d : dict via) :
  match load_error float_of_str rows with
  | Some e => restoreCSV_loop float_of_str rows d = Raise e
  | None => exists d', restoreCSV_loop float_of_str rows d = Ok d'
  end.
Proof.
  revert d. induction rows as [|row rows IH]; intros d; cbn [load_error restoreCSV_loop].
  - eauto.
  - pose proof (restoreCSV_row_error row d) as Hrow.
    destruct (first_error float_of_str header row) as [e|].
    + now rewrite Hrow.
    + destruct Hrow as [d' ->]. cbn [rbind]. apply IH.
Qed.

Lemma cell_error_unreadable (c : string) (row : dict cell) :
  (exists e, cell_error float_of_str c row = Some e) <-> unreadable float_of_str c row.
Proof.
  unfold cell_error, unreadable.
  destruct (dict_get c row) as [[s|]|]; [|split; eauto..].
  destruct (String.eqb c "index").
  - destruct (Py.int s) as [n|e]; split.
    + intros [e He]; discriminate.
    + intros [e He]; discriminate.
    + eauto.
    + eauto.
  - destruct (float_of_str s) as [q|e]; split.
    + intros [e He]; discriminate.
    + intros [e He]; discriminate.
    + eauto.
    + eauto.
Qed.

Lemma first_error_unreadable (columns : list string) (row : dict cell) :
  (exists e, first_error float_of_str columns row = Some e) <->
  exists c, In c columns /\ unreadable float_of_str c row.
Proof.
  induction columns as [|c columns IH]; cbn [first_error].
  - split; [intros [e He]; discriminate | intros [c [[] _]]].
  - destruct (cell_error float_of_str c row) as [e|] eqn:Hc.
    + split; [|eauto]. intros _. exists c. split; [now left|].
      apply cell_error_unreadable. eauto.
    + rewrite IH. split.
      * intros [c' [Hin Hu]]. exists c'. split; [now right | exact Hu].
      * intros [c' [[<-|Hin] Hu]]; [|eauto].
        apply cell_error_unreadable in Hu. destruct Hu as [e He]. congruence.
Qed.

Lemma load_error_unreadable (rows : list (dict cell)) :
  (exists e, load_error float_of_str rows = Some e) <->
  exists row c, In row rows /\ In c header /\ unreadable float_of_str c row.
Proof.
  induction rows as [|row rows IH]; cbn [load_error].
  - split; [intros [e He]; discriminate | intros [r [c [[] _]]]].
  - destruct (first_error float_of_str header row) as [e|] eqn:Hrow.
    + split; [|eauto]. intros _.
      destruct (proj1 (first_error_unreadable header row)) as [c [Hc Hu]]; [eauto|].
      exists row, c. repeat split; auto. now left.
    + rewrite IH. split.
      * intros [r [c [Hr Hcu]]]. exists r, c. split; [now right | exact Hcu].
      * intros [r [c [[<-|Hr] [Hc Hu]]]]; [|eauto].
        destruct (proj2 (first_error_unreadable header row)) as [e He]; [eauto|].
        congruence.
Qed.
End LoadErrors.

(** X5. [restoreCSV] raises exactly when some record cannot be read in one
    of the columns [index], [X], [Y], [ID], [OD]: the column is missing, the
    record is too short, or [int()], for the index, or [float()] rejects
    what stands there.  Nothing else makes it fail: columns it does not
    use, their order, blank records and repeated indices do not. *)
Theorem restoreCSV_raises_iff_unreadable
    (float_of_str : string -> result Q) (f : csv_rows) :
  (exists e, restoreCSV float_of_str f = Raise e) <->
  (exists row c, In row (DictReader f) /\ In c header /\ unreadable float_of_str c row).
Proof.
  rewrite <- load_error_unreadable. unfold restoreCSV.
  pose proof (restoreCSV_loop_error float_of_str (DictReader f) []) as H.
  destruct (load_error float_of_str (DictReader f)) as [e|].
  - split; eauto.
  - destruct H as [d Hd]. rewrite Hd. split; intros [e He]; discriminate.
Qed.

(** X6. Which exception: [restoreCSV] reads the records in the order of
    the file and, in each, the columns in the order [index], [X], [Y], [ID],
    [OD]; the first cell it cannot read decides: [KeyError] when the row has
    no such column, [TypeError] when the record is too short to reach it,
    and otherwise what [int()] raises on the index, always [ValueError], or
    what [float()] raises.  When there is no such cell it returns a
    mapping. *)
Theorem restoreCSV_first_error
    (float_of_str : string -> result Q) (f : csv_rows) :
  match load_error float_of_str (DictReader f) with
  | Some e => restoreCSV float_of_str f = Raise e
  | None => exists d, restoreCSV float_of_str f = Ok d
  end /\
  (forall c row,
     (dict_get c row = None -> cell_error float_of_str c row = Some KeyError) /\
     (dict_get c row = Some None -> cell_error float_of_str c row = Some TypeError) /\
     (forall e, cell_error float_of_str "index" row = Some e ->
                e = KeyError \/ e = TypeError \/ e = ValueError)).
Proof.
  repeat split.
  - apply (restoreCSV_loop_error float_of_str (DictReader f) []).
  - intros H. unfold cell_error. now rewrite H.
  - intros H. unfold cell_error. now rewrite H.
  - unfold cell_error. destruct (dict_get "index" row) as [[s|]|].
    + cbn. destruct (Py.int s) as [n|e'] eqn:Hs; intros e [= <-].
      right. right. apply (int_raises_ValueError _ _ Hs).
    + intros e [= <-]. auto.
    + intros e [= <-]. auto.
Qed.

Lemma dict_set_length {V : Type} (k : string) (v : V) (d : dict V) :
  (List.length (dict_set k v d) <= S (List.length d))%nat.
Proof.
  induction d as [|[k0 v0] d IH]; simpl; [lia|].
  destruct (String.eqb k0 k); simpl; lia.
Qed.

Lemma restoreCSV_loop_indices (float_of_str : string -> result Q)
    (rows : list (dict cell)) (d0 d : dict via) :
  restoreCSV_loop float_of_str rows d0 = Ok d ->
  exists ns,
    Forall2 (fun row n => row_index row = Ok n) rows ns /\
    (List.length d <= List.length d0 + List.length ns)%nat /\
    (NoDup ns -> (forall n, In n ns -> ~ In (Py.str n) (dict_keys d0)) ->
     dict_keys d = dict_keys d0 ++ map Py.str ns).
Proof.
  revert d0. induction rows as [|row rows IH]; intros d0 H; simpl in H.
  - injection H as <-. exists []. repeat split.
    + constructor.
    + simpl. lia.
    + intros _ _. simpl. now rewrite app_nil_r.
  - apply rbind_ok in H. destruct H as [d' [Hrow H]].
    apply restoreCSV_row_ok in Hrow. destruct Hrow as [n [v [Hn [_ ->]]]].
    destruct (IH _ H) as [ns [Hall [Hlen Hkeys]]].
    exists (n :: ns). repeat split.
    + now constructor.
    + pose proof (dict_set_length (Py.str n) v d0). simpl. lia.
    + intros Hnd Hfresh. inversion Hnd as [|? ? Hnin Hnd']; subst.
      rewrite Hkeys.
      * rewrite dict_keys_set_new by (apply Hfresh; now left).
        rewrite <- app_assoc. reflexivity.
      * exact Hnd'.
      * intros n' Hn' Hin. apply dict_keys_set in Hin. destruct Hin as [Heq|Hin].
        -- apply PyFacts.str_inj in Heq. subst. contradiction.
        -- apply (Hfresh n'); [now right | exact Hin].
Qed.

(** X7. The mapping that [restoreCSV] returns never has more records than
    the file, and when the indices of the records are pairwise different
    integers it has them all: its keys are the indices of the records as
    decimal text, in the order of the file. *)
Theorem restoreCSV_keeps_distinct_records
    (float_of_str : string -> result Q) (f : csv_rows) (d : dict via) :
  restoreCSV float_of_str f = Ok d ->
  exists ns,
    Forall2 (fun row n => row_index row = Ok n) (DictReader f) ns /\
    (List.length d <= List.length (DictReader f))%nat /\
    (NoDup ns ->
     dict_keys d = map Py.str ns /\ List.length d = List.length (DictReader f)).
Proof.
  intros H. destruct (restoreCSV_loop_indices _ _ _ _ H) as [ns [Hall [Hlen Hkeys]]].
  exists ns. pose proof (Forall2_length Hall) as Hl.
  split; [exact Hall|]. split; [simpl in Hlen; lia|].
  intros Hnd.
  assert (Hk : dict_keys d = map Py.str ns) by (apply Hkeys; auto).
  split; [exact Hk|].
  apply (f_equal (@List.length string)) in Hk.
  unfold dict_keys in Hk. rewrite !length_map in Hk. lia.
Qed.

Lemma restoreCSV_keeps_distinct_records_witness :
  exists d,
    restoreCSV decimal_float csv_three_vias = Ok d /\
    dict_keys d = ["5"; "2"; "9"].
Proof.
  eexists. split; [reflexivity|].
  destruct (restoreCSV_keeps_distinct_records decimal_float csv_three_vias _ eq_refl)
    as [ns [Hall [_ Hkeys]]].
  assert (ns = [5; 2; 9]%Z) as ->.
  { inversion Hall as [|? n1 ? ns1 H1 Hall1]; subst.
    inversion Hall1 as [|? n2 ? ns2 H2 Hall2]; subst.
    inversion Hall2 as [|? n3 ? ns3 H3 Hall3]; subst.
    inversion Hall3; subst.
    cbv in H1, H2, H3. congruence. }
  apply Hkeys. repeat constructor; simpl; intuition discriminate.
Defined.

(** ** The converter *)

Lemma rmap_raise {A B : Type} (f : A -> result B) (l : list A) (e : exn) :
  (forall a e', f a = Raise e' -> e' = e) ->
  (exists a e', In a l /\ f a = Raise e') ->
  rmap f l = Raise e.
Proof.
  intros Honly. induction l as [|a l IH]; intros [b [e' [Hin Hb]]]; [destruct Hin|].
  cbn [rmap]. destruct (f a) as [x|e0] eqn:Ha; cbn [rbind].
  - destruct Hin as [->|Hin]; [congruence|].
    rewrite IH; [reflexivity | eauto].
  - now rewrite (Honly a e0 Ha).
Qed.

Lemma Forall2_in_right {A B : Type} (R : A -> B -> Prop) (l : list A) (l' : list B)
    (b : B) :
  Forall2 R l l' -> In b l' -> exists a, In a l /\ R a b.
Proof.
  induction 1 as [|a0 b0 l l' Hab _ IH]; intros Hin; [destruct Hin|].
  destruct Hin as [<-|Hin].
  - exists a0. split; [now left | exact Hab].
  - destruct (IH Hin) as [a [Ha HR]]. exists a. split; [now right | exact HR].
Qed.

Lemma strongly_sorted_rows (jd : dict jvia) (ks : list string) (rows : list (Z * jvia)) :
  Forall2 (fun k r => Py.int k = Ok (fst r) /\ dict_get k jd = Some (snd r)) ks rows ->
  StronglySorted (key_le Py.int int_lt) ks ->
  StronglySorted (fun a b => (fst a <= fst b)%Z) rows.
Proof.
  induction 1 as [|k r ks rows [Hk _] Hall IH]; intros Hs; [constructor|].
  inversion Hs as [|? ? Hs' Hle]; subst. constructor; [auto|].
  rewrite Forall_forall in *. intros r' Hr'.
  destruct (Forall2_in_right _ _ _ _ Hall Hr') as [k' [Hk' [Hi' _]]].
  destruct (Hle k' Hk') as [na [nb [Ha [Hb Hlt]]]].
  unfold int_lt in Hlt. injection Hlt as Hlt. apply Z.ltb_ge in Hlt. congruence.
Qed.

(** X9. When every key of the JSON table reads as an integer, the
    converter writes the header and one row of five cells for each record
    of the table, in ascending order of the integers of the keys; a row
    holds the integer of its key as decimal text, whatever the text of the
    key was, and the numbers of the record under that key. *)
Theorem convertJSONtoCSV_writes_sorted_rows (repr : Q -> string) (jd : dict jvia) :
  (forall k, In k (dict_keys jd) -> exists n, Py.int k = Ok n) ->
  exists rows,
    json_rows jd = Ok rows /\
    convertJSONtoCSV repr jd
    = Ok (["index"; "X"; "Y"; "ID"; "OD"] :: map (writerow repr) rows) /\
    List.length rows = List.length jd /\
    StronglySorted (fun a b => (fst a <= fst b)%Z) rows /\
    (forall r, In r rows ->
       (exists k, In k (dict_keys jd) /\ Py.int k = Ok (fst r)
                  /\ dict_get k jd = Some (snd r)) /\
       writerow repr r
       = [Py.str (fst r); str_of_jnum repr (jX (snd r)); str_of_jnum repr (jY (snd r));
          str_of_jnum repr (jID (snd r)); str_of_jnum repr (jOD (snd r))]).
Proof.
  intros Hint.
  destruct (sorted_by_int_spec (dict_keys jd) Hint) as [ks [Hks [Hperm Hsorted]]].
  assert (Hin : forall k, In k ks -> In k (dict_keys jd)).
  { intros k Hk. apply (Permutation_in _ (Permutation_sym Hperm) Hk). }
  destruct (rmap_ok_all (fun k => v <- getitem k jd ;; n <- Py.int k ;; Ok (n, v)) ks)
    as [rows [Hrows Hlen]].
  { intros k Hk. destruct (Hint k (Hin k Hk)) as [n Hn].
    destruct (dict_get_in _ _ (Hin k Hk)) as [v Hv].
    exists (n, v). unfold getitem. rewrite Hv. cbn [rbind]. now rewrite Hn. }
  assert (Hpairs : Forall2 (fun k r => Py.int k = Ok (fst r)
                                       /\ dict_get k jd = Some (snd r)) ks rows).
  { apply rmap_Forall2 in Hrows. clear -Hrows.
    induction Hrows as [|k r ks' rows' Hkr _ IH]; constructor; [|exact IH].
    apply rbind_ok in Hkr. destruct Hkr as [v [Hv Hkr]].
    apply rbind_ok in Hkr. destruct Hkr as [n [Hn Hkr]]. injection Hkr as <-.
    unfold getitem in Hv. destruct (dict_get k jd) as [v0|]; [|discriminate].
    injection Hv as ->. auto. }
  exists rows. split; [|split; [|split; [|split]]].
  - unfold json_rows. rewrite Hks. exact Hrows.
  - unfold convertJSONtoCSV, json_rows. rewrite Hks. cbn [rbind]. now rewrite Hrows.
  - rewrite Hlen, <- (Permutation_length Hperm). unfold dict_keys. apply length_map.
  - apply (strongly_sorted_rows jd ks rows Hpairs Hsorted).
  - intros r Hr. split.
    + destruct (Forall2_in_right _ _ _ _ Hpairs Hr) as [k [Hk [Hi Hv]]].
      exists k. auto.
    + destruct r as [n v]. reflexivity.
Qed.

Lemma convertJSONtoCSV_writes_sorted_rows_witness :
  convertJSONtoCSV repr_one_decimal json_seven_twice
  = Ok [["index"; "X"; "Y"; "ID"; "OD"];
        ["7"; "10"; "0"; "1.0"; "2.0"]; ["7"; "0"; "0"; "1.0"; "2.0"]]
  /\ exists rows, json_rows json_seven_twice = Ok rows /\ List.length rows = 2%nat.
Proof.
  split; [reflexivity|].
  destruct (convertJSONtoCSV_writes_sorted_rows repr_one_decimal json_seven_twice)
    as [rows [Hrows [_ [Hlen _]]]].
  - intros k [<-|[<-|[]]]; exists 7%Z; reflexivity.
  - exists rows. split; [exact Hrows | exact Hlen].
Defined.

(** X10. A key of the JSON table that [int()] rejects makes the converter
    raise [ValueError], from [sorted(jd.keys(), key=int)], before any row
    is built. *)
Theorem convertJSONtoCSV_rejects_bad_key (repr : Q -> string) (jd : dict jvia) :
  (exists k e, In k (dict_keys jd) /\ Py.int k = Raise e) ->
  sorted_by_int (dict_keys jd) = Raise ValueError /\
  convertJSONtoCSV repr jd = Raise ValueError.
Proof.
  intros [k [e [Hk He]]].
  assert (sorted_by_int (dict_keys jd) = Raise ValueError) as Hs.
  { unfold sorted_by_int, sorted.
    rewrite (rmap_raise (decorate Py.int) (dict_keys jd) ValueError); [reflexivity| |].
    - intros a e'. unfold decorate. destruct (Py.int a) eqn:Ha; [discriminate|].
      cbn. intros [= <-]. apply (int_raises_ValueError _ _ Ha).
    - exists k, e. split; [exact Hk|]. unfold decorate. now rewrite He. }
  split; [exact Hs|]. unfold convertJSONtoCSV, json_rows. now rewrite Hs.
Qed.

Lemma convertJSONtoCSV_rejects_bad_key_witness :
  convertJSONtoCSV repr_one_decimal json_bad_key = Raise ValueError.
Proof.
  apply (convertJSONtoCSV_rejects_bad_key repr_one_decimal json_bad_key).
  exists "a", ValueError. split; [simpl; auto | reflexivity].
Defined.

(** ** Sorting what is sorted *)

Lemma isort_sorted_fixed {A K : Type} (lt : K -> K -> result bool)
    (l : list (K * A)) :
  StronglySorted (decorated_le lt) l -> isort lt l = Ok l.
Proof.
  induction 1 as [|x l Hs IH Hall]; [reflexivity|].
  cbn [isort]. rewrite IH. cbn [rbind]. destruct l as [|y l]; [reflexivity|].
  cbn [insert]. inversion Hall as [|? ? Hxy _]; subst.
  unfold decorated_le in Hxy. now rewrite Hxy.
Qed.

Lemma strongly_sorted_decorated {A K : Type} (key : A -> result K)
    (lt : K -> K -> result bool) (ks : list (K * A)) :
  Forall (decorated_ok key (fun _ => True)) ks ->
  StronglySorted (key_le key lt) (map snd ks) ->
  StronglySorted (decorated_le lt) ks.
Proof.
  induction ks as [|x ks IH]; intros Hok Hs; [constructor|].
  inversion Hok as [|? ? [_ Hx] Hok']; subst.
  cbn [map] in Hs. inversion Hs as [|? ? Hs' Hall]; subst.
  constructor; [auto|].
  rewrite Forall_forall in *. intros y Hy.
  destruct (Hall (snd y) (in_map snd _ _ Hy)) as [ka [kb [Ha [Hb Hlt]]]].
  destruct (Hok' y Hy) as [_ Hyk]. unfold decorated_le. congruence.
Qed.

(** A list already in the order of its keys is returned as it is. *)
Lemma sorted_fixed {A K : Type} (key : A -> result K) (lt : K -> K -> result bool)
    (l : list A) :
  (forall a, In a l -> exists k, key a = Ok k) ->
  StronglySorted (key_le key lt) l -> sorted key lt l = Ok l.
Proof.
  intros Hkey Hs. unfold sorted.
  destruct (decorate_all key (fun _ => True) l) as [ks [Hks [Hm Hok]]].
  { intros a Ha. destruct (Hkey a Ha) as [k Hk]. eauto. }
  rewrite Hks. cbn [rbind].
  rewrite (isort_sorted_fixed lt ks).
  - cbn [rbind]. now rewrite Hm.
  - apply (strongly_sorted_decorated key); [exact Hok | now rewrite Hm].
Qed.

(** X11. [natural_sort] returns its argument unchanged exactly when the
    argument is already in natural order, labels with equal keys (such as
    A1 and a01) in any order; so sorting a second time changes nothing. *)
Theorem natural_sort_fixed_point (l : list string) :
  (natural_sort l = Ok l <-> StronglySorted (key_le alphanum_key key_lt) l) /\
  (exists r, natural_sort l = Ok r /\ natural_sort r = Ok r) /\
  (forall a b, alphanum_key a = alphanum_key b -> natural_sort [a; b] = Ok [a; b]).
Proof.
  assert (Hspec : forall l, exists r,
             natural_sort l = Ok r /\ Permutation l r /\
             StronglySorted (key_le alphanum_key key_lt) r).
  { intros l0. unfold natural_sort.
    apply (sorted_spec alphanum_key key_lt (alternates false)).
    - intros a b. apply key_lt_total.
    - intros a b _ _. apply key_lt_asym.
    - intros a b c. apply key_le_trans.
    - intros a _. apply alphanum_key_total. }
  assert (Hfix : forall l, StronglySorted (key_le alphanum_key key_lt) l ->
                           natural_sort l = Ok l).
  { intros l0 Hs. apply sorted_fixed; [|exact Hs].
    intros a _. destruct (alphanum_key_total a) as [k [Hk _]]. eauto. }
  split; [|split].
  - split; [|apply Hfix].
    intros H. destruct (Hspec l) as [r [Hr [_ Hs]]]. congruence.
  - destruct (Hspec l) as [r [Hr [_ Hs]]]. exists r. split; [exact Hr | now apply Hfix].
  - intros a b Hab. apply Hfix.
    destruct (alphanum_key_total a) as [ka [Hka Halt]].
    assert (Hirr : key_lt ka ka = Ok false).
    { destruct (key_lt_total ka ka false Halt Halt) as [[|] Hr]; [|exact Hr].
      pose proof (key_lt_asym ka ka Hr). congruence. }
    repeat constructor. exists ka, ka. rewrite <- Hab. auto.
Qed.

(** ** What the re-spacing functions leave alone *)

Lemma moved_only_refl (f : FOOTPRINT) : moved_only f f.
Proof. repeat split. Qed.

Lemma moved_only_trans (f g h : FOOTPRINT) :
  moved_only f g -> moved_only g h -> moved_only f h.
Proof.
  intros [R1 [S1 P1]] [R2 [S2 P2]]. repeat split; try congruence.
  intros Hf. rewrite P2 by congruence. auto.
Qed.

Lemma respaced_refl (b : BOARD) : respaced b b.
Proof.
  split; [reflexivity|]. induction (footprints b); constructor;
    auto using moved_only_refl.
Qed.

Lemma respaced_trans (a b c : BOARD) : respaced a b -> respaced b c -> respaced a c.
Proof.
  intros [I1 F1] [I2 F2]. split; [congruence|].
  revert F2. generalize (footprints c). induction F1 as [|f g l1 l2 Hfg _ IH];
    intros l3 F2; inversion F2; subst; constructor; eauto using moved_only_trans.
Qed.

Lemma SetPosition_respaced (b : BOARD) (j : nat) (p : point) (f : FOOTPRINT) :
  nth_error (footprints b) j = Some f -> fp_selected f = true ->
  respaced b (SetPosition j p b).
Proof.
  intros Hj Hsel. split; [reflexivity|]. cbn [SetPosition footprints].
  revert j Hj. induction (footprints b) as [|g l IH]; intros j Hj.
  - destruct j; discriminate.
  - destruct j as [|j]; cbn [set_nth nth_error] in *.
    + injection Hj as ->. constructor.
      * repeat split. cbn. congruence.
      * clear. induction l; constructor; auto using moved_only_refl.
    + constructor; [apply moved_only_refl | now apply IH].
Qed.

Lemma distributeX_body_respaced (xStep : Q) (fp : nat) (st : dist_state) :
  respaced (d_pcb st) (d_pcb (distributeX_body xStep fp st)).
Proof.
  unfold distributeX_body.
  destruct (nth_error (footprints (d_pcb st)) fp) as [f|] eqn:Hf;
    [|apply respaced_refl].
  destruct (fp_selected f) eqn:Hsel; [|apply respaced_refl].
  cbn [d_pcb]. now apply (SetPosition_respaced _ _ _ f).
Qed.

Lemma distributeY_body_respaced (yStep : Q) (fp : nat) (st : dist_state) :
  respaced (d_pcb st) (d_pcb (distributeY_body yStep fp st)).
Proof.
  unfold distributeY_body.
  destruct (nth_error (footprints (d_pcb st)) fp) as [f|] eqn:Hf;
    [|apply respaced_refl].
  destruct (fp_selected f) eqn:Hsel; [|apply respaced_refl].
  cbn [d_pcb]. now apply (SetPosition_respaced _ _ _ f).
Qed.

Lemma distributeXY_body_respaced (xStep yStep : Q) (numCols i : Z) (fp : nat)
    (st : dist_state) :
  respaced (d_pcb st) (d_pcb (fst (distributeXY_body xStep yStep numCols i fp st))).
Proof.
  unfold distributeXY_body.
  destruct (nth_error (footprints (d_pcb st)) fp) as [f|] eqn:Hf;
    [|apply respaced_refl].
  destruct (fp_selected f) eqn:Hsel; [|apply respaced_refl].
  destruct (if (0 <? i)%Z then divides numCols i else Ok false) as [[|]|e];
    cbn [fst d_pcb]; now apply (SetPosition_respaced _ _ _ f).
Qed.

Lemma fold_left_respaced (body : nat -> dist_state -> dist_state) (l : list nat)
    (st : dist_state) :
  (forall fp st, respaced (d_pcb st) (d_pcb (body fp st))) ->
  respaced (d_pcb st) (d_pcb (fold_left (fun st fp => body fp st) l st)).
Proof.
  intros Hbody. revert st. induction l as [|fp l IH]; intros st; cbn [fold_left].
  - apply respaced_refl.
  - apply (respaced_trans _ (d_pcb (body fp st))); [apply Hbody | apply IH].
Qed.

Lemma for_each_respaced (body : Z -> nat -> dist_state -> dist_state * option exn)
    (l : list nat) (i : Z) (st : dist_state) :
  (forall i fp st, respaced (d_pcb st) (d_pcb (fst (body i fp st)))) ->
  respaced (d_pcb st) (d_pcb (fst (for_each body i l st))).
Proof.
  intros Hbody. revert i st. induction l as [|fp l IH]; intros i st; cbn [for_each].
  - apply respaced_refl.
  - pose proof (Hbody i fp st) as H1.
    destruct (body i fp st) as [st' [e|]]; cbn [fst] in *; [exact H1|].
    apply (respaced_trans _ (d_pcb st')); [exact H1 | apply IH].
Qed.

Lemma distributeXY_respaced (xStep yStep : Q) (numCols : Z) (board : BOARD) :
  respaced board (fst (distributeXY xStep yStep numCols board)).
Proof.
  unfold distributeXY.
  destruct (natural_sort _) as [names|e]; [|apply respaced_refl].
  destruct (sorted _ _ _) as [pairs|e]; [|apply respaced_refl].
  pose proof (for_each_respaced (distributeXY_body xStep yStep numCols)
                (map snd pairs) 0%Z {| d_yMod := 0; d_m := 0; d_pcb := board |}
                (distributeXY_body_respaced xStep yStep numCols)) as H.
  destruct (for_each _ _ _ _) as [st e]. exact H.
Qed.

(** X12. Whatever the steps and the number of columns, and whether
    [distributeXY] ends well or with an exception, the three re-spacing
    functions add nothing to the board and remove nothing; every footprint
    keeps its place in the host's list, its reference and its selection, and
    a footprint that is not selected keeps its position. *)
Theorem respacing_moves_selected_only (xStep yStep : Q) (numCols : Z) (board : BOARD) :
  respaced board (distributeX xStep board) /\
  respaced board (distributeY yStep board) /\
  respaced board (fst (distributeXY xStep yStep numCols board)) /\
  forall b', respaced board b' ->
    items b' = items board /\
    map fp_reference (footprints b') = map fp_reference (footprints board) /\
    map fp_selected (footprints b') = map fp_selected (footprints board) /\
    forall j f, nth_error (footprints board) j = Some f -> fp_selected f = false ->
                nth_error (footprints b') j = Some f.
Proof.
  split; [|split; [|split]].
  - apply (fold_left_respaced (distributeX_body xStep)), distributeX_body_respaced.
  - apply (fold_left_respaced (distributeY_body yStep)), distributeY_body_respaced.
  - apply distributeXY_respaced.
  - intros b' [Hi Hf]. split; [exact Hi|].
    induction Hf as [|f f' l l' [Hr [Hs Hp]] _ [IHr [IHs IHn]]].
    + repeat split; auto; intros [|j] f H; discriminate.
    + cbn [map]. rewrite Hr, Hs, IHr, IHs. repeat split.
      intros [|j] g Hg Hsel; cbn [nth_error] in *; [|now apply IHn].
      injection Hg as ->. f_equal. destruct g as [r s p], f' as [r' s' p'].
      cbn in *. rewrite (Hp Hsel). congruence.
Qed.

Lemma respaced_none_selected (b b' : BOARD) :
  (forall f, In f (footprints b) -> fp_selected f = false) ->
  respaced b b' -> b' = b.
Proof.
  intros Hnone [Hi Hf]. destruct b as [its fps], b' as [its' fps'].
  cbn [items footprints] in *. subst its'. f_equal.
  induction Hf as [|f f' l l' [Hr [Hs Hp]] _ IH]; [reflexivity|].
  rewrite IH by (intros g Hg; apply Hnone; now right). f_equal.
  destruct f as [r s p], f' as [r' s' p']. cbn in *.
  rewrite Hp by (apply (Hnone {| fp_reference := r; fp_selected := s; fp_position := p |});
                 now left).
  congruence.
Qed.

(** X13. On a board where no footprint is selected the three re-spacing
    functions change nothing at all, whether or not [distributeXY] ends
    with an exception. *)
Theorem respacing_without_selection (xStep yStep : Q) (numCols : Z) (board : BOARD) :
  (forall f, In f (footprints board) -> fp_selected f = false) ->
  distributeX xStep board = board /\
  distributeY yStep board = board /\
  fst (distributeXY xStep yStep numCols board) = board.
Proof.
  intros Hnone. repeat split; apply (respaced_none_selected board); auto.
  - apply (fold_left_respaced (distributeX_body xStep)), distributeX_body_respaced.
  - apply (fold_left_respaced (distributeY_body yStep)), distributeY_body_respaced.
  - apply distributeXY_respaced.
Qed.

Lemma respacing_without_selection_witness :
  distributeX 360 none_selected = none_selected /\
  distributeY 66 none_selected = none_selected /\
  fst (distributeXY 360 360 10 none_selected) = none_selected.
Proof.
  apply (respacing_without_selection 360 66 10 none_selected).
  intros f [<-|[<-|[]]]; reflexivity.
Defined.

(** ** The settings dialog *)

Section DialogFacts.
Variable float_of_str : string -> result Q.

End DialogFacts.




(** ** The order of the records in the file *)

Lemma index_lt_asym (a b : string) : index_lt a b -> index_lt b a -> False.
Proof.
  intros [na [nb [Ha [Hb Hlt]]]] [nb' [na' [Hb' [Ha' Hlt']]]].
  rewrite Ha in Ha'. rewrite Hb in Hb'. injection Ha' as <-. injection Hb' as <-. lia.
Qed.

(** Two lists in strictly ascending order with the same elements are the
    same list. *)
Lemma ascending_unique (l1 l2 : list string) :
  StronglySorted index_lt l1 -> StronglySorted index_lt l2 ->
  Permutation l1 l2 -> l1 = l2.
Proof.
  revert l2. induction l1 as [|a l1 IH]; intros l2 H1 H2 Hp.
  - apply Permutation_nil in Hp. now subst.
  - destruct l2 as [|b l2].
    { apply Permutation_sym, Permutation_nil in Hp. discriminate. }
    inversion H1 as [|? ? H1' Ha]; subst. inversion H2 as [|? ? H2' Hb]; subst.
    rewrite Forall_forall in Ha, Hb.
    assert (a = b) as ->.
    { assert (In a (b :: l2)) as Hin by (apply (Permutation_in _ Hp); now left).
      assert (In b (a :: l1)) as Hin'
          by (apply (Permutation_in _ (Permutation_sym Hp)); now left).
      destruct Hin as [->|Hin]; [reflexivity|].
      destruct Hin' as [->|Hin']; [reflexivity|].
      exfalso. apply (index_lt_asym a b); auto. }
    f_equal. apply IH; auto. apply (Permutation_cons_inv Hp).
Qed.

Lemma dict_get_none {V : Type} (k : string) (d : dict V) :
  ~ In k (dict_keys d) -> dict_get k d = None.
Proof.
  intros Hnin. destruct (dict_get k d) as [v|] eqn:E; [|reflexivity].
  exfalso. apply Hnin. apply (dict_get_some_in _ _ _ E).
Qed.

Section RecordOrder.
Variable float_of_str : string -> result Q.

Lemma load_error_none (rows : list (dict cell)) :
  load_error float_of_str rows = None <->
  Forall (fun row => first_error float_of_str header row = None) rows.
Proof.
  induction rows as [|row rows IH]; cbn [load_error].
  - split; [constructor | reflexivity].
  - destruct (first_error float_of_str header row) eqn:Hrow.
    + split; [discriminate|]. intros H. inversion H; congruence.
    + rewrite IH. split; [now constructor | intros H; now inversion H].
Qed.

(** With pairwise different indices, the record stored under the index of
    a row is the record of that row. *)
Lemma restoreCSV_loop_lookup (rows : list (dict cell)) (d : dict via)
    (row : dict cell) (n : Z) (v : via) :
  restoreCSV_loop float_of_str rows [] = Ok d ->
  NoDup (map row_index rows) ->
  In row rows -> row_index row = Ok n -> row_via float_of_str row = Ok v ->
  dict_get (Py.str n) d = Some v.
Proof.
  intros Hload Hnd Hin Hn Hv.
  destruct (in_split _ _ Hin) as [before [after ->]].
  apply restoreCSV_loop_app in Hload. destruct Hload as [d1 [_ Hload]].
  cbn [restoreCSV_loop] in Hload. apply rbind_ok in Hload.
  destruct Hload as [d' [Hrow Hload]].
  apply restoreCSV_row_ok in Hrow. destruct Hrow as [n' [v' [Hn' [Hv' ->]]]].
  assert (n' = n) as -> by congruence. assert (v' = v) as -> by congruence.
  rewrite (restoreCSV_loop_keeps _ _ _ _ n Hload).
  - apply dict_get_set_same.
  - intros r Hr Hrn. rewrite map_app in Hnd. cbn [map] in Hnd.
    apply NoDup_remove_2 in Hnd. apply Hnd. apply in_or_app. right.
    rewrite Hn, <- Hrn. now apply in_map.
Qed.

Lemma restoreCSV_same_records (rows1 rows2 : list (dict cell)) (d1 : dict via) :
  restoreCSV_loop float_of_str rows1 [] = Ok d1 ->
  Permutation rows1 rows2 ->
  NoDup (map row_index rows1) ->
  exists d2,
    restoreCSV_loop float_of_str rows2 [] = Ok d2 /\
    (forall k, dict_get k d2 = dict_get k d1) /\
    Permutation (dict_keys d1) (dict_keys d2).
Proof.
  intros Hload Hperm Hnd.
  assert (Hnd2 : NoDup (map row_index rows2)).
  { apply (Permutation_NoDup (Permutation_map _ Hperm) Hnd). }
  pose proof (restoreCSV_loop_error float_of_str rows1 []) as He1.
  pose proof (restoreCSV_loop_error float_of_str rows2 []) as He2.
  destruct (load_error float_of_str rows1) eqn:Hl1; [congruence|].
  assert (load_error float_of_str rows2 = None) as Hl2.
  { apply load_error_none. apply (Permutation_Forall Hperm).
    now apply load_error_none. }
  rewrite Hl2 in He2. destruct He2 as [d2 Hload2]. exists d2.
  assert (Hkeys : forall k, In k (dict_keys d1) <-> In k (dict_keys d2)).
  { intros k. rewrite (restoreCSV_loop_keys _ _ _ _ Hload k),
      (restoreCSV_loop_keys _ _ _ _ Hload2 k). cbn [dict_keys map In].
    split; intros [[]|[row [n [Hin Hrest]]]]; right; exists row, n;
      (split; [|exact Hrest]).
    - apply (Permutation_in _ Hperm Hin).
    - apply (Permutation_in _ (Permutation_sym Hperm) Hin). }
  split; [exact Hload2|]. split.
  - intros k. destruct (in_dec string_dec k (dict_keys d1)) as [Hk|Hk].
    + apply (restoreCSV_loop_keys _ _ _ _ Hload) in Hk.
      destruct Hk as [[]|[row [n [Hin [Hn ->]]]]].
      destruct (restoreCSV_loop_rows_ok _ _ _ _ Hload row Hin) as [n' [v [Hn' Hv]]].
      rewrite (restoreCSV_loop_lookup rows1 d1 row n v Hload Hnd Hin Hn Hv).
      apply (restoreCSV_loop_lookup rows2 d2 row n v Hload2 Hnd2); auto.
      apply (Permutation_in _ Hperm Hin).
    + rewrite (dict_get_none k d1 Hk). apply dict_get_none. now rewrite <- Hkeys.
  - apply NoDup_Permutation; auto.
    + apply (restoreCSV_loop_nodup _ _ _ _ Hload). constructor.
    + apply (restoreCSV_loop_nodup _ _ _ _ Hload2). constructor.
Qed.

(** X19. The order of the records in the CSV file does not matter: two
    files whose records are the same up to their order, with pairwise
    different indices, load as mappings with the same record under every
    key, and [funnelFromCSV] does the same with both. *)
Theorem funnelFromCSV_ignores_record_order
    (f1 f2 : csv_rows) (d1 : dict via) (xStep yStep : Q) (numCols : Z)
    (board : BOARD) :
  restoreCSV float_of_str f1 = Ok d1 ->
  Permutation (DictReader f1) (DictReader f2) ->
  NoDup (map row_index (DictReader f1)) ->
  (exists d2, restoreCSV float_of_str f2 = Ok d2 /\
              forall k, dict_get k d2 = dict_get k d1) /\
  funnelFromCSV float_of_str f2 xStep yStep numCols board
  = funnelFromCSV float_of_str f1 xStep yStep numCols board.
Proof.
  intros Hload Hperm Hnd.
  destruct (restoreCSV_same_records _ _ _ Hload Hperm Hnd) as [d2 [Hload2 [Hget Hkeys]]].
  split; [eauto|].
  destruct (loaded_keys_sorted float_of_str f1 d1 Hload) as [l1 [Hs1 [Hp1 Hss1]]].
  destruct (loaded_keys_sorted float_of_str f2 d2 Hload2) as [l2 [Hs2 [Hp2 Hss2]]].
  assert (l2 = l1) as ->.
  { apply ascending_unique; auto.
    rewrite <- Hp2, <- Hp1. now apply Permutation_sym. }
  unfold funnelFromCSV. unfold restoreCSV in Hload, Hload2.
  unfold restoreCSV. rewrite Hload, Hload2, Hs1, Hs2.
  unfold funnel_loop.
  rewrite (for_each_ext _
             (fun i k st => atomic (funnel_body (fun k => getitem k d1)
                                      xStep yStep numCols i k st) st));
    [reflexivity|].
  intros i k st. unfold funnel_body, getitem. now rewrite Hget.
Qed.
End RecordOrder.

Lemma funnelFromCSV_ignores_record_order_witness :
  funnelFromCSV decimal_float csv_three_vias_shuffled 1 1 2 empty_board
  = funnelFromCSV decimal_float csv_three_vias 1 1 2 empty_board.
Proof.
  apply (funnelFromCSV_ignores_record_order decimal_float csv_three_vias
           csv_three_vias_shuffled _ 1 1 2 empty_board eq_refl).
  - cbn [DictReader csv_three_vias csv_three_vias_shuffled filter is_blank negb map].
    apply Permutation_sym. eapply perm_trans; [apply perm_swap|].
    apply perm_skip. apply perm_swap.
  - repeat constructor; cbv; intuition discriminate.
Defined.

(** ** The same table as a CSV file and as a JSON file *)

Lemma create_via_comp (board : BOARD) (net : string)
    (x x' y y' d d' w w' : Q) (addMaskBool : bool) :
  x == x' -> y == y' -> d == d' -> w == w' ->
  create_via board net x y d w addMaskBool
  = create_via board net x' y' d' w' addMaskBool.
Proof.
  intros Hx Hy Hd Hw. unfold create_via.
  rewrite (wxPointMM_comp x x' Hx y y' Hy), (mmToIU_comp d d' Hd),
    (mmToIU_comp w w' Hw), (mmToIU_comp x x' Hx).
  assert (Hhalf : w / 2 == w' / 2) by now rewrite Hw.
  now rewrite (mmToIU_comp _ _ Hhalf).
Qed.

(** A turn of the loop does the same with two records that are the same
    float for float. *)
Lemma funnel_body_via_eq (lookup lookup' : string -> result via)
    (xStep yStep : Q) (numCols i : Z) (k : string) (st : place_state)
    (v v' : via) :
  lookup k = Ok v -> lookup' k = Ok v' -> via_eq v v' ->
  funnel_body lookup xStep yStep numCols i k st
  = funnel_body lookup' xStep yStep numCols i k st.
Proof.
  intros Hv Hv' [HX [HY [HID HOD]]]. unfold funnel_body.
  destruct (if (0 <? i)%Z then divides numCols i else Ok false) as [wrap|e];
    [|reflexivity].
  cbn [rbind]. rewrite Hv, Hv'. cbn [rbind].
  destruct (Py.int k) as [n|e]; [|reflexivity]. cbn [rbind].
  set (ym := if wrap then yMod st + yStep else yMod st).
  set (mm := if wrap then 0%Z else m st).
  assert (Hx : X v + ToMM (inject_Z (fst origin)) + xStep * inject_Z mm
               == X v' + ToMM (inject_Z (fst origin)) + xStep * inject_Z mm)
    by now rewrite HX.
  assert (Hy : Y v + ToMM (inject_Z (snd origin)) + ym
               == Y v' + ToMM (inject_Z (snd origin)) + ym)
    by now rewrite HY.
  assert (Ht : Y v + ToMM (inject_Z (snd origin)) + ym + OD v / 2 + 4
               == Y v' + ToMM (inject_Z (snd origin)) + ym + OD v' / 2 + 4)
    by now rewrite HY, HOD.
  rewrite (wxPointMM_comp _ _ Hx _ _ Ht).
  now rewrite (create_via_comp _ _ _ _ _ _ _ _ _ _ _ Hx Hy HID HOD).
Qed.

Lemma for_each_ext_in {K S : Type} (f g : Z -> K -> S -> S * option exn)
    (l : list K) (i : Z) (st : S) :
  (forall i k st, In k l -> f i k st = g i k st) ->
  for_each f i l st = for_each g i l st.
Proof.
  revert i st. induction l as [|k l IH]; intros i st H; [reflexivity|].
  cbn [for_each]. rewrite H by now left.
  destruct (g i k st) as [st' [e|]]; auto.
  apply IH. intros i' k' st'' Hin. apply H. now right.
Qed.

(** X20. A CSV file and a JSON table that hold the same records, float for
    float, under the same keys, the JSON table written in ascending order
    of the indices: [funnelFromCSV] on the file and [funnelFromJson] on the
    table give the same board and end the same way. *)
Theorem funnelFromCSV_agrees_with_funnelFromJson
    (float_of_str : string -> result Q) (csvFile : csv_rows) (viaDict : dict via)
    (jsonFile : dict jvia) (xStep yStep : Q) (numCols : Z) (board : BOARD) :
  restoreCSV float_of_str csvFile = Ok viaDict ->
  StronglySorted index_lt (dict_keys jsonFile) ->
  Permutation (dict_keys jsonFile) (dict_keys viaDict) ->
  (forall k v, dict_get k jsonFile = Some v ->
     exists v', dict_get k viaDict = Some v' /\ via_eq v' (via_of_jvia v)) ->
  funnelFromCSV float_of_str csvFile xStep yStep numCols board
  = funnelFromJson jsonFile xStep yStep numCols board.
Proof.
  intros Hload Hasc Hperm Hsame.
  destruct (loaded_keys_sorted float_of_str csvFile viaDict Hload)
    as [keyList [Hsorted [Hp Hss]]].
  assert (keyList = dict_keys jsonFile) as ->.
  { apply ascending_unique; auto. rewrite <- Hp. now apply Permutation_sym. }
  unfold funnelFromCSV, funnelFromJson. rewrite Hload, Hsorted.
  unfold funnel_loop.
  rewrite (for_each_ext_in _
             (fun i k st =>
                atomic (funnel_body
                          (fun k => v <- getitem k jsonFile ;; Ok (via_of_jvia v))
                          xStep yStep numCols i k st) st));
    [reflexivity|].
  intros i k st Hin. destruct (dict_get_in _ _ Hin) as [v Hv].
  destruct (Hsame k v Hv) as [v' [Hv' Heq]].
  rewrite (funnel_body_via_eq (fun k => getitem k viaDict)
             (fun k => v <- getitem k jsonFile ;; Ok (via_of_jvia v))
             xStep yStep numCols i k st v' (via_of_jvia v)); auto.
  - unfold getitem. now rewrite Hv'.
  - unfold getitem. now rewrite Hv.
Qed.

Lemma funnelFromCSV_agrees_with_funnelFromJson_witness :
  funnelFromCSV decimal_float csv_ascending 1 1 2 empty_board
  = funnelFromJson json_ascending 1 1 2 empty_board.
Proof.
  apply (funnelFromCSV_agrees_with_funnelFromJson decimal_float csv_ascending
           _ json_ascending 1 1 2 empty_board eq_refl).
  - repeat constructor. exists 0%Z, 1%Z. repeat split; reflexivity.
  - apply Permutation_refl.
  - intros k v H. unfold json_ascending in H. cbn [dict_get] in H.
    destruct (String.eqb_spec "0" k) as [<-|_].
    + injection H as <-. eexists. split; [reflexivity|]. repeat split; reflexivity.
    + destruct (String.eqb_spec "1" k) as [<-|_]; [|discriminate].
      injection H as <-. eexists. split; [reflexivity|]. repeat split; reflexivity.
Defined.

(** * The code on binary64 floats *)

(** ** Conversions that raise *)

Lemma int64_raises (x : B64.float) (e : exn) :
  B64.int x = Raise e -> e = ValueError \/ e = OverflowError.
Proof. destruct x; cbn; intros [= <-]; auto. Qed.

Lemma float_of_int_raises (z : Z) (e : exn) :
  B64.float_of_int z = Raise e -> e = OverflowError.
Proof.
  unfold B64.float_of_int. destruct (B64.of_Z z); intros [= <-]; reflexivity.
Qed.

Lemma wxPointMM_raises (x y : B64.float) (e : exn) :
  B64.wxPointMM x y = Raise e -> e = ValueError \/ e = OverflowError.
Proof.
  unfold B64.wxPointMM, B64.FromMM.
  destruct (B64.int (B64.mul x B64.IU_PER_MM)) eqn:Hx; cbn [rbind].
  - destruct (B64.int (B64.mul y B64.IU_PER_MM)) eqn:Hy; cbn [rbind].
    + discriminate.
    + intros [= <-]. apply (int64_raises _ _ Hy).
  - intros [= <-]. apply (int64_raises _ _ Hx).
Qed.

(** ** The table that [restoreCSV] returns *)

Section Loader64.
Local Open Scope Z_scope.
Variable float_of_str : string -> result B64.float.

Lemma restoreCSV_row_key (row : dict cell) (d d' : dict B64.via) :
  B64.restoreCSV_row float_of_str row d = Ok d' ->
  exists n v, row_index row = Ok n /\ d' = dict_set (Py.str n) v d.
Proof.
  unfold B64.restoreCSV_row, row_index. intros H.
  apply rbind_ok in H. destruct H as [ci [Hci H]]. rewrite Hci. cbn [rbind].
  apply rbind_ok in H. destruct H as [n [Hn H]]. rewrite Hn.
  apply rbind_ok in H. destruct H as [cx [_ H]].
  apply rbind_ok in H. destruct H as [x [_ H]].
  apply rbind_ok in H. destruct H as [cy [_ H]].
  apply rbind_ok in H. destruct H as [y [_ H]].
  apply rbind_ok in H. destruct H as [cid [_ H]].
  apply rbind_ok in H. destruct H as [id [_ H]].
  apply rbind_ok in H. destruct H as [cod [_ H]].
  apply rbind_ok in H. destruct H as [od [_ H]].
  injection H as <-. eauto.
Qed.

Lemma restoreCSV_loop_keys64 (rows : list (dict cell)) (d0 d : dict B64.via) :
  B64.restoreCSV_loop float_of_str rows d0 = Ok d ->
  (NoDup (dict_keys d0) -> NoDup (dict_keys d)) /\
  forall k, In k (dict_keys d) ->
            In k (dict_keys d0) \/ exists n, k = Py.str n.
Proof.
  revert d0. induction rows as [|row rows IH]; intros d0 H; simpl in H.
  - injection H as <-. auto.
  - apply rbind_ok in H. destruct H as [d' [Hrow H]].
    apply restoreCSV_row_key in Hrow. destruct Hrow as [n [v [_ ->]]].
    destruct (IH _ H) as [Hnd Hkeys]. split.
    + intros H0. apply Hnd. now apply dict_set_nodup.
    + intros k Hk. destruct (Hkeys k Hk) as [Hin|Hn]; [|now right].
      rewrite dict_keys_set in Hin. destruct Hin as [->|Hin]; eauto.
Qed.

(** The keys of a loaded table, sorted: all of them, in strictly ascending
    numeric order, each in the table and the text of its integer. *)
Lemma loaded_keys_sorted64 (csvFile : csv_rows) (viaDict : dict B64.via) :
  B64.restoreCSV float_of_str csvFile = Ok viaDict ->
  exists keyList,
    sorted_by_int (dict_keys viaDict) = Ok keyList /\
    Permutation (dict_keys viaDict) keyList /\
    StronglySorted index_lt keyList /\
    forall k, In k keyList ->
      exists v n, getitem k viaDict = Ok v /\ Py.int k = Ok n.
Proof.
  intros Hload. destruct (restoreCSV_loop_keys64 _ _ _ Hload) as [Hnd Hkeys].
  assert (Hcanon : forall k, In k (dict_keys viaDict) -> exists n, k = Py.str n).
  { intros k Hk. destruct (Hkeys k Hk) as [[]|Hn]. exact Hn. }
  destruct (sorted_by_int_spec (dict_keys viaDict)) as [keyList [Hs [Hp Hss]]].
  { intros k Hk. destruct (Hcanon k Hk) as [n ->]. exists n. apply PyFacts.int_str. }
  exists keyList. repeat split; auto.
  - apply strongly_sorted_strict; auto.
    + apply (Permutation_NoDup Hp). apply Hnd. constructor.
    + intros k Hk. apply Hcanon. apply (Permutation_in _ (Permutation_sym Hp) Hk).
  - intros k Hk. apply (Permutation_in _ (Permutation_sym Hp)) in Hk.
    destruct (dict_get_in _ _ Hk) as [v Hv]. destruct (Hcanon k Hk) as [n ->].
    exists v, n. unfold getitem. rewrite Hv. split; [reflexivity|].
    apply PyFacts.int_str.
Qed.

Lemma funnel_setup_loaded (csvFile : csv_rows) (viaDict : dict B64.via)
    (keyList : list string) :
  B64.restoreCSV float_of_str csvFile = Ok viaDict ->
  sorted_by_int (dict_keys viaDict) = Ok keyList ->
  B64.funnel_setup float_of_str csvFile
  = Ok (viaDict, (0, 0), keyList, (4000000, 4000000), 500000).
Proof.
  intros Hload Hs. unfold B64.funnel_setup. rewrite Hload. cbn [rbind].
  change (B64.wxPointMM (B64.of_Z 0) (B64.of_Z 0)) with (@Ok point (0, 0)).
  cbn [rbind]. rewrite Hs. reflexivity.
Qed.
End Loader64.

(** ** The placement loop in closed form *)

Section Placement64.
Local Open Scope Z_scope.
Variable int_cast : B64.float -> Z.
Variable new_via : PCB_VIA.
Variable lookup : string -> result B64.via.
Variables xStep yStep : B64.float.
Variable numCols : Z.
Hypothesis columns : 1 <= numCols.

(** After the test for a new row at turn [i], the counter is the column
    and the offset is [yStep] added once for each row above. *)
Lemma entry64_cell (i : Z) (st : B64.place_state) :
  0 <= i -> entry64 yStep numCols i st ->
  exists wrap,
    (if 0 <? i then divides numCols i else Ok false) = Ok wrap /\
    (if wrap then 0 else B64.m st) = i mod numCols /\
    (if wrap then B64.add (B64.yMod st) yStep else B64.yMod st)
    = ysum yStep (Z.to_nat (i / numCols)).
Proof.
  intros Hi [[-> [Hm Hy]]|[Hpos [Hm Hy]]].
  - exists false. cbn. rewrite Hm, Hy. repeat split.
  - exists (i mod numCols =? 0).
    destruct (Z.ltb_spec 0 i); [|lia]. unfold divides.
    destruct (Z.eqb_spec numCols 0); [lia|]. split; [reflexivity|].
    assert (0 <= (i - 1) / numCols) by (apply Z.div_pos; lia).
    destruct (Z.eqb_spec (i mod numCols) 0) as [Hz|Hnz].
    + split; [now rewrite Hz|].
      rewrite Hy, <- (row_start numCols i columns Hpos Hz).
      rewrite Z2Nat.inj_add by lia. rewrite Nat.add_comm. reflexivity.
    + destruct (row_inside numCols i columns Hpos Hnz) as [H1 H2].
      split; [now rewrite Hm|]. now rewrite Hy, H2.
Qed.

Lemma funnel_values_turn (i : Z) (k : string) (st : B64.place_state) :
  0 <= i -> entry64 yStep numCols i st ->
  B64.funnel_values lookup (0, 0) xStep yStep numCols i k st
  = (r <- turn_values lookup xStep yStep numCols i k ;;
     let '(xa, ya, v, q, n) := r in
     Ok (ysum yStep (Z.to_nat (i / numCols)), i mod numCols + 1, xa, ya, v, q, n)).
Proof.
  intros Hi Hst.
  destruct (entry64_cell i st Hi Hst) as [wrap [Hw [Hm Hy]]].
  unfold B64.funnel_values, turn_values. rewrite Hw. cbn [rbind].
  rewrite Hm, Hy. destruct (lookup k) as [v|e]; cbn [rbind]; [|reflexivity].
  change (B64.ToMM (fst (0, 0))) with (Ok B64.zero).
  change (B64.ToMM (snd (0, 0))) with (Ok B64.zero). cbn [rbind].
  destruct (B64.float_of_int (i mod numCols)) as [col|e]; cbn [rbind]; [|reflexivity].
  unfold cell_x, cell_y, label_y.
  destruct (B64.wxPointMM _ _) as [q|e]; cbn [rbind]; [|reflexivity].
  destruct (Py.int k) as [n|e]; cbn [rbind]; reflexivity.
Qed.

Lemma create_via_objects (board : BOARD) (xa ya : B64.float) (v : B64.via) :
  B64.create_via int_cast new_via board netDefault xa ya (B64.ID v) (B64.OD v) true
  = match B64.wxPointMM xa ya with
    | Raise e =>
        ({| items := items board ++ [Via new_via];
            footprints := footprints board |}, Some e)
    | Ok p =>
        ({| items := items board
                     ++ [Via (via64 int_cast p v);
                         Shape (mask64 int_cast B_Mask xa p v);
                         Shape (mask64 int_cast F_Mask xa p v)];
            footprints := footprints board |}, None)
    end.
Proof.
  unfold B64.create_via. destruct (B64.wxPointMM xa ya) as [[px py]|e];
    [|reflexivity].
  unfold Add, via64, mask64, vec_from_point. cbn [items footprints].
  rewrite <- !app_assoc. cbn [app].
  unfold SetFilled, SetEndX, SetStartX, SetShapePosition, SetLayer, SetShape, new_shape.
  cbn [shape_kind shape_layer shape_start shape_end shape_filled fst snd].
  rewrite !Z.add_0_l, !Z.sub_0_r. reflexivity.
Qed.

(** One turn of the loop, entered with the variables of turn [i]. *)
Lemma funnel_body_turn (i : Z) (k : string) (st : B64.place_state) :
  0 <= i -> entry64 yStep numCols i st ->
  exists st',
    B64.funnel_body int_cast new_via lookup (0, 0) (4000000, 4000000) 500000
      xStep yStep numCols i k st
    = (st', snd (turn_objects int_cast new_via lookup xStep yStep numCols i k)) /\
    items (B64.pcb st')
    = items (B64.pcb st)
      ++ fst (turn_objects int_cast new_via lookup xStep yStep numCols i k) /\
    footprints (B64.pcb st') = footprints (B64.pcb st) /\
    (snd (turn_objects int_cast new_via lookup xStep yStep numCols i k) = None ->
     entry64 yStep numCols (i + 1) st').
Proof.
  intros Hi Hst. unfold B64.funnel_body, turn_objects.
  rewrite (funnel_values_turn i k st Hi Hst).
  destruct (turn_values lookup xStep yStep numCols i k) as [[[[[xa ya] v] q] n]|e];
    cbn [rbind].
  - rewrite create_via_objects. unfold Add, vec_from_point. cbn [items footprints].
    destruct (B64.wxPointMM xa ya) as [p|e]; eexists; cbn [fst snd];
      (split; [reflexivity|]); cbn [B64.pcb items footprints];
      rewrite <- app_assoc; cbn [app]; unfold label64; repeat split;
      try discriminate.
    intros _. right. cbn [B64.m B64.yMod]. rewrite Z.add_simpl_r.
    repeat split; lia.
  - exists st. cbn [fst snd]. rewrite app_nil_r. repeat split. discriminate.
Qed.

Lemma for_each_grid (keys : list string) :
  forall i st, 0 <= i -> entry64 yStep numCols i st ->
  exists st',
    for_each (B64.funnel_body int_cast new_via lookup (0, 0) (4000000, 4000000)
                500000 xStep yStep numCols) i keys st
    = (st', snd (grid_objects int_cast new_via lookup xStep yStep numCols i keys)) /\
    items (B64.pcb st')
    = items (B64.pcb st)
      ++ fst (grid_objects int_cast new_via lookup xStep yStep numCols i keys) /\
    footprints (B64.pcb st') = footprints (B64.pcb st).
Proof.
  induction keys as [|k keys IH]; intros i st Hi Hst.
  - exists st. cbn. rewrite app_nil_r. auto.
  - destruct (funnel_body_turn i k st Hi Hst) as [st1 [Hbody [Hitems [Hfp Hnext]]]].
    cbn [for_each grid_objects]. rewrite Hbody.
    destruct (turn_objects int_cast new_via lookup xStep yStep numCols i k)
      as [objs [e|]]; cbn [fst snd] in *.
    + exists st1. auto.
    + destruct (IH (i + 1) st1 ltac:(lia) (Hnext eq_refl)) as [st' [Hloop [Hit' Hfp']]].
      exists st'. rewrite Hloop.
      destruct (grid_objects int_cast new_via lookup xStep yStep numCols (i + 1) keys)
        as [rest e]. cbn [fst snd] in *.
      rewrite Hit', Hitems, Hfp', Hfp, app_assoc. auto.
Qed.

(** The loop adds the objects of its turns, each with the variables in
    closed form, and ends as the first turn that raises. *)
Lemma funnel_loop_grid (keys : list string) (board : BOARD) :
  B64.funnel_loop int_cast new_via lookup (0, 0) (4000000, 4000000) 500000
    xStep yStep numCols keys board
  = ({| items := items board
                 ++ fst (grid_objects int_cast new_via lookup xStep yStep numCols 0 keys);
        footprints := footprints board |},
     snd (grid_objects int_cast new_via lookup xStep yStep numCols 0 keys)).
Proof.
  unfold B64.funnel_loop.
  destruct (for_each_grid keys 0 {| B64.yMod := B64.zero; B64.m := 0; B64.pcb := board |})
    as [st' [Hloop [Hitems Hfp]]]; [lia | left; auto |].
  rewrite Hloop. cbn [B64.pcb] in *. rewrite <- Hitems, <- Hfp.
  now destruct (B64.pcb st').
Qed.

(** A turn adds four objects, or it raises and adds none or two. *)
Lemma turn_objects_length (i : Z) (k : string) :
  match turn_objects int_cast new_via lookup xStep yStep numCols i k with
  | (objs, None) => List.length objs = 4%nat
  | (objs, Some _) => (List.length objs <= 2)%nat
  end.
Proof.
  unfold turn_objects.
  destruct (turn_values lookup xStep yStep numCols i k) as [[[[[xa ya] v] q] n]|e].
  - destruct (B64.wxPointMM xa ya); cbn; lia.
  - cbn. lia.
Qed.

Lemma grid_objects_group (keys : list string) :
  forall (i : Z) (j : nat) (k : string),
  nth_error keys j = Some k ->
  (4 * j + 4
   <= List.length
        (fst (grid_objects int_cast new_via lookup xStep yStep numCols i keys)))%nat ->
  turn_objects int_cast new_via lookup xStep yStep numCols (i + Z.of_nat j) k
  = (firstn 4 (skipn (4 * j)
        (fst (grid_objects int_cast new_via lookup xStep yStep numCols i keys))),
     None).
Proof.
  induction keys as [|k0 keys IH]; intros i j k Hk Hlen; [now destruct j|].
  cbn [grid_objects] in *.
  pose proof (turn_objects_length i k0) as Hturn.
  destruct (turn_objects int_cast new_via lookup xStep yStep numCols i k0)
    as [objs [e|]] eqn:Ht.
  - cbn [fst] in Hlen. lia.
  - destruct (grid_objects int_cast new_via lookup xStep yStep numCols (i + 1) keys)
      as [rest e] eqn:Hg. cbn [fst] in *.
    destruct j as [|j]; cbn [nth_error] in Hk.
    + injection Hk as <-. rewrite Z.add_0_r, Ht.
      destruct objs as [|a [|b [|c [|d [|]]]]]; try discriminate. reflexivity.
    + specialize (IH (i + 1) j k Hk). rewrite Hg in IH. cbn [fst] in IH.
      rewrite length_app in Hlen.
      replace (i + Z.of_nat (S j)) with (i + 1 + Z.of_nat j) by lia.
      rewrite IH by lia. f_equal. f_equal.
      assert (Hj : (4 * S j = List.length objs + 4 * j)%nat) by lia.
      rewrite Hj, skipn_app, (skipn_all2 objs) by lia.
      cbn [app]. f_equal. lia.
Qed.

Lemma grid_objects_complete (keys : list string) :
  forall i,
  snd (grid_objects int_cast new_via lookup xStep yStep numCols i keys) = None ->
  List.length (fst (grid_objects int_cast new_via lookup xStep yStep numCols i keys))
  = (4 * List.length keys)%nat.
Proof.
  induction keys as [|k keys IH]; intros i H; [reflexivity|].
  cbn [grid_objects] in *.
  pose proof (turn_objects_length i k) as Hturn.
  destruct (turn_objects int_cast new_via lookup xStep yStep numCols i k)
    as [objs [e|]]; [discriminate|].
  specialize (IH (i + 1)).
  destruct (grid_objects int_cast new_via lookup xStep yStep numCols (i + 1) keys)
    as [rest e]. cbn [fst snd] in *.
  rewrite length_app, IH by assumption. cbn [List.length]. lia.
Qed.


(** A turn raises only what a conversion to an integer or to a float
    raises, when the lookup of its key raises nothing else. *)
Lemma turn_objects_raises (i : Z) (k : string) (ex : exn) :
  (forall e, lookup k = Raise e -> e = ValueError \/ e = OverflowError) ->
  snd (turn_objects int_cast new_via lookup xStep yStep numCols i k) = Some ex ->
  ex = ValueError \/ ex = OverflowError.
Proof.
  intros Hlookup. unfold turn_objects, turn_values.
  destruct (lookup k) as [v|e]; cbn [rbind];
    [|cbn [snd]; intros [= <-]; now apply Hlookup].
  destruct (B64.float_of_int (i mod numCols)) as [col|e] eqn:Hcol; cbn [rbind].
  - destruct (B64.wxPointMM (cell_x xStep col v) _) as [q|e] eqn:Hq; cbn [rbind].
    + destruct (Py.int k) as [n|e] eqn:Hk; cbn [rbind].
      * destruct (B64.wxPointMM (cell_x xStep col v)
                    (cell_y yStep (Z.to_nat (i / numCols)) v)) as [p|e] eqn:Hp;
          cbn [snd]; [discriminate|].
        intros [= <-]. apply (wxPointMM_raises _ _ _ Hp).
      * cbn [snd]. intros [= <-]. left. apply (int_raises_ValueError _ _ Hk).
    + cbn [snd]. intros [= <-]. apply (wxPointMM_raises _ _ _ Hq).
  - cbn [snd]. intros [= <-]. right. apply (float_of_int_raises _ _ Hcol).
Qed.

Lemma grid_objects_raises (keys : list string) (ex : exn) :
  (forall k e, In k keys -> lookup k = Raise e ->
               e = ValueError \/ e = OverflowError) ->
  forall i,
  snd (grid_objects int_cast new_via lookup xStep yStep numCols i keys) = Some ex ->
  ex = ValueError \/ ex = OverflowError.
Proof.
  induction keys as [|k keys IH]; intros Hkeys i; [discriminate|].
  cbn [grid_objects].
  pose proof (turn_objects_raises i k ex
                (fun e => Hkeys k e (or_introl eq_refl))) as Hturn.
  destruct (turn_objects int_cast new_via lookup xStep yStep numCols i k)
    as [objs [e|]]; cbn [snd] in *; [exact Hturn|].
  specialize (IH (fun k' e H => Hkeys k' e (or_intror H)) (i + 1)).
  destruct (grid_objects int_cast new_via lookup xStep yStep numCols (i + 1) keys)
    as [rest e]. exact IH.
Qed.

(** The loop does not go past a turn that raises. *)
Lemma grid_objects_stops (good rest : list string) (bad : string) :
  forall i,
  (exists e, snd (turn_objects int_cast new_via lookup xStep yStep numCols
                    (i + Z.of_nat (List.length good)) bad) = Some e /\
             fst (turn_objects int_cast new_via lookup xStep yStep numCols
                    (i + Z.of_nat (List.length good)) bad) = []) ->
  (exists e, snd (grid_objects int_cast new_via lookup xStep yStep numCols i
                    (good ++ bad :: rest)) = Some e) /\
  (List.length (fst (grid_objects int_cast new_via lookup xStep yStep numCols i
                       (good ++ bad :: rest)))
   <= 4 * List.length good)%nat.
Proof.
  induction good as [|k good IH]; intros i [e [He Hnone]].
  - cbn [app grid_objects List.length] in *. rewrite Z.add_0_r in He, Hnone.
    destruct (turn_objects int_cast new_via lookup xStep yStep numCols i bad)
      as [objs o]. cbn [fst snd] in *. subst. cbn. split; [eauto | lia].
  - cbn [app grid_objects].
    pose proof (turn_objects_length i k) as Hturn.
    destruct (turn_objects int_cast new_via lookup xStep yStep numCols i k)
      as [objs [e0|]]; cbn [fst snd List.length].
    + split; [eauto | lia].
    + destruct (IH (i + 1)) as [[e1 He1] Hlen].
      { exists e. cbn [List.length] in He, Hnone.
        replace (i + 1 + Z.of_nat (List.length good))
          with (i + Z.of_nat (S (List.length good))) by lia. auto. }
      destruct (grid_objects int_cast new_via lookup xStep yStep numCols (i + 1)
                  (good ++ bad :: rest)) as [objs' o]. cbn [fst snd] in *.
      split; [eauto|]. rewrite length_app. lia.
Qed.

Lemma grid_objects_all (keys : list string) :
  forall i,
  (forall (j : nat) k, nth_error keys j = Some k ->
     snd (turn_objects int_cast new_via lookup xStep yStep numCols (i + Z.of_nat j) k)
     = None) ->
  snd (grid_objects int_cast new_via lookup xStep yStep numCols i keys) = None.
Proof.
  induction keys as [|k keys IH]; intros i H; [reflexivity|].
  cbn [grid_objects].
  pose proof (H 0%nat k eq_refl) as H0. rewrite Z.add_0_r in H0.
  destruct (turn_objects int_cast new_via lookup xStep yStep numCols i k)
    as [objs [e|]]; cbn [snd] in H0; [discriminate|].
  specialize (IH (i + 1)).
  destruct (grid_objects int_cast new_via lookup xStep yStep numCols (i + 1) keys)
    as [rest e]. cbn [snd] in *. apply IH. intros j k' Hj.
  replace (i + 1 + Z.of_nat j) with (i + Z.of_nat (S j)) by lia. now apply (H (S j)).
Qed.

(** A turn that ends well has placed the record at its cell. *)
Lemma turn_objects_placed (i : Z) (k : string) (v : B64.via) (n : Z)
    (col : B64.float) (four : list item) :
  lookup k = Ok v -> Py.int k = Ok n ->
  B64.float_of_int (i mod numCols) = Ok col ->
  (turn_objects int_cast new_via lookup xStep yStep numCols i k = (four, None) <->
   placed_at int_cast (cell_x xStep col v)
     (cell_y yStep (Z.to_nat (i / numCols)) v) n v = Ok four).
Proof.
  intros Hv Hk Hcol. unfold turn_objects, turn_values, placed_at.
  rewrite Hv. cbn [rbind]. rewrite Hcol. cbn [rbind].
  destruct (B64.wxPointMM (cell_x xStep col v) (label_y _ v)) as [q|e]; cbn [rbind].
  - rewrite Hk. cbn [rbind].
    destruct (B64.wxPointMM (cell_x xStep col v) _) as [p|e]; cbn [rbind].
    + split; intros [= <-]; reflexivity.
    + split; discriminate.
  - split; discriminate.
Qed.

Lemma turn_objects_ok (i : Z) (k : string) (four : list item) :
  turn_objects int_cast new_via lookup xStep yStep numCols i k = (four, None) ->
  exists v n col,
    lookup k = Ok v /\ Py.int k = Ok n /\
    B64.float_of_int (i mod numCols) = Ok col.
Proof.
  unfold turn_objects, turn_values.
  destruct (lookup k) as [v|e]; cbn [rbind]; [|discriminate].
  destruct (B64.float_of_int (i mod numCols)) as [col|e]; cbn [rbind]; [|discriminate].
  destruct (B64.wxPointMM (cell_x xStep col v) (label_y _ v)) as [q|e]; cbn [rbind];
    [|discriminate].
  destruct (Py.int k) as [n|e]; cbn [rbind]; [|discriminate].
  destruct (B64.wxPointMM (cell_x xStep col v) _); [|discriminate].
  intros _. exists v, n, col. auto.
Qed.
End Placement64.

(** C1. Once the table is loaded and [numCols >= 1], [funnelFromCSV] takes
    the keys in strictly ascending numeric order and only adds objects.
    Every record that it places in full, the one at position [i] of that
    order (not of stored index [i]), has its four objects at the position
    that binary64 arithmetic gives to
    [X = record.X + 0.0 + xStep * (i mod numCols)] and
    [Y = record.Y + 0.0 + S], where [S] is [yStep] added to 0 once for each
    of the [floor(i / numCols)] rows above: the label at
    [wxPointMM(X, Y + OD/2 + 4)], the via at [wxPointMM(X, Y)], which cut
    the millimetres to whole host units.  The call places every record
    when these positions convert to host units, and when one does not, a
    coordinate being nan or infinite, it ends there with [ValueError] or
    [OverflowError].  At [i = numCols] the column is 0 and the offset is
    one [yStep].  With the two records of the example, a step of 1.88 by
    1.63 and 10 columns, the vias are at (0, 0) and (1.88 mm, 0), in host
    units. *)
Theorem funnelFromCSV_places_on_float_grid
    (int_cast : B64.float -> Z) (new_via : PCB_VIA)
    (float_of_str : string -> result B64.float) (csvFile : csv_rows)
    (viaDict : dict B64.via) (xStep yStep : B64.float) (numCols : Z)
    (board : BOARD) :
  B64.restoreCSV float_of_str csvFile = Ok viaDict ->
  (1 <= numCols)%Z ->
  exists keyList new e,
    sorted_by_int (dict_keys viaDict) = Ok keyList /\
    Permutation (dict_keys viaDict) keyList /\
    StronglySorted index_lt keyList /\
    B64.funnelFromCSV int_cast new_via float_of_str csvFile xStep yStep numCols board
    = ({| items := items board ++ new; footprints := footprints board |}, e) /\
    (forall (i : nat) (k : string),
       nth_error keyList i = Some k ->
       (4 * i + 4 <= List.length new)%nat ->
       exists v n col,
         dict_get k viaDict = Some v /\ Py.int k = Ok n /\
         B64.float_of_int (Z.of_nat i mod numCols) = Ok col /\
         placed_at int_cast (cell_x xStep col v)
           (cell_y yStep (Z.to_nat (Z.of_nat i / numCols)) v) n v
         = Ok (firstn 4 (skipn (4 * i) new))) /\
    (e = None -> List.length new = (4 * List.length keyList)%nat) /\
    (forall ex, e = Some ex -> ex = ValueError \/ ex = OverflowError) /\
    ((forall (i : nat) k v,
        nth_error keyList i = Some k -> dict_get k viaDict = Some v ->
        exists col q p,
          B64.float_of_int (Z.of_nat i mod numCols) = Ok col /\
          B64.wxPointMM (cell_x xStep col v)
            (label_y (cell_y yStep (Z.to_nat (Z.of_nat i / numCols)) v) v) = Ok q /\
          B64.wxPointMM (cell_x xStep col v)
            (cell_y yStep (Z.to_nat (Z.of_nat i / numCols)) v) = Ok p) ->
     e = None) /\
    (forall i : nat, Z.of_nat i = numCols ->
       (Z.of_nat i mod numCols = 0)%Z /\
       ysum yStep (Z.to_nat (Z.of_nat i / numCols)) = B64.add B64.zero yStep) /\
    (viaDict = two_vias64 -> xStep = B64.decimal 188 2 ->
     yStep = B64.decimal 163 2 -> numCols = 10%Z ->
     e = None /\ via_positions new = [(0, 0)%Z; (1880000, 0)%Z]).
Proof.
  intros Hload Hn.
  destruct (loaded_keys_sorted64 float_of_str csvFile viaDict Hload)
    as [keyList [Hs [Hp [Hss Hkeys]]]].
  set (lookup := fun k => getitem k viaDict).
  exists keyList,
    (fst (grid_objects int_cast new_via lookup xStep yStep numCols 0 keyList)),
    (snd (grid_objects int_cast new_via lookup xStep yStep numCols 0 keyList)).
  split; [exact Hs|]. split; [exact Hp|]. split; [exact Hss|].
  split.
  { unfold B64.funnelFromCSV.
    rewrite (funnel_setup_loaded float_of_str csvFile viaDict keyList Hload Hs).
    now apply funnel_loop_grid. }
  split.
  { intros i k Hk Hlen.
    pose proof (grid_objects_group int_cast new_via lookup xStep yStep numCols
                  keyList 0%Z i k Hk Hlen) as Hturn.
    rewrite Z.add_0_l in Hturn.
    destruct (turn_objects_ok _ _ _ _ _ _ _ _ _ Hturn) as [v [n [col [Hv [Hi Hcol]]]]].
    exists v, n, col. repeat split; auto.
    - unfold lookup, getitem in Hv.
      destruct (dict_get k viaDict); [congruence | discriminate].
    - now apply (turn_objects_placed int_cast new_via lookup xStep yStep numCols
                   (Z.of_nat i) k v n col _ Hv Hi Hcol). }
  split; [apply grid_objects_complete|].
  split.
  { intros ex. apply grid_objects_raises; auto.
    intros k e0 Hk Hraise. destruct (Hkeys k Hk) as [v [n [Hv _]]].
    unfold lookup in Hraise. congruence. }
  split.
  { intros Hconv. apply grid_objects_all. intros j k Hk. rewrite Z.add_0_l.
    destruct (Hkeys k (nth_error_In _ _ Hk)) as [v [n [Hv Hi]]].
    assert (Hget : dict_get k viaDict = Some v).
    { unfold getitem in Hv. destruct (dict_get k viaDict); [congruence | discriminate]. }
    destruct (Hconv j k v Hk Hget) as [col [q [p [Hcol [Hq Hpos]]]]].
    eassert (Hpl : placed_at int_cast (cell_x xStep col v)
                     (cell_y yStep (Z.to_nat (Z.of_nat j / numCols)) v) n v = Ok _)
      by (unfold placed_at; rewrite Hq, Hpos; reflexivity).
    apply (turn_objects_placed int_cast new_via lookup xStep yStep numCols
             (Z.of_nat j) k v n col _ Hv Hi Hcol) in Hpl.
    now rewrite Hpl. }
  split.
  { intros i Hi. rewrite Hi, Z.mod_same, Z.div_same by lia. split; reflexivity. }
  intros -> -> -> ->. vm_compute in Hs. injection Hs as <-.
  split; vm_compute; reflexivity.
Qed.

Lemma funnelFromCSV_places_on_float_grid_witness :
  B64.restoreCSV float64_of_decimal csv_two_vias = Ok two_vias64 /\
  exists new,
    B64.funnelFromCSV cast_zero blank_via float64_of_decimal csv_two_vias
      (B64.decimal 188 2) (B64.decimal 163 2) 10 empty_board
    = ({| items := new; footprints := [] |}, None) /\
    via_positions new = [(0, 0)%Z; (1880000, 0)%Z].
Proof.
  split; [reflexivity|].
  destruct (funnelFromCSV_places_on_float_grid cast_zero blank_via
              float64_of_decimal csv_two_vias two_vias64 (B64.decimal 188 2)
              (B64.decimal 163 2) 10 empty_board eq_refl)
    as [keyList [new [e [_ [_ [_ [Hrun [_ [_ [_ [_ [_ Hex]]]]]]]]]]]].
  - lia.
  - destruct Hex as [-> Hpos]; try reflexivity.
    exists new. split; [exact Hrun | exact Hpos].
Defined.

(** The claim of C1 as it stands fails on the rows: with one column, steps
    of 1.88 and 1.63 and seven records at the origin, the record at
    position 6 is on row 6, where the specification puts it at
    [Y = 0 + 1.63 * 6], 9780000 host units.  The loop has added 1.63 six
    times, which is 9.779999999999998 in binary64, and the via is at
    9779999. *)
Lemma row_offset_is_accumulated :
  snd (B64.funnelFromCSV cast_zero blank_via float64_of_decimal
         (csv_vias_at_origin 7) (B64.decimal 188 2) (B64.decimal 163 2) 1
         empty_board) = None /\
  nth_error
    (via_positions
       (items (fst (B64.funnelFromCSV cast_zero blank_via float64_of_decimal
                      (csv_vias_at_origin 7) (B64.decimal 188 2)
                      (B64.decimal 163 2) 1 empty_board)))) 6
  = Some (0, 9779999)%Z /\
  B64.wxPointMM (claimed_x (B64.decimal 188 2) (6 mod 1) via_1_2)
    (claimed_y (B64.decimal 163 2) (6 / 1) via_1_2)
  = Ok (0, 9780000)%Z.
Proof. repeat split; vm_compute; reflexivity. Qed.

(** A cell that is not a number is loaded, and ends the loop at its
    record: [wxPointMM] raises [ValueError] for nan and [OverflowError] for
    an infinity, the record before it placed. *)
Example nan_cell_stops_the_loop :
  snd (B64.funnelFromCSV cast_zero blank_via float64_of_decimal csv_nan_cell
         (B64.decimal 188 2) (B64.decimal 163 2) 10 empty_board)
  = Some ValueError /\
  snd (B64.funnelFromCSV cast_zero blank_via float64_of_decimal csv_inf_cell
         (B64.decimal 188 2) (B64.decimal 163 2) 10 empty_board)
  = Some OverflowError /\
  List.length
    (items (fst (B64.funnelFromCSV cast_zero blank_via float64_of_decimal
                   csv_nan_cell (B64.decimal 188 2) (B64.decimal 163 2) 10
                   empty_board))) = 4%nat.
Proof. repeat split; vm_compute; reflexivity. Qed.

(** [funnelFromJson] on binary64 follows the order of the file as it does
    on exact numbers: the table written with key 1 first gives the labels
    2, 1, and the table written with key 0 first the labels 1, 2. *)
Example funnelFromJson_file_order_on_binary64 :
  via_positions
    (items (fst (B64.funnelFromJson cast_zero blank_via json_descending64
                   (B64.decimal 188 2) (B64.decimal 163 2) 10 empty_board)))
  = [(10000000, 0)%Z; (1880000, 0)%Z] /\
  labels
    (items (fst (B64.funnelFromJson cast_zero blank_via json_descending64
                   (B64.decimal 188 2) (B64.decimal 163 2) 10 empty_board)))
  = ["2"; "1"] /\
  via_positions
    (items (fst (B64.funnelFromJson cast_zero blank_via json_ascending64
                   (B64.decimal 188 2) (B64.decimal 163 2) 10 empty_board)))
  = [(0, 0)%Z; (11879999, 0)%Z] /\
  labels
    (items (fst (B64.funnelFromJson cast_zero blank_via json_ascending64
                   (B64.decimal 188 2) (B64.decimal 163 2) 10 empty_board)))
  = ["1"; "2"].
Proof. repeat split; vm_compute; reflexivity. Qed.

(** C4. The circles are not at the position of the via.  With ten columns
    and a step of 1.88 mm the record at position 5 has
    [X = 1.88 * 5 = 9.399999999999999] mm in binary64: [wxPointMM] cuts it
    to 9399999 host units for the via, and [pcbIUScale.mmToIU], which
    [create_via] uses for the X of the circles, rounds it to 9400000.
    The Y of the circles is that of the via, taken from [newPos]. *)
Theorem mask_circles_miss_the_via (int_cast : B64.float -> Z) (new_via : PCB_VIA) :
  snd (B64.funnelFromCSV int_cast new_via float64_of_decimal
         (csv_vias_at_origin 7) (B64.decimal 188 2) (B64.decimal 163 2) 10
         empty_board) = None /\
  nth_error
    (via_positions
       (items (fst (B64.funnelFromCSV int_cast new_via float64_of_decimal
                      (csv_vias_at_origin 7) (B64.decimal 188 2)
                      (B64.decimal 163 2) 10 empty_board)))) 5
  = Some (9399999, 0)%Z /\
  firstn 2 (skipn 10
    (mask_centres
       (items (fst (B64.funnelFromCSV int_cast new_via float64_of_decimal
                      (csv_vias_at_origin 7) (B64.decimal 188 2)
                      (B64.decimal 163 2) 10 empty_board)))))
  = [(9400000, 0)%Z; (9400000, 0)%Z].
Proof. repeat split; vm_compute; reflexivity. Qed.

(** C9. [distributeX] changes Y, and misses the step in X.  Four selected
    footprints at (900000, 7000000) host units and a step of 360 mils: each
    Y goes through [ToMils] and [wxPointMils], 7000000 / 25400.0 * 25400.0,
    which is just below 7000000 in binary64 and is cut to 6999999; the
    fourth footprint, three steps away, ends at X = 28331999 where
    900000 + 3 * 360 * 25400 is 28332000. *)
Theorem distributeX_loses_a_host_unit :
  snd (B64.distributeX (B64.Int 360) board_at_7000000) = None /\
  map fp_position (footprints (fst (B64.distributeX (B64.Int 360) board_at_7000000)))
  = [(900000, 6999999)%Z; (10044000, 6999999)%Z; (19188000, 6999999)%Z;
     (28331999, 6999999)%Z] /\
  map fp_position (footprints (fst (B64.distributeX (B64.Float (B64.of_Z 360))
                                      board_at_7000000)))
  = [(900000, 6999999)%Z; (10044000, 6999999)%Z; (19188000, 6999999)%Z;
     (28331999, 6999999)%Z].
Proof. repeat split; vm_compute; reflexivity. Qed.

(** * Further properties of the code on binary64 floats *)

(** ** funnelFromJson *)

Section Json64.
Local Open Scope Z_scope.
Variable int_cast : B64.float -> Z.
Variable new_via : PCB_VIA.
Variables xStep yStep : B64.float.
Variable numCols : Z.
Hypothesis columns : 1 <= numCols.

Lemma via_of_jvia_raises (jv : B64.jvia) (e : exn) :
  B64.via_of_jvia jv = Raise e -> e = OverflowError.
Proof.
  unfold B64.via_of_jvia, B64.to_float.
  destruct (B64.jX jv) as [z|f]; [destruct (B64.float_of_int z) eqn:H1|];
    cbn [rbind]; try (intros [= <-]; apply (float_of_int_raises _ _ H1));
  (destruct (B64.jY jv) as [z2|f2]; [destruct (B64.float_of_int z2) eqn:H2|];
    cbn [rbind]; try (intros [= <-]; apply (float_of_int_raises _ _ H2));
   (destruct (B64.jID jv) as [z3|f3]; [destruct (B64.float_of_int z3) eqn:H3|];
     cbn [rbind]; try (intros [= <-]; apply (float_of_int_raises _ _ H3));
    (destruct (B64.jOD jv) as [z4|f4]; [destruct (B64.float_of_int z4) eqn:H4|];
      cbn [rbind]; try (intros [= <-]; apply (float_of_int_raises _ _ H4));
     discriminate))).
Qed.

(** A turn whose key is no integer adds nothing. *)
Lemma turn_objects_bad_key (lookup : string -> result B64.via) (i : Z)
    (k : string) (e : exn) :
  Py.int k = Raise e ->
  exists e',
    turn_objects int_cast new_via lookup xStep yStep numCols i k = ([], Some e').
Proof.
  intros Hk. unfold turn_objects, turn_values.
  destruct (lookup k) as [v|e0]; cbn [rbind]; [|eauto].
  destruct (B64.float_of_int (i mod numCols)) as [col|e0]; cbn [rbind]; [|eauto].
  destruct (B64.wxPointMM (cell_x xStep col v) _) as [q|e0]; cbn [rbind]; [|eauto].
  rewrite Hk. cbn [rbind]. eauto.
Qed.

Lemma grid_objects_prefix (lookup : string -> result B64.via)
    (good rest : list string) (bad : string) (e : exn) :
  forall i,
  (forall (j : nat) k, nth_error good j = Some k ->
     snd (turn_objects int_cast new_via lookup xStep yStep numCols (i + Z.of_nat j) k)
     = None) ->
  turn_objects int_cast new_via lookup xStep yStep numCols
    (i + Z.of_nat (List.length good)) bad = ([], Some e) ->
  List.length (fst (grid_objects int_cast new_via lookup xStep yStep numCols i
                      (good ++ bad :: rest)))
  = (4 * List.length good)%nat.
Proof.
  induction good as [|k good IH]; intros i Hgood Hbad.
  - cbn [app grid_objects List.length] in *. rewrite Z.add_0_r in Hbad.
    now rewrite Hbad.
  - cbn [app grid_objects].
    pose proof (Hgood 0%nat k eq_refl) as H0. rewrite Z.add_0_r in H0.
    pose proof (turn_objects_length int_cast new_via lookup xStep yStep numCols i k)
      as Hturn.
    destruct (turn_objects int_cast new_via lookup xStep yStep numCols i k)
      as [objs [e0|]]; cbn [snd] in H0; [discriminate|].
    specialize (IH (i + 1)).
    destruct (grid_objects int_cast new_via lookup xStep yStep numCols (i + 1)
                (good ++ bad :: rest)) as [objs' o]. cbn [fst] in *.
    rewrite length_app, IH; cbn [List.length]; [lia| |].
    + intros j k' Hj.
      replace (i + 1 + Z.of_nat j) with (i + Z.of_nat (S j)) by lia.
      now apply (Hgood (S j)).
    + replace (i + 1 + Z.of_nat (List.length good))
        with (i + Z.of_nat (List.length (k :: good))) by (cbn [List.length]; lia).
      exact Hbad.
Qed.

Lemma funnelFromJson_grid (jsonFile : dict B64.jvia) (board : BOARD) :
  B64.funnelFromJson int_cast new_via jsonFile xStep yStep numCols board
  = ({| items := items board
                 ++ fst (grid_objects int_cast new_via
                           (fun k => v <- getitem k jsonFile ;; B64.via_of_jvia v)
                           xStep yStep numCols 0 (dict_keys jsonFile));
        footprints := footprints board |},
     snd (grid_objects int_cast new_via
            (fun k => v <- getitem k jsonFile ;; B64.via_of_jvia v)
            xStep yStep numCols 0 (dict_keys jsonFile))).
Proof.
  unfold B64.funnelFromJson.
  change (B64.wxPointMM (B64.of_Z 0) (B64.of_Z 0)) with (@Ok point (0, 0)).
  cbn [rbind]. now apply funnel_loop_grid.
Qed.
End Json64.

(** X8. [funnelFromJson] reads the integer of a key only when it writes
    the label of that record.  When some key of the table does not read as
    an integer the call ends with an exception, [ValueError] or
    [OverflowError], and has placed records before that key only; each
    record that it placed in full is at its cell, in the order of the
    table, and stays on the board.  When the keys before all read as
    integers and the positions of their records convert to host units,
    all of these records are placed. *)
Theorem funnelFromJson_stops_at_bad_key
    (int_cast : B64.float -> Z) (new_via : PCB_VIA) (jsonFile : dict B64.jvia)
    (good rest : list string) (bad : string) (e : exn)
    (xStep yStep : B64.float) (numCols : Z) (board : BOARD) :
  (1 <= numCols)%Z ->
  dict_keys jsonFile = good ++ bad :: rest ->
  Py.int bad = Raise e ->
  exists new ex,
    B64.funnelFromJson int_cast new_via jsonFile xStep yStep numCols board
    = ({| items := items board ++ new; footprints := footprints board |}, Some ex) /\
    (ex = ValueError \/ ex = OverflowError) /\
    (List.length new <= 4 * List.length good)%nat /\
    (forall (i : nat) (k : string),
       nth_error good i = Some k ->
       (4 * i + 4 <= List.length new)%nat ->
       exists jv v n col,
         dict_get k jsonFile = Some jv /\ B64.via_of_jvia jv = Ok v /\
         Py.int k = Ok n /\
         B64.float_of_int (Z.of_nat i mod numCols) = Ok col /\
         placed_at int_cast (cell_x xStep col v)
           (cell_y yStep (Z.to_nat (Z.of_nat i / numCols)) v) n v
         = Ok (firstn 4 (skipn (4 * i) new))) /\
    ((forall (i : nat) k jv,
        nth_error good i = Some k -> dict_get k jsonFile = Some jv ->
        exists v n col q p,
          B64.via_of_jvia jv = Ok v /\ Py.int k = Ok n /\
          B64.float_of_int (Z.of_nat i mod numCols) = Ok col /\
          B64.wxPointMM (cell_x xStep col v)
            (label_y (cell_y yStep (Z.to_nat (Z.of_nat i / numCols)) v) v) = Ok q /\
          B64.wxPointMM (cell_x xStep col v)
            (cell_y yStep (Z.to_nat (Z.of_nat i / numCols)) v) = Ok p) ->
     List.length new = (4 * List.length good)%nat).
Proof.
  intros Hn Hkeys Hbad.
  set (lookup := fun k => v <- getitem k jsonFile ;; B64.via_of_jvia v).
  exists (fst (grid_objects int_cast new_via lookup xStep yStep numCols 0
                 (dict_keys jsonFile))).
  destruct (turn_objects_bad_key int_cast new_via xStep yStep numCols lookup
              (0 + Z.of_nat (List.length good)) bad e Hbad) as [e' Hturn].
  destruct (grid_objects_stops int_cast new_via lookup xStep yStep numCols
              good rest bad 0%Z) as [[ex Hex] Hlen].
  { exists e'. now rewrite Hturn. }
  exists ex. rewrite funnelFromJson_grid by assumption. fold lookup.
  rewrite Hkeys, Hex. split; [reflexivity|]. split.
  { apply (grid_objects_raises int_cast new_via lookup xStep yStep numCols
             (good ++ bad :: rest) ex) with (i := 0%Z); [|exact Hex].
    intros k e0 Hk. rewrite <- Hkeys in Hk. unfold lookup, getitem.
    destruct (dict_get_in _ _ Hk) as [jv ->]. cbn [rbind]. intros Hraise.
    right. apply (via_of_jvia_raises _ _ Hraise). }
  split; [exact Hlen|]. split.
  { intros i k Hk Hgroup.
    assert (Hk' : nth_error (good ++ bad :: rest) i = Some k).
    { rewrite nth_error_app1; [exact Hk|]. apply nth_error_Some. congruence. }
    pose proof (grid_objects_group int_cast new_via lookup xStep yStep numCols
                  (good ++ bad :: rest) 0%Z i k Hk' Hgroup) as Hgrp.
    rewrite Z.add_0_l in Hgrp.
    destruct (turn_objects_ok _ _ _ _ _ _ _ _ _ Hgrp) as [v [n [col [Hv [Hi Hcol]]]]].
    pose proof Hv as Hv'. unfold lookup, getitem in Hv'.
    destruct (dict_get k jsonFile) as [jv|] eqn:Hget; [|discriminate].
    cbn [rbind] in Hv'. exists jv, v, n, col. repeat split; auto.
    now apply (turn_objects_placed int_cast new_via lookup xStep yStep numCols
                 (Z.of_nat i) k v n col _ Hv Hi Hcol). }
  intros Hconv.
  apply (grid_objects_prefix int_cast new_via xStep yStep numCols lookup
           good rest bad e' 0%Z); [|exact Hturn].
  intros j k Hk. rewrite Z.add_0_l.
  assert (Hin : In k (dict_keys jsonFile)).
  { rewrite Hkeys. apply in_or_app. left. apply (nth_error_In _ _ Hk). }
  destruct (dict_get_in _ _ Hin) as [jv Hget].
  destruct (Hconv j k jv Hk Hget) as [v [n [col [q [p [Hv [Hi [Hcol [Hq Hp]]]]]]]]].
  assert (Hlook : lookup k = Ok v).
  { unfold lookup, getitem. rewrite Hget. exact Hv. }
  eassert (Hpl : placed_at int_cast (cell_x xStep col v)
                   (cell_y yStep (Z.to_nat (Z.of_nat j / numCols)) v) n v = Ok _)
    by (unfold placed_at; rewrite Hq, Hp; reflexivity).
  apply (turn_objects_placed int_cast new_via lookup xStep yStep numCols
           (Z.of_nat j) k v n col _ Hlook Hi Hcol) in Hpl.
  now rewrite Hpl.
Qed.

Lemma funnelFromJson_stops_at_bad_key_witness :
  exists new,
    B64.funnelFromJson cast_zero blank_via json_bad_key64
      (B64.decimal 188 2) (B64.decimal 163 2) 10 empty_board
    = ({| items := new; footprints := [] |}, Some ValueError) /\
    List.length new = 4%nat.
Proof.
  destruct (funnelFromJson_stops_at_bad_key cast_zero blank_via json_bad_key64
              ["0"] [] "a" ValueError (B64.decimal 188 2) (B64.decimal 163 2) 10
              empty_board) as [new [ex [Hrun [_ [_ [_ Hall]]]]]].
  - lia.
  - reflexivity.
  - reflexivity.
  - exists new. vm_compute in Hrun. injection Hrun as <- <-.
    split; reflexivity.
Defined.

(** ** The settings dialog and Run *)

Lemma leb_zero_false (x : B64.float) :
  B64.leb x B64.zero = false <-> accepted_step x.
Proof.
  unfold accepted_step.
  destruct x as [[|]|[|]| |[|] mx ex]; cbn; split; intros H; auto;
    try discriminate; destruct H; discriminate.
Qed.

(** [nan] typed as a step closes the dialog. *)
Example nan_step_closes_the_dialog :
  snd (B64._on_ok float64_of_decimal B64.new_dialog click_nan) = true.
Proof. reflexivity. Qed.

Section DialogFacts64.
Local Open Scope Z_scope.
Variable float_of_str : string -> result B64.float.

Lemma read_steps64_ok (c : controls) (x y : B64.float) :
  B64.read_steps float_of_str c = Ok (x, y) <->
  float_of_str (Py.strip (txt_x c)) = Ok x /\
  float_of_str (Py.strip (txt_y c)) = Ok y /\
  accepted_step x /\ accepted_step y.
Proof.
  unfold B64.read_steps. rewrite <- !leb_zero_false.
  destruct (float_of_str (Py.strip (txt_x c))) as [x0|]; cbn [rbind];
    [|split; [discriminate | intros [H _]; discriminate]].
  destruct (float_of_str (Py.strip (txt_y c))) as [y0|]; cbn [rbind];
    [|split; [discriminate | intros [_ [H _]]; discriminate]].
  destruct (B64.leb x0 B64.zero) eqn:Hx; destruct (B64.leb y0 B64.zero) eqn:Hy;
    cbn [orb]; split; try discriminate;
    try (intros [[= ->] [[= ->] [H1 H2]]]; congruence).
  intros [= <- <-]. auto.
Qed.

Lemma on_ok64_accepted (self dlg : B64.ViaGridDialog) (c : controls) :
  B64._on_ok float_of_str self c = (dlg, true) ->
  exists x y,
    B64.read_steps float_of_str c = Ok (x, y) /\ 1 <= spin_cols c /\
    dlg = {| B64._x := Some x; B64._y := Some y; B64._cols := Some (spin_cols c);
             B64._units := Some (or_inches (choice_units c)) |}.
Proof.
  unfold B64._on_ok.
  destruct (B64.read_steps float_of_str c) as [[x y]|]; [|discriminate].
  destruct (Z.ltb_spec (spin_cols c) 1); [discriminate|].
  intros [= <-]. exists x, y. auto.
Qed.

Lemma on_ok64_rejected (self dlg : B64.ViaGridDialog) (c : controls) :
  B64._on_ok float_of_str self c = (dlg, false) -> dlg = self.
Proof.
  unfold B64._on_ok.
  destruct (B64.read_steps float_of_str c) as [[x y]|]; [|congruence].
  destruct (spin_cols c <? 1); congruence.
Qed.

Lemma or_inches_idem (s : string) : or_inches (or_inches s) = or_inches s.
Proof. destruct s; reflexivity. Qed.

Lemma get_values_mm64_set (x y : B64.float) (cols : Z) (u : string) :
  B64.get_values_mm {| B64._x := Some x; B64._y := Some y; B64._cols := Some cols;
                       B64._units := Some (or_inches u) |}
  = Ok (Some (if String.eqb (Py.lower (or_inches u)) "inches"
              then (B64.mul x (B64.decimal 254 1), B64.mul y (B64.decimal 254 1), cols)
              else (x, y, cols))).
Proof.
  unfold B64.get_values_mm. cbn [B64._x B64._y B64._cols B64._units].
  rewrite or_inches_idem.
  now destruct (String.eqb (Py.lower (or_inches u)) "inches").
Qed.

End DialogFacts64.

(** X15. A click on OK that closes the dialog has read two steps, each
    greater than zero or not a number, and at least one column; what
    [get_values_mm] then gives to the caller is these settings in
    millimetres: each step times 25.4, in binary64, when the unit, in any
    letter case, is inches or none is selected, and the steps as typed for
    any other unit. *)
Theorem on_ok_gives_settings_in_mm
    (float_of_str : string -> result B64.float) (self dlg : B64.ViaGridDialog)
    (c : controls) :
  B64._on_ok float_of_str self c = (dlg, true) ->
  exists x y,
    float_of_str (Py.strip (txt_x c)) = Ok x /\
    float_of_str (Py.strip (txt_y c)) = Ok y /\
    accepted_step x /\ accepted_step y /\ (1 <= spin_cols c)%Z /\
    B64.get_values_mm dlg
    = Ok (Some (if String.eqb (Py.lower (or_inches (choice_units c))) "inches"
                then (B64.mul x (B64.decimal 254 1), B64.mul y (B64.decimal 254 1),
                      spin_cols c)
                else (x, y, spin_cols c))).
Proof.
  intros H. apply on_ok64_accepted in H. destruct H as [x [y [Hread [Hcols ->]]]].
  apply read_steps64_ok in Hread. destruct Hread as [Hx [Hy [Hxpos Hypos]]].
  exists x, y. repeat split; auto. apply get_values_mm64_set.
Qed.

Lemma on_ok_gives_settings_in_mm_witness :
  exists dlg,
    B64._on_ok float64_of_decimal B64.new_dialog click_inches = (dlg, true) /\
    B64.get_values_mm dlg
    = Ok (Some (B64.mul (B64.decimal 5 1) (B64.decimal 254 1),
                B64.mul (B64.decimal 25 2) (B64.decimal 254 1), 10%Z)).
Proof.
  eexists. split; [reflexivity|].
  destruct (on_ok_gives_settings_in_mm float64_of_decimal B64.new_dialog _
              click_inches eq_refl) as [x [y [Hx [Hy [_ [_ [_ Hget]]]]]]].
  vm_compute in Hx, Hy. injection Hx as <-. injection Hy as <-. exact Hget.
Defined.

(** X16. A click on OK closes the dialog exactly when both step fields,
    stripped of surrounding blanks, read as floats that are not below or
    equal to zero, and the column count is at least one.  The test
    [x <= 0 or y <= 0] is false for nan, so a step that is not a number
    passes.  A click that does not close the dialog changes nothing of
    what the dialog holds. *)
Theorem on_ok_closes_iff
    (float_of_str : string -> result B64.float) (self : B64.ViaGridDialog)
    (c : controls) :
  (snd (B64._on_ok float_of_str self c) = true <->
   exists x y,
     float_of_str (Py.strip (txt_x c)) = Ok x /\
     float_of_str (Py.strip (txt_y c)) = Ok y /\
     accepted_step x /\ accepted_step y /\ (1 <= spin_cols c)%Z) /\
  (snd (B64._on_ok float_of_str self c) = false ->
   fst (B64._on_ok float_of_str self c) = self) /\
  (float_of_str (Py.strip (txt_x c)) = Ok S754_nan ->
   float_of_str (Py.strip (txt_y c)) = Ok S754_nan ->
   (1 <= spin_cols c)%Z ->
   snd (B64._on_ok float_of_str self c) = true).
Proof.
  assert (Hiff : snd (B64._on_ok float_of_str self c) = true <->
                 exists x y,
                   float_of_str (Py.strip (txt_x c)) = Ok x /\
                   float_of_str (Py.strip (txt_y c)) = Ok y /\
                   accepted_step x /\ accepted_step y /\ (1 <= spin_cols c)%Z).
  { split.
    - destruct (B64._on_ok float_of_str self c) as [dlg b] eqn:Hok. cbn [snd].
      intros ->. apply on_ok64_accepted in Hok.
      destruct Hok as [x [y [Hread [Hcols _]]]].
      apply read_steps64_ok in Hread. destruct Hread as [Hx [Hy [Hxpos Hypos]]].
      exists x, y. auto.
    - intros [x [y [Hx [Hy [Hxpos [Hypos Hcols]]]]]].
      assert (Hread : B64.read_steps float_of_str c = Ok (x, y))
        by (apply read_steps64_ok; auto).
      unfold B64._on_ok. rewrite Hread.
      destruct (Z.ltb_spec (spin_cols c) 1); [lia | reflexivity]. }
  split; [exact Hiff|]. split.
  - destruct (B64._on_ok float_of_str self c) as [dlg b] eqn:Hok. cbn [fst snd].
    intros ->. now apply on_ok64_rejected in Hok.
  - intros Hx Hy Hcols. apply Hiff. exists S754_nan, S754_nan.
    repeat split; auto; now left.
Qed.


(** ** distributeX *)

Section DistributeX64.
Local Open Scope Z_scope.
Variable xStep : B64.num.





End DistributeX64.

